(** * PodiumJS: a shallow embedding of the WebGPU convenience layer

    The development follows the TypeScript sources class by class:
    [WebGPUContext], [UniformManager], [ShaderManager], [TextureManager],
    [Plane], [PostProcessor] and [Podium].  JavaScript numbers are IEEE-754
    binary64 values ([spec_float] at precision 53), a [Float32Array] is a
    list of numbers that went through [Math.fround], a [Map] is an
    insertion-ordered association list, and every method is a computation
    over the object graph that may return or throw. *)

From Stdlib Require Import ZArith List String Bool Lia PeanoNat DecimalString.
From Stdlib Require Import Floats.SpecFloat.
Import ListNotations.

Set Implicit Arguments.
Local Open Scope Z_scope.

(* ================================================================== *)
(** * JavaScript numbers *)
(* ================================================================== *)

Module JsNumber.

(** A JavaScript [number] is a binary64 float. *)
Definition number := spec_float.

Definition prec64 : Z := 53.
Definition emax64 : Z := 1024.
Definition prec32 : Z := 24.
Definition emax32 : Z := 128.

Definition mul : number -> number -> number := SFmul prec64 emax64.
Definition add : number -> number -> number := SFadd prec64 emax64.
Definition sub : number -> number -> number := SFsub prec64 emax64.
Definition div : number -> number -> number := SFdiv prec64 emax64.

(** [===] on numbers: IEEE equality, [NaN] differs from itself and the
    two zeros are equal. *)
Definition eqb : number -> number -> bool := SFeqb.

Definition NaN : number := S754_nan.
Definition Infinity : number := S754_infinity false.
Definition zero : number := S754_zero false.
Definition one : number := Eval cbv in SFone prec64 emax64.

(** A decimal literal [n/d] with integers [n] and [d] that are exact in
    binary64, such as [0.8] as [8/10]: the correctly rounded quotient is
    the number the literal denotes. *)
Definition decimal (n d : Z) : number :=
  div (binary_normalize prec64 emax64 n 0 false)
      (binary_normalize prec64 emax64 d 0 false).

(** An integer literal as a number. *)
Definition of_Z (z : Z) : number :=
  Eval cbv beta delta [binary_normalize] in binary_normalize prec64 emax64 z 0 false.

(** [Math.fround]: round to the nearest binary32 value (ties to even),
    the result being again a binary64 number. *)
Definition fround (x : number) : number :=
  match x with
  | S754_finite s m e =>
      match binary_round prec32 emax32 s m e with
      | S754_finite s' m' e' => binary_round prec64 emax64 s' m' e'
      | y => y
      end
  | _ => x
  end.

Definition is_zero (x : number) : bool :=
  match x with S754_zero _ => true | _ => false end.

(** Neither [NaN] nor an infinity. *)
Definition isFinite (x : number) : bool :=
  match x with
  | S754_zero _ | S754_finite _ _ _ => true
  | _ => false
  end.

(** A value a [Float32Array] slot can hold and that is finite. *)
Definition finite_f32 (x : number) : Prop :=
  isFinite x = true /\ valid_binary prec64 emax64 x = true /\ fround x = x.

(** A non-negative integer, such as a loop counter, as a number. *)
Definition of_nat (n : nat) : number := of_Z (Z.of_nat n).

End JsNumber.

(* ================================================================== *)
(** * Float32Array *)
(* ================================================================== *)

Module Float32Array.
Import JsNumber.

Definition t := list number.

(** [new Float32Array(n)]: [n] lanes holding [+0]. *)
Definition make (n : nat) : t := repeat zero n.

(** [new Float32Array([x0, x1, ...])]: every element is rounded. *)
Definition of_list (xs : list number) : t := map fround xs.

(** [a[i]] read inside an arithmetic expression: an index past the end
    reads [undefined], which [ToNumber] turns into [NaN]. *)
Definition get (a : t) (i : nat) : number := nth i a NaN.

(** [a[i] = v]: the value is rounded; an index past the end is ignored. *)
Fixpoint set (a : t) (i : nat) (v : number) : t :=
  match a, i with
  | [], _ => []
  | _ :: r, O => fround v :: r
  | x :: r, S i' => x :: set r i' v
  end.

(** [target.set(source, 0)] of the typed-array API: copies [source] over
    the first lanes of [target], and throws a [RangeError] ([None]) when
    [source] is longer than [target]. *)
Fixpoint blit (target source : t) : option t :=
  match source, target with
  | [], _ => Some target
  | _ :: _, [] => None
  | s :: source', _ :: target' =>
      match blit target' source' with
      | Some r => Some (s :: r)
      | None => None
      end
  end.

End Float32Array.

(* ================================================================== *)
(** * The static matrix helpers of UniformManager *)
(* ================================================================== *)

Module Matrix.
Import JsNumber.

(** [UniformManager.createIdentityMatrix]. *)
Definition createIdentityMatrix : Float32Array.t :=
  Float32Array.of_list
    [ one; zero; zero; zero;
      zero; one; zero; zero;
      zero; zero; one; zero;
      zero; zero; zero; one ].

(** [UniformManager.createTranslationMatrix] ([z] defaults to [0] at the
    call site). *)
Definition createTranslationMatrix (x y z : number) : Float32Array.t :=
  Float32Array.of_list
    [ one; zero; zero; zero;
      zero; one; zero; zero;
      zero; zero; one; zero;
      x; y; z; one ].

(** [UniformManager.createScaleMatrix]. *)
Definition createScaleMatrix (x y z : number) : Float32Array.t :=
  Float32Array.of_list
    [ x; zero; zero; zero;
      zero; y; zero; zero;
      zero; zero; z; zero;
      zero; zero; zero; one ].

(** The body of the inner loop of [multiplyMatrices]:
    [a[i*4+0]*b[0*4+j] + a[i*4+1]*b[1*4+j] + a[i*4+2]*b[2*4+j] + a[i*4+3]*b[3*4+j]],
    with [+] associating to the left. *)
Definition entry (a b : Float32Array.t) (i j : nat) : number :=
  let A k := Float32Array.get a (i * 4 + k)%nat in
  let B k := Float32Array.get b (k * 4 + j)%nat in
  add (add (add (mul (A 0%nat) (B 0%nat)) (mul (A 1%nat) (B 1%nat)))
           (mul (A 2%nat) (B 2%nat)))
      (mul (A 3%nat) (B 3%nat)).

(** [UniformManager.multiplyMatrices]: the two nested [for] loops over
    [i] and [j] in [0..3], writing [result[i*4+j]]. *)
Definition multiplyMatrices (a b : Float32Array.t) : Float32Array.t :=
  fold_left
    (fun result i =>
       fold_left
         (fun result j => Float32Array.set result (i * 4 + j)%nat (entry a b i j))
         (seq 0 4) result)
    (seq 0 4) (Float32Array.make 16).

End Matrix.

(* ================================================================== *)
(** * Insertion-ordered maps and objects with string keys *)
(* ================================================================== *)

(** A JavaScript [Map<string, V>] (and an object used as a record of
    options) iterates in insertion order, and [set] on a key that is
    present keeps the key's position. *)
Module JsMap.
Section Ops.
Variable V : Type.

Definition t := list (string * V).

Definition empty : t := [].

Fixpoint get (m : t) (k : string) : option V :=
  match m with
  | [] => None
  | (k', v) :: r => if String.eqb k k' then Some v else get r k
  end.

Fixpoint set (m : t) (k : string) (v : V) : t :=
  match m with
  | [] => [(k, v)]
  | (k', v') :: r =>
      if String.eqb k k' then (k', v) :: r else (k', v') :: set r k v
  end.

Fixpoint delete (m : t) (k : string) : t :=
  match m with
  | [] => []
  | (k', v') :: r =>
      if String.eqb k k' then r else (k', v') :: delete r k
  end.

Definition keys (m : t) : list string := map fst m.
Definition values (m : t) : list V := map snd m.
Definition size (m : t) : nat := List.length m.

(** [Object.assign(target, source)] and the spread of [source] after
    the keys of [target]. *)
Definition assign (target source : t) : t :=
  fold_left (fun acc kv => set acc (fst kv) (snd kv)) source target.
End Ops.

Arguments empty {V}.
End JsMap.

(* ================================================================== *)
(** * The host: native handles, API calls and the console *)
(* ================================================================== *)

(** Native objects are opaque to the library; each is identified by the
    ordinal of the host call that created it.  A bind group remembers the
    resources it was created over and a view the texture it views, since
    both are immutable once created. *)
Definition GPUDevice := nat.
Definition GPUAdapter := nat.
Definition GPUCanvasContext := nat.
Definition GPUBuffer := nat.
Definition GPUSampler := nat.
Definition GPUShaderModule := nat.
Definition GPUBindGroupLayout := nat.
Definition GPUPipelineLayout := nat.
Definition GPURenderPipeline := nat.
Definition GPUCommandEncoder := nat.
Definition GPUCommandBuffer := nat.
Definition GPURenderPassEncoder := nat.

(** A texture either comes from [device.createTexture] or is the canvas's
    current texture. *)
Inductive GPUTexture :=
| DeviceTexture (id : nat)
| CanvasTexture (id : nat).

Inductive GPUTextureView :=
| ViewOf (texture : GPUTexture).

Inductive GPUBindingResource :=
| BufferBinding (buffer : GPUBuffer)
| ViewBinding (view : GPUTextureView)
| SamplerBinding (sampler : GPUSampler).

Record GPUBindGroup := {
  bg_id : nat;
  bg_entries : list (nat * GPUBindingResource)
}.

(** [GPUBufferUsage], [GPUTextureUsage] and [GPUShaderStage] flags, with
    the values of the WebGPU interface. *)
Module GPUBufferUsage.
Definition COPY_DST : Z := 8.
Definition INDEX : Z := 16.
Definition VERTEX : Z := 32.
Definition UNIFORM : Z := 64.
End GPUBufferUsage.

Module GPUTextureUsage.
Definition COPY_DST : Z := 2.
Definition TEXTURE_BINDING : Z := 4.
Definition RENDER_ATTACHMENT : Z := 16.
End GPUTextureUsage.

Module GPUShaderStage.
Definition VERTEX : Z := 1.
Definition FRAGMENT : Z := 2.
End GPUShaderStage.

(** The WGSL texts are kept symbolic: the library never inspects them. *)
Inductive WGSL :=
| CopyVertex | CopyFragment
| BlurVertex | BlurFragment
| BloomVertex | BloomFragment
| ColorCorrectionVertex | ColorCorrectionFragment
| VignetteVertex | VignetteFragment
| FilmGrainVertex | FilmGrainFragment
| BasicTextureVertex | BasicTextureFragment
| UniformVertex | UniformFragment
| Source (code : string).

Record ShaderSource := { vertex : WGSL; fragment : WGSL }.

Inductive GPUBindGroupLayoutEntry :=
| BufferEntry (binding : nat) (visibility : Z) (type : string)
| TextureEntry (binding : nat) (visibility : Z) (sampleType viewDimension : string)
| SamplerEntry (binding : nat) (visibility : Z).

Record GPUVertexAttribute := {
  shaderLocation : nat; attr_offset : Z; attr_format : string
}.

Record GPUVertexBufferLayout := {
  arrayStride : Z; attributes : list GPUVertexAttribute
}.

(** What [HTMLImageElement] and [HTMLVideoElement] expose to the library. *)
Record HTMLImageElement := { image_src : string; image_width : Z; image_height : Z }.
Record HTMLVideoElement := { video_src : string; videoWidth : Z; videoHeight : Z }.

Inductive ExternalSource :=
| ImageSource (image : HTMLImageElement)
| VideoSource (video : HTMLVideoElement).

Record GPURenderPipelineDescriptor := {
  rpd_label : string;
  rpd_layout : GPUPipelineLayout;
  rpd_vertex_module : GPUShaderModule;
  rpd_vertex_buffers : list GPUVertexBufferLayout;
  rpd_fragment_module : GPUShaderModule;
  rpd_target_format : string;
  rpd_topology : string;
  rpd_cullMode : string;
  rpd_frontFace : string;
  (** [Some (depthWriteEnabled, depthCompare)] when depth testing is on. *)
  rpd_depthStencil : option (bool * string)
}.

Record GPURenderPassDescriptor := {
  pass_label : string;
  colorView : GPUTextureView;
  depthView : option GPUTextureView
}.

(** Every call the library makes into the host. *)
Inductive ApiCall :=
| RequestAdapter (powerPreference : string) (forceFallbackAdapter : bool)
| RequestDevice
| GetContext
| GetPreferredCanvasFormat
| Configure (device : GPUDevice) (format alphaMode colorSpace : string)
| GetCurrentTexture
| CreateBuffer (label : option string) (size : Z) (usage : Z) (mappedAtCreation : bool)
| GetMappedRange (buffer : GPUBuffer)
| Unmap (buffer : GPUBuffer)
| DestroyBuffer (buffer : GPUBuffer)
| CreateTexture (label : string) (width height : Z) (format : string) (usage : Z)
                (mipLevelCount : option Z)
| CreateView (texture : GPUTexture)
| DestroyTexture (texture : GPUTexture)
| CreateSampler (label addressModeU addressModeV magFilter minFilter : string)
| CreateShaderModule (label : string) (code : WGSL)
| GetCompilationInfo (module : GPUShaderModule)
| CreateBindGroupLayout (label : string) (entries : list GPUBindGroupLayoutEntry)
| CreatePipelineLayout (label : string) (layouts : list GPUBindGroupLayout)
| CreateRenderPipeline (descriptor : GPURenderPipelineDescriptor)
| CreateBindGroup (label : option string) (layout : GPUBindGroupLayout)
                  (entries : list (nat * GPUBindingResource))
| CreateCommandEncoder (label : string)
| BeginRenderPass (encoder : GPUCommandEncoder) (descriptor : GPURenderPassDescriptor)
| SetPipeline (pass : GPURenderPassEncoder) (pipeline : GPURenderPipeline)
| SetBindGroup (pass : GPURenderPassEncoder) (index : nat) (bindGroup : GPUBindGroup)
| SetVertexBuffer (pass : GPURenderPassEncoder) (slot : nat) (buffer : GPUBuffer)
| SetIndexBuffer (pass : GPURenderPassEncoder) (buffer : GPUBuffer) (format : string)
| DrawIndexed (pass : GPURenderPassEncoder) (indexCount : nat)
| EndPass (pass : GPURenderPassEncoder)
| Finish (encoder : GPUCommandEncoder)
| Submit (commands : GPUCommandBuffer)
| WriteBuffer (buffer : GPUBuffer) (offset : Z) (data : Float32Array.t)
| CopyExternalImageToTexture (source : ExternalSource) (flipY : bool)
                             (texture : GPUTexture) (width height : Z)
| DestroyDevice (device : GPUDevice).

(** One entry of the host-call history: the call and the ordinal of the
    object it returned, or [None] when the call threw. *)
Record Event := { ev_call : ApiCall; ev_result : option nat }.

Inductive Exn :=
| TypeError (what : string)
| RangeError (what : string)
| HostError (call : ApiCall)
| LoadError (url : string)
| Error (message : string).

Inductive LogLevel := LogError | LogWarn.
Record LogLine := { level : LogLevel; message : string }.

Record GPUCompilationMessage := { msg_type : string; msg_text : string }.

(** The behaviour of the browser and of the graphics backend, as far as
    the library can observe it.  [rejects n c] says that the call [c],
    made after [n] earlier host calls, throws; [nulls n c] that it returns
    [null] (for the calls whose result the library tests). *)
Record Host := {
  has_gpu : bool;
  rejects : nat -> ApiCall -> bool;
  nulls : nat -> ApiCall -> bool;
  compilationInfo : GPUShaderModule -> list GPUCompilationMessage;
  loadImage : string -> option HTMLImageElement;
  loadVideo : string -> option HTMLVideoElement;
  preferredCanvasFormat : string;
  performance_now : nat -> JsNumber.number;
  date_now : nat -> string
}.

(* ================================================================== *)
(** * The object graph *)
(* ================================================================== *)

(** Values found under the keys of a [UniformData] or [EffectOptions]
    object. *)
Inductive JsValue :=
| VUndefined
| VNumber (n : JsNumber.number)
| VPair (x y : JsNumber.number)
| VFloat32Array (a : Float32Array.t)
| VString (s : string)
| VBoolean (b : bool).

Definition JsObject := JsMap.t JsValue.
Definition UniformData := JsObject.
Definition EffectOptions := JsObject.

Record WebGPUContextOptions := {
  powerPreference : option string;
  forceFallbackAdapter : option bool;
  alphaMode : option string;
  colorSpace : option string
}.

Record WebGPUContextState := {
  canvas_width : Z;
  canvas_height : Z;
  adapter : option GPUAdapter;
  device : option GPUDevice;
  context : option GPUCanvasContext;
  presentationFormat : string;
  ctx_options : WebGPUContextOptions
}.

Record ShaderManagerState := {
  shaderModules : JsMap.t GPUShaderModule;
  pipelines : JsMap.t GPURenderPipeline;
  bindGroupLayouts : JsMap.t GPUBindGroupLayout
}.

Record TextureManagerState := {
  textures : JsMap.t GPUTexture;
  samplers : JsMap.t GPUSampler;
  imageCache : JsMap.t HTMLImageElement;
  videoCache : JsMap.t HTMLVideoElement
}.

Record UniformManagerState := {
  uniformBuffers : JsMap.t GPUBuffer;
  bindGroups : JsMap.t GPUBindGroup;
  uniformLayouts : JsMap.t GPUBindGroupLayout
}.

(** A [Plane]; of its geometry only the counts that reach the host are
    kept. *)
Record PlaneState := {
  vertexBuffer : option GPUBuffer;
  indexBuffer : option GPUBuffer;
  vertexCount : nat;
  indexCount : nat
}.

Record PostProcessPass := {
  pass_id : string;
  pass_shader : ShaderSource;
  pass_pipeline : GPURenderPipeline;
  pass_bindGroup : GPUBindGroup;
  pass_uniformBuffer : option GPUBuffer;
  enabled : bool;
  pass_options : EffectOptions
}.

Record PostProcessorState := {
  renderTarget : option GPUTexture;
  depthTexture : option GPUTexture;
  tempTargets : list GPUTexture;
  passes : JsMap.t PostProcessPass;
  fullscreenQuad : option PlaneState;
  width : Z;
  height : Z
}.

Record RenderObject := {
  obj_id : string;
  plane : PlaneState;
  obj_pipeline : GPURenderPipeline;
  obj_bindGroup : GPUBindGroup;
  obj_uniformBuffer : option GPUBuffer;
  visible : bool
}.

Record PodiumState := {
  renderObjects : JsMap.t RenderObject;
  isInitialized : bool;
  startTime : JsNumber.number;
  frameCount : nat
}.

(** One [Podium] instance with everything it owns.  The three managers and
    the post-processor all hold the same [WebGPUContext]; [postProcessor]
    is [Podium.postProcessor], which is [null] when post-processing is off. *)
Record Heap := {
  host : Host;
  history : list Event;
  clock : nat;
  console : list LogLine;
  ctx : WebGPUContextState;
  shaderManager : ShaderManagerState;
  textureManager : TextureManagerState;
  uniformManager : UniformManagerState;
  postProcessor : option PostProcessorState;
  podium : PodiumState
}.

(** Append an event to the history and advance the clock. *)
Definition record (e : Event) (h : Heap) : Heap :=
  {| host := host h; history := history h ++ [e]; clock := S (clock h);
     console := console h;
     ctx := ctx h; shaderManager := shaderManager h;
     textureManager := textureManager h; uniformManager := uniformManager h;
     postProcessor := postProcessor h; podium := podium h |}.

Definition set_console (f : list LogLine -> list LogLine) (h : Heap) : Heap :=
  {| host := host h; history := history h; clock := clock h;
     console := f (console h);
     ctx := ctx h; shaderManager := shaderManager h;
     textureManager := textureManager h; uniformManager := uniformManager h;
     postProcessor := postProcessor h; podium := podium h |}.

Definition set_ctx (f : WebGPUContextState -> WebGPUContextState) (h : Heap) : Heap :=
  {| host := host h; history := history h; clock := clock h;
     console := console h;
     ctx := f (ctx h); shaderManager := shaderManager h;
     textureManager := textureManager h; uniformManager := uniformManager h;
     postProcessor := postProcessor h; podium := podium h |}.

Definition set_shaderManager (f : ShaderManagerState -> ShaderManagerState) (h : Heap) : Heap :=
  {| host := host h; history := history h; clock := clock h;
     console := console h;
     ctx := ctx h; shaderManager := f (shaderManager h);
     textureManager := textureManager h; uniformManager := uniformManager h;
     postProcessor := postProcessor h; podium := podium h |}.

Definition set_textureManager (f : TextureManagerState -> TextureManagerState) (h : Heap) : Heap :=
  {| host := host h; history := history h; clock := clock h;
     console := console h;
     ctx := ctx h; shaderManager := shaderManager h;
     textureManager := f (textureManager h); uniformManager := uniformManager h;
     postProcessor := postProcessor h; podium := podium h |}.

Definition set_uniformManager (f : UniformManagerState -> UniformManagerState) (h : Heap) : Heap :=
  {| host := host h; history := history h; clock := clock h;
     console := console h;
     ctx := ctx h; shaderManager := shaderManager h;
     textureManager := textureManager h; uniformManager := f (uniformManager h);
     postProcessor := postProcessor h; podium := podium h |}.

Definition set_postProcessor (f : option PostProcessorState -> option PostProcessorState) (h : Heap) : Heap :=
  {| host := host h; history := history h; clock := clock h;
     console := console h;
     ctx := ctx h; shaderManager := shaderManager h;
     textureManager := textureManager h; uniformManager := uniformManager h;
     postProcessor := f (postProcessor h); podium := podium h |}.

Definition set_podium (f : PodiumState -> PodiumState) (h : Heap) : Heap :=
  {| host := host h; history := history h; clock := clock h;
     console := console h;
     ctx := ctx h; shaderManager := shaderManager h;
     textureManager := textureManager h; uniformManager := uniformManager h;
     postProcessor := postProcessor h; podium := f (podium h) |}.

(* ================================================================== *)
(** * Computations: state, exceptions, host calls *)
(* ================================================================== *)

Inductive Outcome (A : Type) :=
| Ret (a : A)
| Throw (e : Exn).
Arguments Throw {A} e.

(** A method body: it runs on the object graph and either returns or
    throws; the mutations made before a [throw] stay, as in JavaScript.
    [await] is sequencing: the library never interleaves two methods. *)
Definition Js (A : Type) := Heap -> Outcome A * Heap.

Definition ret {A} (a : A) : Js A := fun h => (Ret a, h).

Definition bind {A B} (c : Js A) (k : A -> Js B) : Js B :=
  fun h =>
    match c h with
    | (Ret a, h') => k a h'
    | (Throw e, h') => (Throw e, h')
    end.

Definition throw {A} (e : Exn) : Js A := fun h => (Throw e, h).

(** [try { c } catch (error) { handler error }]. *)
Definition try_catch {A} (c : Js A) (handler : Exn -> Js A) : Js A :=
  fun h =>
    match c h with
    | (Ret a, h') => (Ret a, h')
    | (Throw e, h') => handler e h'
    end.

Declare Scope js_scope.
Delimit Scope js_scope with js.
Notation "x <- c ;; k" := (bind c (fun x => k))
  (at level 61, c at next level, right associativity) : js_scope.
Notation "c ;;; k" := (bind c (fun _ => k))
  (at level 61, right associativity) : js_scope.
Local Open Scope js_scope.

Definition gets {A} (f : Heap -> A) : Js A := fun h => (Ret (f h), h).
Definition modify (f : Heap -> Heap) : Js unit := fun h => (Ret tt, f h).

Definition console_error (msg : string) : Js unit :=
  modify (set_console (fun l => l ++ [{| level := LogError; message := msg |}])).

Definition console_warn (msg : string) : Js unit :=
  modify (set_console (fun l => l ++ [{| level := LogWarn; message := msg |}])).

(** A host call: it is appended to the history with its result, and it
    returns the ordinal of the object it creates, the reading of the
    heap's [clock], unless the host rejects it. *)
Definition host_call (c : ApiCall) : Js nat :=
  fun h =>
    if rejects (host h) (clock h) c
    then (Throw (HostError c), record {| ev_call := c; ev_result := None |} h)
    else (Ret (clock h), record {| ev_call := c; ev_result := Some (clock h) |} h).

(** A host call whose result the library tests against [null]. *)
Definition host_call_nullable (c : ApiCall) : Js (option nat) :=
  fun h =>
    if rejects (host h) (clock h) c
    then (Throw (HostError c), record {| ev_call := c; ev_result := None |} h)
    else if nulls (host h) (clock h) c
    then (Ret None, record {| ev_call := c; ev_result := None |} h)
    else (Ret (Some (clock h)),
          record {| ev_call := c; ev_result := Some (clock h) |} h).

(** [xs.forEach(body)] and [for (const x of xs) body]. *)
Fixpoint forEach {A} (xs : list A) (body : A -> Js unit) : Js unit :=
  match xs with
  | [] => ret tt
  | x :: r => body x ;;; forEach r body
  end.

(** [performance.now()]. *)
Definition performance_now_ : Js JsNumber.number :=
  gets (fun h => performance_now (host h) (clock h)).

(** [x ?? d], and [x || false] on an optional flag. *)
Definition or_default {A} (x : option A) (d : A) : A :=
  match x with Some v => v | None => d end.

(** [x || d] on an optional string: the empty string is falsy and takes
    the default as well. *)
Definition string_or (x : option string) (d : string) : string :=
  match x with
  | Some (String c s) => String c s
  | Some EmptyString | None => d
  end.

(** [x!] followed by a property access: a [TypeError] on [null]. *)
Definition non_null {A} (what : string) (x : option A) : Js A :=
  match x with
  | Some v => ret v
  | None => throw (TypeError what)
  end.

Local Open Scope string_scope.

(** The console texts are kept without their quotation marks and
    pictographs, and without the error object that follows them;
    informational [console.log] lines are not recorded. *)

(* ================================================================== *)
(** * WebGPUContext *)
(* ================================================================== *)

Module WebGPUContext.

Definition set_adapter (a : option GPUAdapter) (c : WebGPUContextState) :=
  {| canvas_width := canvas_width c; canvas_height := canvas_height c;
     adapter := a; device := device c; context := context c;
     presentationFormat := presentationFormat c; ctx_options := ctx_options c |}.

Definition set_device (d : option GPUDevice) (c : WebGPUContextState) :=
  {| canvas_width := canvas_width c; canvas_height := canvas_height c;
     adapter := adapter c; device := d; context := context c;
     presentationFormat := presentationFormat c; ctx_options := ctx_options c |}.

Definition set_context (x : option GPUCanvasContext) (c : WebGPUContextState) :=
  {| canvas_width := canvas_width c; canvas_height := canvas_height c;
     adapter := adapter c; device := device c; context := x;
     presentationFormat := presentationFormat c; ctx_options := ctx_options c |}.

Definition set_presentationFormat (f : string) (c : WebGPUContextState) :=
  {| canvas_width := canvas_width c; canvas_height := canvas_height c;
     adapter := adapter c; device := device c; context := context c;
     presentationFormat := f; ctx_options := ctx_options c |}.

Definition set_canvas_size (w h : Z) (c : WebGPUContextState) :=
  {| canvas_width := w; canvas_height := h;
     adapter := adapter c; device := device c; context := context c;
     presentationFormat := presentationFormat c; ctx_options := ctx_options c |}.

(** [new WebGPUContext(options)]. *)
Definition constructor (w h : Z) (options : WebGPUContextOptions) : WebGPUContextState :=
  {| canvas_width := w; canvas_height := h;
     adapter := None; device := None; context := None;
     presentationFormat := "bgra8unorm"; ctx_options := options |}.

Definition initialize : Js bool :=
  try_catch
    (gpu <- gets (fun h => has_gpu (host h)) ;;
     if negb gpu then
       console_error "WebGPU not supported in this browser" ;;; ret false
     else
       opts <- gets (fun h => ctx_options (ctx h)) ;;
       a <- host_call_nullable
              (RequestAdapter (string_or (powerPreference opts) "high-performance")
                              (or_default (forceFallbackAdapter opts) false)) ;;
       modify (set_ctx (set_adapter a)) ;;;
       match a with
       | None => console_error "Failed to get WebGPU adapter" ;;; ret false
       | Some _ =>
           d <- host_call_nullable RequestDevice ;;
           modify (set_ctx (set_device d)) ;;;
           match d with
           | None => console_error "Failed to get WebGPU device" ;;; ret false
           | Some dev =>
               cc <- host_call_nullable GetContext ;;
               modify (set_ctx (set_context cc)) ;;;
               match cc with
               | None =>
                   console_error "Failed to get WebGPU canvas context" ;;; ret false
               | Some _ =>
                   host_call GetPreferredCanvasFormat ;;;
                   fmt <- gets (fun h => preferredCanvasFormat (host h)) ;;
                   modify (set_ctx (set_presentationFormat fmt)) ;;;
                   host_call (Configure dev fmt
                                (string_or (alphaMode opts) "opaque")
                                (string_or (colorSpace opts) "srgb")) ;;;
                   ret true
               end
           end
       end)
    (fun _ => console_error "Error initializing WebGPU:" ;;; ret false).

Definition resize (w h : Z) : Js unit :=
  c <- gets ctx ;;
  if negb (canvas_width c =? w)%Z || negb (canvas_height c =? h)%Z then
    modify (set_ctx (set_canvas_size w h)) ;;;
    match context c, device c with
    | Some _, Some dev =>
        host_call (Configure dev (presentationFormat c)
                     (string_or (alphaMode (ctx_options c)) "opaque")
                     (string_or (colorSpace (ctx_options c)) "srgb")) ;;;
        ret tt
    | _, _ => ret tt
    end
  else ret tt.

Definition getCurrentTextureView : Js (option GPUTextureView) :=
  c <- gets (fun h => context (ctx h)) ;;
  match c with
  | None => ret None
  | Some _ =>
      try_catch
        (n <- host_call GetCurrentTexture ;;
         host_call (CreateView (CanvasTexture n)) ;;;
         ret (Some (ViewOf (CanvasTexture n))))
        (fun _ => console_warn "Failed to get current texture view:" ;;; ret None)
  end.

Definition destroy : Js unit :=
  d <- gets (fun h => device (ctx h)) ;;
  match d with
  | Some dev =>
      host_call (DestroyDevice dev) ;;;
      modify (set_ctx (set_device None))
  | None => ret tt
  end ;;;
  modify (set_ctx (set_adapter None)) ;;;
  modify (set_ctx (set_context None)).

End WebGPUContext.

(* ================================================================== *)
(** * UniformManager *)
(* ================================================================== *)

Module UniformManager.

Definition set_uniformBuffers (f : JsMap.t GPUBuffer -> JsMap.t GPUBuffer)
           (u : UniformManagerState) :=
  {| uniformBuffers := f (uniformBuffers u); bindGroups := bindGroups u;
     uniformLayouts := uniformLayouts u |}.

Definition set_bindGroups (f : JsMap.t GPUBindGroup -> JsMap.t GPUBindGroup)
           (u : UniformManagerState) :=
  {| uniformBuffers := uniformBuffers u; bindGroups := f (bindGroups u);
     uniformLayouts := uniformLayouts u |}.


Definition constructor : UniformManagerState :=
  {| uniformBuffers := JsMap.empty; bindGroups := JsMap.empty;
     uniformLayouts := JsMap.empty |}.

(** [Math.ceil(size / 256)] for a byte count. *)
Definition ceil256 (size : Z) : Z := ((size + 255) / 256)%Z.

(** [createUniformBuffer(label, size, initialData?)]; of [initialData]
    the byte length is kept. *)
Definition createUniformBuffer (label : string) (size : Z) (initialData : option Z)
  : Js (option GPUBuffer) :=
  d <- gets (fun h => device (ctx h)) ;;
  match d with
  | None => console_error "WebGPU device not available" ;;; ret None
  | Some _ =>
      try_catch
        (let alignedSize := Z.max (ceil256 size * 256) 256 in
         buffer <- host_call
                     (CreateBuffer (Some label) alignedSize
                        (Z.lor GPUBufferUsage.UNIFORM GPUBufferUsage.COPY_DST)
                        (match initialData with Some _ => true | None => false end)) ;;
         match initialData with
         | Some byteLength =>
             host_call (GetMappedRange buffer) ;;;
             (if (alignedSize <? byteLength)%Z
              then throw (RangeError "offset is out of bounds")
              else ret tt) ;;;
             host_call (Unmap buffer) ;;;
             ret tt
         | None => ret tt
         end ;;;
         modify (set_uniformManager
                   (set_uniformBuffers (fun m => JsMap.set m label buffer))) ;;;
         ret (Some buffer))
        (fun _ =>
           console_error ("Error creating uniform buffer " ++ label) ;;; ret None)
  end.

(** [serializeUniformData(data)]: the 96-byte buffer seen through its
    [Float32Array] view of 24 lanes. *)
Definition serializeUniformData (data : UniformData) : Js Float32Array.t :=
  let view := Float32Array.make 24 in
  view <- match JsMap.get data "mvpMatrix" with
          | Some (VFloat32Array mvpMatrix) =>
              match Float32Array.blit view mvpMatrix with
              | Some v => ret v
              | None => throw (RangeError "offset is out of bounds")
              end
          | _ =>
              match Float32Array.blit view Matrix.createIdentityMatrix with
              | Some v => ret v
              | None => throw (RangeError "offset is out of bounds")
              end
          end ;;
  match JsMap.get data "time" with
  | Some (VNumber time) => ret (Float32Array.set view 16 time)
  | _ => ret view
  end.

(** [updateUniformBuffer(bufferLabel, data, offset = 0)]. *)
Definition updateUniformBuffer (bufferLabel : string) (data : UniformData) (offset : Z)
  : Js bool :=
  buffer <- gets (fun h => JsMap.get (uniformBuffers (uniformManager h)) bufferLabel) ;;
  d <- gets (fun h => device (ctx h)) ;;
  match buffer, d with
  | Some buffer, Some _ =>
      try_catch
        (serializedData <- serializeUniformData data ;;
         host_call (WriteBuffer buffer offset serializedData) ;;;
         ret true)
        (fun _ =>
           console_error ("Error updating uniform buffer " ++ bufferLabel) ;;;
           ret false)
  | _, _ =>
      console_error ("Uniform buffer " ++ bufferLabel ++ " not found") ;;;
      ret false
  end.


Definition createUniformBindGroup (label : string) (layout : GPUBindGroupLayout)
           (uniformBuffer : GPUBuffer) (texture : option GPUTexture)
           (sampler : option GPUSampler) : Js (option GPUBindGroup) :=
  d <- gets (fun h => device (ctx h)) ;;
  match d with
  | None => ret None
  | Some _ =>
      try_catch
        (let entries := [(0%nat, BufferBinding uniformBuffer)] in
         entries <- match texture with
                    | Some t =>
                        host_call (CreateView t) ;;;
                        ret (entries ++ [(1%nat, ViewBinding (ViewOf t))])%list
                    | None => ret entries
                    end ;;
         let entries := match sampler with
                        | Some s => (entries ++ [(2%nat, SamplerBinding s)])%list
                        | None => entries
                        end in
         n <- host_call (CreateBindGroup (Some label) layout entries) ;;
         let bindGroup := {| bg_id := n; bg_entries := entries |} in
         modify (set_uniformManager
                   (set_bindGroups (fun m => JsMap.set m label bindGroup))) ;;;
         ret (Some bindGroup))
        (fun _ => console_error ("Error creating bind group " ++ label) ;;; ret None)
  end.

Definition getUniformBuffer (label : string) : Js (option GPUBuffer) :=
  gets (fun h => JsMap.get (uniformBuffers (uniformManager h)) label).

Definition getBindGroup (label : string) : Js (option GPUBindGroup) :=
  gets (fun h => JsMap.get (bindGroups (uniformManager h)) label).

Definition getUniformLayout (label : string) : Js (option GPUBindGroupLayout) :=
  gets (fun h => JsMap.get (uniformLayouts (uniformManager h)) label).

Definition destroy : Js unit :=
  buffers <- gets (fun h => JsMap.values (uniformBuffers (uniformManager h))) ;;
  forEach buffers (fun b => host_call (DestroyBuffer b) ;;; ret tt) ;;;
  modify (set_uniformManager (fun _ => constructor)).

End UniformManager.

(* ================================================================== *)
(** * ShaderManager *)
(* ================================================================== *)

Record PipelineOptions := {
  vertexBufferLayouts : list GPUVertexBufferLayout;
  po_bindGroupLayouts : option (list GPUBindGroupLayout);
  topology : option string;
  cullMode : option string;
  frontFace : option string;
  depthTest : option bool;
  depthWrite : option bool;
  depthCompare : option string
}.

Module ShaderManager.

Definition set_shaderModules (f : JsMap.t GPUShaderModule -> JsMap.t GPUShaderModule)
           (s : ShaderManagerState) :=
  {| shaderModules := f (shaderModules s); pipelines := pipelines s;
     bindGroupLayouts := bindGroupLayouts s |}.

Definition set_pipelines (f : JsMap.t GPURenderPipeline -> JsMap.t GPURenderPipeline)
           (s : ShaderManagerState) :=
  {| shaderModules := shaderModules s; pipelines := f (pipelines s);
     bindGroupLayouts := bindGroupLayouts s |}.

Definition set_bindGroupLayouts
           (f : JsMap.t GPUBindGroupLayout -> JsMap.t GPUBindGroupLayout)
           (s : ShaderManagerState) :=
  {| shaderModules := shaderModules s; pipelines := pipelines s;
     bindGroupLayouts := f (bindGroupLayouts s) |}.

Definition constructor : ShaderManagerState :=
  {| shaderModules := JsMap.empty; pipelines := JsMap.empty;
     bindGroupLayouts := JsMap.empty |}.

(** The warnings of the [getCompilationInfo().then(...)] callback are
    recorded at the point of the call; the line with the position of a
    message is left out. *)
Definition createShaderModule (label : string) (source : WGSL)
  : Js (option GPUShaderModule) :=
  d <- gets (fun h => device (ctx h)) ;;
  match d with
  | None => console_error "WebGPU device not available" ;;; ret None
  | Some _ =>
      try_catch
        (shaderModule <- host_call (CreateShaderModule label source) ;;
         host_call (GetCompilationInfo shaderModule) ;;;
         messages <- gets (fun h => compilationInfo (host h) shaderModule) ;;
         match messages with
         | [] => ret tt
         | _ =>
             console_warn ("Shader compilation messages for " ++ label) ;;;
             forEach messages
               (fun m => console_warn (msg_type m ++ ": " ++ msg_text m))
         end ;;;
         modify (set_shaderManager
                   (set_shaderModules (fun m => JsMap.set m label shaderModule))) ;;;
         ret (Some shaderModule))
        (fun _ =>
           console_error ("Error creating shader module " ++ label) ;;; ret None)
  end.

Definition createDefaultBindGroupLayout : Js (option GPUBindGroupLayout) :=
  d <- gets (fun h => device (ctx h)) ;;
  match d with
  | None => ret None
  | Some _ =>
      layout <- host_call
                  (CreateBindGroupLayout "default_bind_group_layout"
                     [ TextureEntry 0 GPUShaderStage.FRAGMENT "float" "2d";
                       SamplerEntry 1 GPUShaderStage.FRAGMENT ]) ;;
      modify (set_shaderManager
                (set_bindGroupLayouts (fun m => JsMap.set m "default" layout))) ;;;
      ret (Some layout)
  end.

(** The local function [checkCompilation] of [createPipeline]; of the
    console lines of a message the one with its type and text is kept, the
    one with its position is left out. *)
Definition checkCompilation (label : string) (info : list GPUCompilationMessage)
           (type : string) : Js bool :=
  match info with
  | [] => ret false
  | _ =>
      console_error (type ++ " shader compilation issues for " ++ label) ;;;
      forEach info (fun m => console_error (msg_type m ++ ": " ++ msg_text m)) ;;;
      ret (existsb (fun m => String.eqb (msg_type m) "error") info)
  end.

Definition createPipeline (label : string) (shaderSource : ShaderSource)
           (options : PipelineOptions) : Js (option GPURenderPipeline) :=
  d <- gets (fun h => device (ctx h)) ;;
  match d with
  | None => console_error "WebGPU device not available" ;;; ret None
  | Some _ =>
      try_catch
        (vertexModule <- createShaderModule (label ++ "_vertex") (vertex shaderSource) ;;
         fragmentModule <- createShaderModule (label ++ "_fragment") (fragment shaderSource) ;;
         match vertexModule, fragmentModule with
         | Some vertexModule, Some fragmentModule =>
             host_call (GetCompilationInfo vertexModule) ;;;
             host_call (GetCompilationInfo fragmentModule) ;;;
             vertexInfo <- gets (fun h => compilationInfo (host h) vertexModule) ;;
             fragmentInfo <- gets (fun h => compilationInfo (host h) fragmentModule) ;;
             vbad <- checkCompilation label vertexInfo "Vertex" ;;
             bad <- (if vbad then ret true
                     else checkCompilation label fragmentInfo "Fragment") ;;
             if bad then ret None
             else
               layouts <-
                 match po_bindGroupLayouts options with
                 | Some (l :: r) => ret (Some (l :: r))
                 | _ =>
                     defaultBindGroupLayout <- createDefaultBindGroupLayout ;;
                     match defaultBindGroupLayout with
                     | Some l => ret (Some [l])
                     | None =>
                         console_error
                           ("Failed to create default bind group layout for pipeline "
                              ++ label) ;;;
                         ret None
                     end
                 end ;;
               match layouts with
               | None => ret None
               | Some layouts =>
                   pipelineLayout <- host_call
                                       (CreatePipelineLayout (label ++ "_layout") layouts) ;;
                   fmt <- gets (fun h => presentationFormat (ctx h)) ;;
                   let descriptor :=
                     {| rpd_label := label;
                        rpd_layout := pipelineLayout;
                        rpd_vertex_module := vertexModule;
                        rpd_vertex_buffers := vertexBufferLayouts options;
                        rpd_fragment_module := fragmentModule;
                        rpd_target_format := fmt;
                        rpd_topology := string_or (topology options) "triangle-list";
                        rpd_cullMode := string_or (cullMode options) "none";
                        rpd_frontFace := string_or (frontFace options) "ccw";
                        rpd_depthStencil :=
                          match depthTest options with
                          | Some true =>
                              Some (or_default (depthWrite options) true,
                                    string_or (depthCompare options) "less")
                          | _ => None
                          end |} in
                   pipeline <- host_call_nullable (CreateRenderPipeline descriptor) ;;
                   match pipeline with
                   | None =>
                       console_error ("Failed to create render pipeline " ++ label) ;;;
                       ret None
                   | Some pipeline =>
                       modify (set_shaderManager
                                 (set_pipelines (fun m => JsMap.set m label pipeline))) ;;;
                       ret (Some pipeline)
                   end
               end
         | _, _ =>
             console_error ("Failed to create shader modules for pipeline " ++ label) ;;;
             ret None
         end)
        (fun _ => console_error ("Error creating pipeline " ++ label) ;;; ret None)
  end.


Definition getPipeline (label : string) : Js (option GPURenderPipeline) :=
  gets (fun h => JsMap.get (pipelines (shaderManager h)) label).

Definition getBindGroupLayout (label : string) : Js (option GPUBindGroupLayout) :=
  gets (fun h => JsMap.get (bindGroupLayouts (shaderManager h)) label).

Definition getShaderModule (label : string) : Js (option GPUShaderModule) :=
  gets (fun h => JsMap.get (shaderModules (shaderManager h)) label).

Definition getBasicTextureShader : ShaderSource :=
  {| vertex := BasicTextureVertex; fragment := BasicTextureFragment |}.

Definition getUniformShader : ShaderSource :=
  {| vertex := UniformVertex; fragment := UniformFragment |}.


Definition destroy : Js unit :=
  modify (set_shaderManager (fun _ => constructor)).

End ShaderManager.

(* ================================================================== *)
(** * TextureManager *)
(* ================================================================== *)

Record TextureOptions := {
  to_label : option string;
  format : option string;
  usage : option Z;
  generateMips : option bool;
  flipY : option bool;
  wrapS : option string;
  wrapT : option string;
  magFilter : option string;
  minFilter : option string
}.

Definition no_texture_options : TextureOptions :=
  {| to_label := None; format := None; usage := None; generateMips := None;
     flipY := None; wrapS := None; wrapT := None; magFilter := None;
     minFilter := None |}.

Module TextureManager.

Definition set_textures (f : JsMap.t GPUTexture -> JsMap.t GPUTexture)
           (t : TextureManagerState) :=
  {| textures := f (textures t); samplers := samplers t;
     imageCache := imageCache t; videoCache := videoCache t |}.

Definition set_samplers (f : JsMap.t GPUSampler -> JsMap.t GPUSampler)
           (t : TextureManagerState) :=
  {| textures := textures t; samplers := f (samplers t);
     imageCache := imageCache t; videoCache := videoCache t |}.

Definition set_imageCache (f : JsMap.t HTMLImageElement -> JsMap.t HTMLImageElement)
           (t : TextureManagerState) :=
  {| textures := textures t; samplers := samplers t;
     imageCache := f (imageCache t); videoCache := videoCache t |}.


Definition constructor : TextureManagerState :=
  {| textures := JsMap.empty; samplers := JsMap.empty;
     imageCache := JsMap.empty; videoCache := JsMap.empty |}.

(** [options.usage || (TEXTURE_BINDING | COPY_DST | RENDER_ATTACHMENT)]. *)
Definition usage_or_default (u : option Z) : Z :=
  match u with
  | Some v => if (v =? 0)%Z
              then Z.lor (Z.lor GPUTextureUsage.TEXTURE_BINDING GPUTextureUsage.COPY_DST)
                         GPUTextureUsage.RENDER_ATTACHMENT
              else v
  | None => Z.lor (Z.lor GPUTextureUsage.TEXTURE_BINDING GPUTextureUsage.COPY_DST)
                  GPUTextureUsage.RENDER_ATTACHMENT
  end.

(** [Math.floor(Math.log2(Math.max(w, h))) + 1]; not a finite number
    when both sides are [0].  The logarithm is the exact one, which is
    what [Math.log2] rounds down to for sizes below [2^48]; the width and
    height of an image are 32-bit values. *)
Definition mipLevels (w h : Z) : option Z :=
  if (0 <? Z.max w h)%Z then Some (Z.log2 (Z.max w h) + 1)%Z else None.

Definition createTextureFromImage (image : HTMLImageElement) (options : TextureOptions)
  : Js (option GPUTexture) :=
  d <- gets (fun h => device (ctx h)) ;;
  match d with
  | None => ret None
  | Some _ =>
      try_catch
        (n <- host_call
                (CreateTexture (string_or (to_label options) "image_texture")
                   (image_width image) (image_height image)
                   (string_or (format options) "rgba8unorm")
                   (usage_or_default (usage options))
                   (if or_default (generateMips options) false
                    then mipLevels (image_width image) (image_height image)
                    else Some 1%Z)) ;;
         let texture := DeviceTexture n in
         host_call (CopyExternalImageToTexture (ImageSource image)
                      (or_default (flipY options) false)
                      texture (image_width image) (image_height image)) ;;;
         ret (Some texture))
        (fun _ => console_error "Error creating texture from image:" ;;; ret None)
  end.



Definition loadImageTexture (url : string) (options : TextureOptions)
  : Js (option GPUTexture) :=
  d <- gets (fun h => device (ctx h)) ;;
  match d with
  | None => console_error "WebGPU device not available" ;;; ret None
  | Some _ =>
      try_catch
        (cached <- gets (fun h => JsMap.get (imageCache (textureManager h)) url) ;;
         image <- match cached with
                  | Some image => ret image
                  | None =>
                      loaded <- gets (fun h => loadImage (host h) url) ;;
                      match loaded with
                      | Some image =>
                          modify (set_textureManager
                                    (set_imageCache (fun m => JsMap.set m url image))) ;;;
                          ret image
                      | None => throw (LoadError url)
                      end
                  end ;;
         texture <- createTextureFromImage image options ;;
         match texture with
         | Some t =>
             modify (set_textureManager (set_textures (fun m => JsMap.set m url t)))
         | None => ret tt
         end ;;;
         ret texture)
        (fun _ =>
           console_error ("Error loading image texture from " ++ url) ;;; ret None)
  end.


Definition createSampler (label : string) (options : TextureOptions)
  : Js (option GPUSampler) :=
  d <- gets (fun h => device (ctx h)) ;;
  match d with
  | None => ret None
  | Some _ =>
      try_catch
        (sampler <- host_call
                      (CreateSampler label
                         (string_or (wrapS options) "repeat")
                         (string_or (wrapT options) "repeat")
                         (string_or (magFilter options) "linear")
                         (string_or (minFilter options) "linear")) ;;
         modify (set_textureManager
                   (set_samplers (fun m => JsMap.set m label sampler))) ;;;
         ret (Some sampler))
        (fun _ => console_error ("Error creating sampler " ++ label) ;;; ret None)
  end.

Definition default_sampler_options : TextureOptions :=
  {| to_label := None; format := None; usage := None; generateMips := None;
     flipY := None; wrapS := Some "repeat"; wrapT := Some "repeat";
     magFilter := Some "linear"; minFilter := Some "linear" |}.

Definition getOrCreateDefaultSampler : Js GPUSampler :=
  sampler <- gets (fun h => JsMap.get (samplers (textureManager h)) "default") ;;
  match sampler with
  | Some s => ret s
  | None =>
      created <- createSampler "default" default_sampler_options ;;
      match created with
      | Some s => ret s
      | None => throw (Error "Failed to create default sampler")
      end
  end.

Definition createTextureBindGroup (layout : GPUBindGroupLayout) (texture : GPUTexture)
           (sampler : option GPUSampler) (label : option string)
  : Js (option GPUBindGroup) :=
  d <- gets (fun h => device (ctx h)) ;;
  match d with
  | None => ret None
  | Some _ =>
      try_catch
        (textureSampler <- match sampler with
                           | Some s => ret s
                           | None => getOrCreateDefaultSampler
                           end ;;
         host_call (CreateView texture) ;;;
         let entries := [ (0%nat, ViewBinding (ViewOf texture));
                          (1%nat, SamplerBinding textureSampler) ] in
         n <- host_call (CreateBindGroup label layout entries) ;;
         ret (Some {| bg_id := n; bg_entries := entries |}))
        (fun _ => console_error "Error creating texture bind group:" ;;; ret None)
  end.


Definition getTexture (key : string) : Js (option GPUTexture) :=
  gets (fun h => JsMap.get (textures (textureManager h)) key).

Definition getSampler (key : string) : Js (option GPUSampler) :=
  gets (fun h => JsMap.get (samplers (textureManager h)) key).

Definition getImage (url : string) : Js (option HTMLImageElement) :=
  gets (fun h => JsMap.get (imageCache (textureManager h)) url).

Definition getVideo (url : string) : Js (option HTMLVideoElement) :=
  gets (fun h => JsMap.get (videoCache (textureManager h)) url).

Definition destroy : Js unit :=
  ts <- gets (fun h => JsMap.values (textures (textureManager h))) ;;
  forEach ts (fun t => host_call (DestroyTexture t) ;;; ret tt) ;;;
  modify (set_textureManager (fun _ => constructor)).

End TextureManager.

(* ================================================================== *)
(** * Plane *)
(* ================================================================== *)

Module Plane.

Definition getVertexBufferLayout : GPUVertexBufferLayout :=
  {| arrayStride := 5 * 4;
     attributes :=
       [ {| shaderLocation := 0; attr_offset := 0; attr_format := "float32x3" |};
         {| shaderLocation := 1; attr_offset := 3 * 4; attr_format := "float32x2" |} ] |}.

(** [new Plane(context, options)] for [widthSegments] by
    [heightSegments] cells: [createGeometry] yields
    [(gridX+1)*(gridY+1)] vertices and six indices per cell, and
    [createBuffers] uploads them (five floats per vertex, two bytes per
    index). *)
Definition constructor (widthSegments heightSegments : nat) : Js PlaneState :=
  let vc := ((widthSegments + 1) * (heightSegments + 1))%nat in
  let ic := (widthSegments * heightSegments * 6)%nat in
  d <- gets (fun h => device (ctx h)) ;;
  match d with
  | None =>
      console_error "WebGPU device not available" ;;;
      ret {| vertexBuffer := None; indexBuffer := None;
             vertexCount := vc; indexCount := ic |}
  | Some _ =>
      vb <- host_call (CreateBuffer None (Z.of_nat vc * 5 * 4)
                         (Z.lor GPUBufferUsage.VERTEX GPUBufferUsage.COPY_DST) true) ;;
      host_call (GetMappedRange vb) ;;;
      host_call (Unmap vb) ;;;
      ib <- host_call (CreateBuffer None (Z.of_nat ic * 2)
                         (Z.lor GPUBufferUsage.INDEX GPUBufferUsage.COPY_DST) true) ;;
      host_call (GetMappedRange ib) ;;;
      host_call (Unmap ib) ;;;
      ret {| vertexBuffer := Some vb; indexBuffer := Some ib;
             vertexCount := vc; indexCount := ic |}
  end.

Definition bind (p : PlaneState) (renderPass : GPURenderPassEncoder) : Js unit :=
  match vertexBuffer p, indexBuffer p with
  | Some vb, Some ib =>
      host_call (SetVertexBuffer renderPass 0 vb) ;;;
      host_call (SetIndexBuffer renderPass ib "uint16") ;;;
      ret tt
  | _, _ => ret tt
  end.

Definition draw (p : PlaneState) (renderPass : GPURenderPassEncoder) : Js unit :=
  host_call (DrawIndexed renderPass (indexCount p)) ;;; ret tt.

(** [destroy()], returning the plane with both buffers released. *)
Definition destroy (p : PlaneState) : Js PlaneState :=
  match vertexBuffer p with
  | Some vb => host_call (DestroyBuffer vb) ;;; ret tt
  | None => ret tt
  end ;;;
  match indexBuffer p with
  | Some ib => host_call (DestroyBuffer ib) ;;; ret tt
  | None => ret tt
  end ;;;
  ret {| vertexBuffer := None; indexBuffer := None;
         vertexCount := vertexCount p; indexCount := indexCount p |}.

(** The geometry of a plane: positions and texture coordinates as
    [Float32Array]s, indices as a [Uint16Array]. *)
Record PlaneGeometry := {
  positions : Float32Array.t;
  uvs : Float32Array.t;
  indices : list Z
}.

(** [new Uint16Array([i0, i1, ...])]: every element is taken modulo
    [2^16]. *)
Definition Uint16Array_of_list (xs : list Z) : list Z :=
  map (fun x => x mod 65536)%Z xs.

(** [createGeometry()] for the options [width], [height] and whole
    numbers of segments: the two nested loops that push the vertices row
    by row, and the two that push six indices per cell. *)
Definition createGeometry (width height : JsNumber.number)
           (widthSegments heightSegments : nat) : PlaneGeometry :=
  let widthHalf := JsNumber.div width (JsNumber.of_Z 2) in
  let heightHalf := JsNumber.div height (JsNumber.of_Z 2) in
  let gridX := widthSegments in
  let gridY := heightSegments in
  let gridX1 := (gridX + 1)%nat in
  let gridY1 := (gridY + 1)%nat in
  let segmentWidth := JsNumber.div width (JsNumber.of_nat gridX) in
  let segmentHeight := JsNumber.div height (JsNumber.of_nat gridY) in
  {| positions :=
       Float32Array.of_list
         (flat_map
            (fun iy =>
               let y := JsNumber.sub (JsNumber.mul (JsNumber.of_nat iy) segmentHeight)
                                     heightHalf in
               flat_map
                 (fun ix =>
                    let x := JsNumber.sub (JsNumber.mul (JsNumber.of_nat ix) segmentWidth)
                                          widthHalf in
                    [x; y; JsNumber.zero])
                 (seq 0 gridX1))
            (seq 0 gridY1));
     uvs :=
       Float32Array.of_list
         (flat_map
            (fun iy =>
               flat_map
                 (fun ix =>
                    [ JsNumber.div (JsNumber.of_nat ix) (JsNumber.of_nat gridX);
                      JsNumber.sub JsNumber.one
                        (JsNumber.div (JsNumber.of_nat iy) (JsNumber.of_nat gridY)) ])
                 (seq 0 gridX1))
            (seq 0 gridY1));
     indices :=
       Uint16Array_of_list
         (flat_map
            (fun iy =>
               flat_map
                 (fun ix =>
                    let a := Z.of_nat (ix + gridX1 * iy) in
                    let b := Z.of_nat (ix + gridX1 * (iy + 1)) in
                    let c := Z.of_nat ((ix + 1) + gridX1 * (iy + 1)) in
                    let d := Z.of_nat ((ix + 1) + gridX1 * iy) in
                    [a; b; d; b; c; d])
                 (seq 0 gridX))
            (seq 0 gridY)) |}.

End Plane.

(* ================================================================== *)
(** * PostProcessor *)
(* ================================================================== *)

Module PostProcessor.
Import JsNumber.

Definition set_renderTarget (t : option GPUTexture) (p : PostProcessorState) :=
  {| renderTarget := t; depthTexture := depthTexture p;
     tempTargets := tempTargets p; passes := passes p;
     fullscreenQuad := fullscreenQuad p; width := width p; height := height p |}.

Definition set_depthTexture (t : option GPUTexture) (p : PostProcessorState) :=
  {| renderTarget := renderTarget p; depthTexture := t;
     tempTargets := tempTargets p; passes := passes p;
     fullscreenQuad := fullscreenQuad p; width := width p; height := height p |}.

Definition set_tempTargets (f : list GPUTexture -> list GPUTexture)
           (p : PostProcessorState) :=
  {| renderTarget := renderTarget p; depthTexture := depthTexture p;
     tempTargets := f (tempTargets p); passes := passes p;
     fullscreenQuad := fullscreenQuad p; width := width p; height := height p |}.

Definition set_passes (f : JsMap.t PostProcessPass -> JsMap.t PostProcessPass)
           (p : PostProcessorState) :=
  {| renderTarget := renderTarget p; depthTexture := depthTexture p;
     tempTargets := tempTargets p; passes := f (passes p);
     fullscreenQuad := fullscreenQuad p; width := width p; height := height p |}.

Definition set_fullscreenQuad (q : option PlaneState) (p : PostProcessorState) :=
  {| renderTarget := renderTarget p; depthTexture := depthTexture p;
     tempTargets := tempTargets p; passes := passes p;
     fullscreenQuad := q; width := width p; height := height p |}.

Definition set_size (w h : Z) (p : PostProcessorState) :=
  {| renderTarget := renderTarget p; depthTexture := depthTexture p;
     tempTargets := tempTargets p; passes := passes p;
     fullscreenQuad := fullscreenQuad p; width := w; height := h |}.

Definition set_enabled (b : bool) (p : PostProcessPass) :=
  {| pass_id := pass_id p; pass_shader := pass_shader p;
     pass_pipeline := pass_pipeline p; pass_bindGroup := pass_bindGroup p;
     pass_uniformBuffer := pass_uniformBuffer p; enabled := b;
     pass_options := pass_options p |}.

Definition set_pass_options (o : EffectOptions) (p : PostProcessPass) :=
  {| pass_id := pass_id p; pass_shader := pass_shader p;
     pass_pipeline := pass_pipeline p; pass_bindGroup := pass_bindGroup p;
     pass_uniformBuffer := pass_uniformBuffer p; enabled := enabled p;
     pass_options := o |}.

(** [new PostProcessor(context, shaderManager, textureManager, uniformManager)]. *)
Definition constructor : PostProcessorState :=
  {| renderTarget := None; depthTexture := None; tempTargets := [];
     passes := JsMap.empty; fullscreenQuad := None; width := 0; height := 0 |}.

(** [this] inside a method; calling a method on a [null] post-processor
    is a [TypeError]. *)
Definition this : Js PostProcessorState :=
  p <- gets postProcessor ;;
  non_null "postProcessor" p.

Definition update (f : PostProcessorState -> PostProcessorState) : Js unit :=
  modify (set_postProcessor (option_map f)).

Definition getCopyShader : ShaderSource :=
  {| vertex := CopyVertex; fragment := CopyFragment |}.
Definition getBlurShader : ShaderSource :=
  {| vertex := BlurVertex; fragment := BlurFragment |}.
Definition getBloomShader : ShaderSource :=
  {| vertex := BloomVertex; fragment := BloomFragment |}.
Definition getColorCorrectionShader : ShaderSource :=
  {| vertex := ColorCorrectionVertex; fragment := ColorCorrectionFragment |}.
Definition getVignetteShader : ShaderSource :=
  {| vertex := VignetteVertex; fragment := VignetteFragment |}.
Definition getFilmGrainShader : ShaderSource :=
  {| vertex := FilmGrainVertex; fragment := FilmGrainFragment |}.

Definition createRenderTargets : Js unit :=
  d <- gets (fun h => device (ctx h)) ;;
  match d with
  | None => ret tt
  | Some _ =>
      p <- this ;;
      fmt <- gets (fun h => presentationFormat (ctx h)) ;;
      n <- host_call
             (CreateTexture "main_render_target" (width p) (height p) fmt
                (Z.lor GPUTextureUsage.RENDER_ATTACHMENT GPUTextureUsage.TEXTURE_BINDING)
                None) ;;
      update (set_renderTarget (Some (DeviceTexture n))) ;;;
      n <- host_call
             (CreateTexture "depth_texture" (width p) (height p) "depth24plus"
                GPUTextureUsage.RENDER_ATTACHMENT None) ;;
      update (set_depthTexture (Some (DeviceTexture n))) ;;;
      forEach (seq 0 2)
        (fun i =>
           fmt <- gets (fun h => presentationFormat (ctx h)) ;;
           n <- host_call
                  (CreateTexture
                     ("temp_render_target_" ++ NilZero.string_of_uint (Nat.to_uint i))
                     (width p) (height p) fmt
                     (Z.lor GPUTextureUsage.RENDER_ATTACHMENT
                            GPUTextureUsage.TEXTURE_BINDING)
                     None) ;;
           update (set_tempTargets (fun l => (l ++ [DeviceTexture n])%list)))
  end.

Definition createPostProcessBindGroupLayout : Js (option GPUBindGroupLayout) :=
  d <- gets (fun h => device (ctx h)) ;;
  match d with
  | None => ret None
  | Some _ =>
      layout <- host_call
                  (CreateBindGroupLayout "postprocess_bind_group_layout"
                     [ BufferEntry 0
                         (Z.lor GPUShaderStage.VERTEX GPUShaderStage.FRAGMENT) "uniform";
                       TextureEntry 1 GPUShaderStage.FRAGMENT "float" "2d";
                       SamplerEntry 2 GPUShaderStage.FRAGMENT ]) ;;
      ret (Some layout)
  end.

(** [createPostProcessBindGroup(layout, uniformBuffer, texture, sampler)];
    the callers pass [pass.uniformBuffer!] and [this.renderTarget!], which
    may be absent at run time. *)
Definition createPostProcessBindGroup (layout : GPUBindGroupLayout)
           (uniformBuffer : option GPUBuffer) (texture : option GPUTexture)
           (sampler : GPUSampler) : Js (option GPUBindGroup) :=
  d <- gets (fun h => device (ctx h)) ;;
  match d with
  | None => ret None
  | Some _ =>
      texture <- non_null "texture.createView" texture ;;
      host_call (CreateView texture) ;;;
      uniformBuffer <- non_null "buffer" uniformBuffer ;;
      let entries := [ (0%nat, BufferBinding uniformBuffer);
                       (1%nat, ViewBinding (ViewOf texture));
                       (2%nat, SamplerBinding sampler) ] in
      n <- host_call (CreateBindGroup (Some "postprocess_bind_group") layout entries) ;;
      ret (Some {| bg_id := n; bg_entries := entries |})
  end.

(** [updateEffectUniforms(effectId, options)]: the literal
    [{ resolution, time, ...options }] handed to the uniform manager. *)
Definition updateEffectUniforms (effectId : string) (options : EffectOptions)
  : Js bool :=
  p <- this ;;
  now <- performance_now_ ;;
  let uniformData : UniformData :=
    JsMap.assign
      [ ("resolution", VPair (of_Z (width p)) (of_Z (height p)));
        ("time", VNumber (mul now (decimal 1 1000))) ]
      options in
  UniformManager.updateUniformBuffer (effectId ++ "_uniforms") uniformData 0.

(** [options] is what the caller's object holds at the time of the call.
    A pass is given options of its own, as it has when every effect is
    created with a fresh object, the way [initializeBuiltInEffects] does;
    two effects created with one and the same object, which would then
    share it, are not covered. *)
Definition addEffect (id : string) (shader : ShaderSource) (options : EffectOptions)
  : Js bool :=
  d <- gets (fun h => device (ctx h)) ;;
  p <- this ;;
  match d, fullscreenQuad p with
  | Some _, Some _ =>
      try_catch
        (uniformBuffer <- UniformManager.createUniformBuffer (id ++ "_uniforms") 256 None ;;
         match uniformBuffer with
         | None =>
             console_error ("Failed to create uniform buffer for " ++ id) ;;; ret false
         | Some uniformBuffer =>
             updateEffectUniforms id options ;;;
             bindGroupLayout <- createPostProcessBindGroupLayout ;;
             match bindGroupLayout with
             | None =>
                 console_error ("Failed to create bind group layout for " ++ id) ;;;
                 ret false
             | Some bindGroupLayout =>
                 pipeline <- ShaderManager.createPipeline (id ++ "_postprocess") shader
                               {| vertexBufferLayouts := [Plane.getVertexBufferLayout];
                                  po_bindGroupLayouts := Some [bindGroupLayout];
                                  topology := None; cullMode := None; frontFace := None;
                                  depthTest := None; depthWrite := None;
                                  depthCompare := None |} ;;
                 match pipeline with
                 | None =>
                     console_error ("Failed to create pipeline for " ++ id) ;;;
                     ret false
                 | Some pipeline =>
                     defaultSampler <- TextureManager.getSampler "default" ;;
                     match defaultSampler with
                     | None =>
                         console_error ("Default sampler not found for effect " ++ id) ;;;
                         ret false
                     | Some defaultSampler =>
                         p <- this ;;
                         bindGroup <- createPostProcessBindGroup bindGroupLayout
                                        (Some uniformBuffer) (renderTarget p)
                                        defaultSampler ;;
                         match bindGroup with
                         | None =>
                             console_error ("Failed to create bind group for " ++ id) ;;;
                             ret false
                         | Some bindGroup =>
                             let pass :=
                               {| pass_id := id; pass_shader := shader;
                                  pass_pipeline := pipeline;
                                  pass_bindGroup := bindGroup;
                                  pass_uniformBuffer := Some uniformBuffer;
                                  enabled := false;
                                  pass_options := options |} in
                             update (set_passes (fun m => JsMap.set m id pass)) ;;;
                             ret true
                         end
                     end
                 end
             end
         end)
        (fun _ =>
           console_error ("Error adding post-process effect " ++ id) ;;; ret false)
  | _, _ =>
      console_error ("Cannot add effect " ++ id ++ ": missing device or fullscreen quad") ;;;
      ret false
  end.

Definition initializeBuiltInEffects : Js unit :=
  addEffect "blur" getBlurShader
    [ ("intensity", VNumber one); ("radius", VNumber (of_Z 2)) ] ;;;
  addEffect "bloom" getBloomShader
    [ ("intensity", VNumber (decimal 8 10)); ("threshold", VNumber (decimal 7 10)) ] ;;;
  addEffect "colorCorrection" getColorCorrectionShader
    [ ("brightness", VNumber zero); ("contrast", VNumber one);
      ("saturation", VNumber one); ("hue", VNumber zero) ] ;;;
  addEffect "vignette" getVignetteShader
    [ ("intensity", VNumber (decimal 5 10)); ("radius", VNumber (decimal 8 10)) ] ;;;
  addEffect "filmGrain" getFilmGrainShader
    [ ("intensity", VNumber (decimal 1 10)); ("time", VNumber zero) ] ;;;
  ret tt.

Definition initialize (w h : Z) : Js bool :=
  d <- gets (fun hp => device (ctx hp)) ;;
  match d with
  | None => console_error "WebGPU device not available" ;;; ret false
  | Some _ =>
      update (set_size w h) ;;;
      createRenderTargets ;;;
      defaultSampler <- TextureManager.getSampler "default" ;;
      ok <- match defaultSampler with
            | Some _ => ret true
            | None =>
                created <- TextureManager.createSampler "default"
                             TextureManager.default_sampler_options ;;
                match created with
                | Some _ => ret true
                | None =>
                    console_error "Failed to create default sampler" ;;; ret false
                end
            end ;;
      if negb ok then ret false
      else
        quad <- Plane.constructor 1 1 ;;
        update (set_fullscreenQuad (Some quad)) ;;;
        initializeBuiltInEffects ;;;
        ret true
  end.

Definition setEffectEnabled (id : string) (b : bool) : Js bool :=
  p <- this ;;
  match JsMap.get (passes p) id with
  | None => console_warn ("Effect " ++ id ++ " not found for enable/disable") ;;; ret false
  | Some pass =>
      update (set_passes (fun m => JsMap.set m id (set_enabled b pass))) ;;;
      ret true
  end.

(** [Object.assign(pass.options, options)] on the options of the pass. *)
Definition updateEffect (id : string) (options : EffectOptions) : Js bool :=
  p <- this ;;
  match JsMap.get (passes p) id with
  | None => console_warn ("Effect " ++ id ++ " not found for update") ;;; ret false
  | Some pass =>
      let merged := JsMap.assign (pass_options pass) options in
      update (set_passes (fun m => JsMap.set m id (set_pass_options merged pass))) ;;;
      success <- updateEffectUniforms id merged ;;
      ret true
  end.

Definition beginRenderToTexture (commandEncoder : GPUCommandEncoder)
  : Js GPURenderPassEncoder :=
  p <- this ;;
  rt <- non_null "renderTarget.createView" (renderTarget p) ;;
  host_call (CreateView rt) ;;;
  dt <- non_null "depthTexture.createView" (depthTexture p) ;;
  host_call (CreateView dt) ;;;
  host_call (BeginRenderPass commandEncoder
               {| pass_label := "scene_render_pass";
                  colorView := ViewOf rt;
                  depthView := Some (ViewOf dt) |}).

Definition renderPostProcessPass (renderPass : GPURenderPassEncoder)
           (pass : PostProcessPass) (inputTexture : option GPUTexture) (time : number)
  : Js unit :=
  p <- this ;;
  match fullscreenQuad p with
  | None => ret tt
  | Some quad =>
      updateEffectUniforms (pass_id pass)
        (JsMap.set (pass_options pass) "time" (VNumber time)) ;;;
      layout <- createPostProcessBindGroupLayout ;;
      match layout with
      | None => ret tt
      | Some layout =>
          defaultSampler <- TextureManager.getSampler "default" ;;
          match defaultSampler with
          | None => console_error "Default sampler not found during render pass"
          | Some defaultSampler =>
              bindGroup <- createPostProcessBindGroup layout (pass_uniformBuffer pass)
                             inputTexture defaultSampler ;;
              match bindGroup with
              | None => ret tt
              | Some bindGroup =>
                  host_call (SetPipeline renderPass (pass_pipeline pass)) ;;;
                  host_call (SetBindGroup renderPass 0 bindGroup) ;;;
                  Plane.bind quad renderPass ;;;
                  Plane.draw quad renderPass
              end
          end
      end
  end.

Definition copyToFinalTarget (commandEncoder : GPUCommandEncoder)
           (source : option GPUTexture) (target : GPUTextureView) : Js unit :=
  renderPass <- host_call (BeginRenderPass commandEncoder
                             {| pass_label := "copy_to_final";
                                colorView := target; depthView := None |}) ;;
  d <- gets (fun h => device (ctx h)) ;;
  non_null "device.createBindGroupLayout" d ;;;
  copyLayout <- host_call
                  (CreateBindGroupLayout "copy_bind_group_layout"
                     [ TextureEntry 0 GPUShaderStage.FRAGMENT "float" "2d";
                       SamplerEntry 1 GPUShaderStage.FRAGMENT ]) ;;
  cached <- ShaderManager.getPipeline "copy_shader" ;;
  pipeline <- match cached with
              | Some pl => ret (Some pl)
              | None =>
                  p <- this ;;
                  non_null "fullscreenQuad.getVertexBufferLayout" (fullscreenQuad p) ;;;
                  ShaderManager.createPipeline "copy_shader" getCopyShader
                    {| vertexBufferLayouts := [Plane.getVertexBufferLayout];
                       po_bindGroupLayouts := Some [copyLayout];
                       topology := None; cullMode := None; frontFace := None;
                       depthTest := None; depthWrite := None; depthCompare := None |}
              end ;;
  p <- this ;;
  match pipeline, fullscreenQuad p with
  | Some pipeline, Some quad =>
      d <- gets (fun h => device (ctx h)) ;;
      non_null "device.createBindGroup" d ;;;
      source <- non_null "source.createView" source ;;
      host_call (CreateView source) ;;;
      s <- TextureManager.getSampler "default" ;;
      sampler <- match s with
                 | Some s => ret s
                 | None =>
                     c <- TextureManager.createSampler "copy_sampler" no_texture_options ;;
                     non_null "resource" c
                 end ;;
      let entries := [ (0%nat, ViewBinding (ViewOf source));
                       (1%nat, SamplerBinding sampler) ] in
      n <- host_call (CreateBindGroup (Some "copy_bind_group") copyLayout entries) ;;
      host_call (SetPipeline renderPass pipeline) ;;;
      host_call (SetBindGroup renderPass 0 {| bg_id := n; bg_entries := entries |}) ;;;
      Plane.bind quad renderPass ;;;
      Plane.draw quad renderPass
  | _, _ => ret tt
  end ;;;
  host_call (EndPass renderPass) ;;;
  ret tt.

(** The [for] loop of [applyPostProcessing], from index [i] on: [rest]
    is [enabledPasses.slice(i)] and [n] is [enabledPasses.length]. *)
Fixpoint passLoop (commandEncoder : GPUCommandEncoder) (finalTarget : GPUTextureView)
         (time : number) (n i : nat) (rest : list PostProcessPass)
         (currentInput : option GPUTexture) : Js unit :=
  match rest with
  | [] => ret tt
  | pass :: rest' =>
      if Nat.eqb i (n - 1) then
        renderPass <- host_call
                        (BeginRenderPass commandEncoder
                           {| pass_label := "postprocess_final_" ++ pass_id pass;
                              colorView := finalTarget; depthView := None |}) ;;
        renderPostProcessPass renderPass pass currentInput time ;;;
        host_call (EndPass renderPass) ;;;
        passLoop commandEncoder finalTarget time n (S i) rest' currentInput
      else
        p <- this ;;
        currentOutput <-
          non_null "currentOutput.createView"
            (nth_error (tempTargets p) (i mod List.length (tempTargets p))) ;;
        host_call (CreateView currentOutput) ;;;
        renderPass <- host_call
                        (BeginRenderPass commandEncoder
                           {| pass_label := "postprocess_" ++ pass_id pass;
                              colorView := ViewOf currentOutput; depthView := None |}) ;;
        renderPostProcessPass renderPass pass currentInput time ;;;
        host_call (EndPass renderPass) ;;;
        passLoop commandEncoder finalTarget time n (S i) rest' (Some currentOutput)
  end.

Definition applyPostProcessing (commandEncoder : GPUCommandEncoder)
           (finalTarget : GPUTextureView) (time : number) : Js unit :=
  p <- this ;;
  match fullscreenQuad p with
  | None => ret tt
  | Some _ =>
      let enabledPasses := filter enabled (JsMap.values (passes p)) in
      match enabledPasses with
      | [] => copyToFinalTarget commandEncoder (renderTarget p) finalTarget
      | _ =>
          passLoop commandEncoder finalTarget time (List.length enabledPasses) 0
                   enabledPasses (renderTarget p)
      end
  end.

Definition destroyTargets : Js unit :=
  p <- this ;;
  match renderTarget p with
  | Some t => host_call (DestroyTexture t) ;;; ret tt
  | None => ret tt
  end ;;;
  match depthTexture p with
  | Some t => host_call (DestroyTexture t) ;;; ret tt
  | None => ret tt
  end ;;;
  forEach (tempTargets p) (fun t => host_call (DestroyTexture t) ;;; ret tt) ;;;
  update (set_tempTargets (fun _ => [])).

Definition resize (w h : Z) : Js unit :=
  p <- this ;;
  if (width p =? w)%Z && (height p =? h)%Z then ret tt
  else
    update (set_size w h) ;;;
    destroyTargets ;;;
    createRenderTargets.

Definition getRenderTarget : Js (option GPUTexture) :=
  p <- this ;; ret (renderTarget p).

Definition getDepthTexture : Js (option GPUTexture) :=
  p <- this ;; ret (depthTexture p).

Definition destroy : Js unit :=
  destroyTargets ;;;
  p <- this ;;
  match fullscreenQuad p with
  | Some q => q' <- Plane.destroy q ;; update (set_fullscreenQuad (Some q'))
  | None => ret tt
  end ;;;
  update (set_passes (fun _ => JsMap.empty)).

(** [getDebugInfo()]: the number of passes, their keys, and the ids of
    the enabled ones. *)
Definition getDebugInfo : Js (nat * list string * list string) :=
  p <- this ;;
  let enabledPasses := map pass_id (filter enabled (JsMap.values (passes p))) in
  ret (JsMap.size (passes p), JsMap.keys (passes p), enabledPasses).

End PostProcessor.

(* ================================================================== *)
(** * Podium *)
(* ================================================================== *)

Module Podium.
Import JsNumber.

Definition set_renderObjects (f : JsMap.t RenderObject -> JsMap.t RenderObject)
           (p : PodiumState) :=
  {| renderObjects := f (renderObjects p); isInitialized := isInitialized p;
     startTime := startTime p; frameCount := frameCount p |}.

Definition set_isInitialized (b : bool) (p : PodiumState) :=
  {| renderObjects := renderObjects p; isInitialized := b;
     startTime := startTime p; frameCount := frameCount p |}.

Definition set_startTime (t : number) (p : PodiumState) :=
  {| renderObjects := renderObjects p; isInitialized := isInitialized p;
     startTime := t; frameCount := frameCount p |}.

Definition set_frameCount (n : nat) (p : PodiumState) :=
  {| renderObjects := renderObjects p; isInitialized := isInitialized p;
     startTime := startTime p; frameCount := n |}.

(** [new Podium(options)] on a canvas of the given size, in a browser
    that behaves as [hst]. *)
Definition constructor (hst : Host) (canvasWidth canvasHeight : Z)
           (options : WebGPUContextOptions) (enablePostProcessing : bool) : Heap :=
  {| host := hst; history := []; clock := 0; console := [];
     ctx := WebGPUContext.constructor canvasWidth canvasHeight options;
     shaderManager := ShaderManager.constructor;
     textureManager := TextureManager.constructor;
     uniformManager := UniformManager.constructor;
     postProcessor :=
       if enablePostProcessing then Some PostProcessor.constructor else None;
     podium := {| renderObjects := JsMap.empty; isInitialized := false;
                  startTime := zero; frameCount := 0 |} |}.

Definition initialize : Js bool :=
  success <- WebGPUContext.initialize ;;
  if negb success then
    console_error "Failed to initialize WebGPU context" ;;; ret false
  else
    pp <- gets postProcessor ;;
    match pp with
    | Some _ =>
        c <- gets ctx ;;
        postProcessSuccess <- PostProcessor.initialize (canvas_width c) (canvas_height c) ;;
        if negb postProcessSuccess then
          console_warn "Failed to initialize post-processor, continuing without it" ;;;
          modify (set_postProcessor (fun _ => None))
        else ret tt
    | None => ret tt
    end ;;;
    modify (set_podium (set_isInitialized true)) ;;;
    now <- performance_now_ ;;
    modify (set_podium (set_startTime now)) ;;;
    ret true.

Definition updateUniforms (id : string) (data : UniformData) : Js bool :=
  renderObject <- gets (fun h => JsMap.get (renderObjects (podium h)) id) ;;
  match renderObject with
  | Some {| obj_uniformBuffer := Some _ |} =>
      success <- UniformManager.updateUniformBuffer (id ++ "_uniforms") data 0 ;;
      (if negb success
       then console_error ("Failed to update uniform buffer for " ++ id)
       else ret tt) ;;;
      ret success
  | _ =>
      console_error ("Render object " ++ id ++ " not found or has no uniforms") ;;;
      ret false
  end.

(** The second [forEach] of [render]: the draw commands of the visible
    objects, counting those that went through. *)
Fixpoint drawLoop (renderPass : GPURenderPassEncoder) (objs : list RenderObject)
         (renderedCount : nat) : Js nat :=
  match objs with
  | [] => ret renderedCount
  | obj :: rest =>
      if visible obj then
        n <- try_catch
               (host_call (SetPipeline renderPass (obj_pipeline obj)) ;;;
                host_call (SetBindGroup renderPass 0 (obj_bindGroup obj)) ;;;
                Plane.bind (plane obj) renderPass ;;;
                Plane.draw (plane obj) renderPass ;;;
                ret (S renderedCount))
               (fun _ =>
                  console_error ("Error rendering object " ++ obj_id obj) ;;;
                  ret renderedCount) ;;
        drawLoop renderPass rest n
      else drawLoop renderPass rest renderedCount
  end.

(** [render(currentTime)]. *)
Definition render (currentTime : number) : Js unit :=
  initialized <- gets (fun h => isInitialized (podium h)) ;;
  d <- gets (fun h => device (ctx h)) ;;
  match initialized, d with
  | true, Some _ =>
      start <- gets (fun h => startTime (podium h)) ;;
      let elapsedTime := div (sub currentTime start) (of_Z 1000) in
      objs <- gets (fun h => JsMap.values (renderObjects (podium h))) ;;
      forEach objs
        (fun obj =>
           match obj_uniformBuffer obj, visible obj with
           | Some _, true =>
               updateUniforms (obj_id obj) [("time", VNumber elapsedTime)] ;;; ret tt
           | _, _ => ret tt
           end) ;;;
      commandEncoder <- host_call (CreateCommandEncoder "render_commands") ;;
      textureView <- WebGPUContext.getCurrentTextureView ;;
      match textureView with
      | None => ret tt
      | Some textureView =>
          pp <- gets postProcessor ;;
          renderPass <- match pp with
                        | Some _ => PostProcessor.beginRenderToTexture commandEncoder
                        | None =>
                            host_call (BeginRenderPass commandEncoder
                                         {| pass_label := "main_render_pass";
                                            colorView := textureView;
                                            depthView := None |})
                        end ;;
          objs <- gets (fun h => JsMap.values (renderObjects (podium h))) ;;
          renderedCount <- drawLoop renderPass objs 0 ;;
          (if Nat.eqb renderedCount 0 && negb (Nat.eqb (List.length objs) 0)
           then console_warn
                  "No objects were rendered, but objects exist. Check visibility and pipeline validity."
           else ret tt) ;;;
          host_call (EndPass renderPass) ;;;
          pp <- gets postProcessor ;;
          match pp with
          | Some _ => PostProcessor.applyPostProcessing commandEncoder textureView elapsedTime
          | None => ret tt
          end ;;;
          commands <- host_call (Finish commandEncoder) ;;
          host_call (Submit commands) ;;;
          fc <- gets (fun h => frameCount (podium h)) ;;
          modify (set_podium (set_frameCount (S fc)))
      end
  | _, _ => ret tt
  end.

Definition getRenderObject (id : string) : Js (option RenderObject) :=
  gets (fun h => JsMap.get (renderObjects (podium h)) id).

Definition setEffectEnabled (effectId : string) (b : bool) : Js bool :=
  pp <- gets postProcessor ;;
  match pp with
  | None => console_warn "Post-processing not enabled" ;;; ret false
  | Some _ => PostProcessor.setEffectEnabled effectId b
  end.

Definition updateEffect (effectId : string) (options : EffectOptions) : Js bool :=
  pp <- gets postProcessor ;;
  match pp with
  | None => console_warn "Post-processing not enabled" ;;; ret false
  | Some _ => PostProcessor.updateEffect effectId options
  end.

(** Replace the object stored under [id], when there is one. *)
Definition update_object (id : string) (f : RenderObject -> RenderObject) : Js unit :=
  modify (set_podium
            (set_renderObjects
               (fun m => match JsMap.get m id with
                         | Some o => JsMap.set m id (f o)
                         | None => m
                         end))).

Definition set_plane (f : PlaneState -> PlaneState) (o : RenderObject) : RenderObject :=
  {| obj_id := obj_id o; plane := f (plane o); obj_pipeline := obj_pipeline o;
     obj_bindGroup := obj_bindGroup o; obj_uniformBuffer := obj_uniformBuffer o;
     visible := visible o |}.

(** [obj.plane.destroy()] followed by [obj.uniformBuffer.destroy()] for
    the object stored under [id]: each buffer of the plane is destroyed
    and then set to [null] in place. *)
Definition release_object (id : string) (obj : RenderObject) : Js unit :=
  match vertexBuffer (plane obj) with
  | Some vb =>
      host_call (DestroyBuffer vb) ;;;
      update_object id
        (set_plane (fun p => {| vertexBuffer := None; indexBuffer := indexBuffer p;
                                vertexCount := vertexCount p;
                                indexCount := indexCount p |}))
  | None => ret tt
  end ;;;
  match indexBuffer (plane obj) with
  | Some ib =>
      host_call (DestroyBuffer ib) ;;;
      update_object id
        (set_plane (fun p => {| vertexBuffer := vertexBuffer p; indexBuffer := None;
                                vertexCount := vertexCount p;
                                indexCount := indexCount p |}))
  | None => ret tt
  end ;;;
  match obj_uniformBuffer obj with
  | Some b => host_call (DestroyBuffer b) ;;; ret tt
  | None => ret tt
  end.

(** [removeRenderObject(id)]. *)
Definition removeRenderObject (id : string) : Js bool :=
  obj <- gets (fun h => JsMap.get (renderObjects (podium h)) id) ;;
  match obj with
  | None => ret false
  | Some obj =>
      release_object id obj ;;;
      modify (set_podium (set_renderObjects (fun m => JsMap.delete m id))) ;;;
      ret true
  end.

(** [getAvailableEffects()]. *)
Definition getAvailableEffects : Js (list string) :=
  pp <- gets postProcessor ;;
  match pp with
  | None => ret []
  | Some _ => ret ["blur"; "bloom"; "colorCorrection"; "vignette"; "filmGrain"]
  end.

End Podium.

(* ================================================================== *)
(** * Vocabulary of the statements *)
(* ================================================================== *)

Unset Implicit Arguments.
Local Open Scope list_scope.

(** A computation leaves the part [P] of the heap as it found it. *)
Definition preserves {X A : Type} (P : Heap -> X) (c : Js A) : Prop :=
  forall h r h', c h = (r, h') -> P h' = P h.

(** A computation never throws. *)
Definition returns {A : Type} (c : Js A) : Prop :=
  forall h, exists a h', c h = (Ret a, h').

(** [agree r x]: the number [r] is [x], up to the sign of a zero. *)
Definition agree (r x : JsNumber.number) : Prop :=
  r = x \/ (JsNumber.is_zero r = true /\ JsNumber.is_zero x = true).

(** A matrix whose first entry is [Infinity]. *)
Definition matrix_with_infinity : Float32Array.t :=
  Float32Array.of_list
    (JsNumber.Infinity :: repeat JsNumber.zero 15).

(** A translation by [(2, 3, 0)], a matrix of finite entries. *)
Definition sample_matrix : Float32Array.t :=
  Matrix.createTranslationMatrix (JsNumber.of_Z 2) (JsNumber.of_Z 3) JsNumber.zero.

(** The label-keyed mappings of the managers. *)
Definition uniformBuffersOf (h : Heap) := uniformBuffers (uniformManager h).
Definition bindGroupsOf (h : Heap) := bindGroups (uniformManager h).
Definition pipelinesOf (h : Heap) := pipelines (shaderManager h).
Definition samplersOf (h : Heap) := samplers (textureManager h).
Definition texturesOf (h : Heap) := textures (textureManager h).

(** The discipline of a label-keyed mapping [proj] with its getter and the
    create call that fills it: the getter is a lookup that leaves the heap
    as it is; after a successful create under [key] the getter returns the
    new handle under [key] and what it returned before under every other
    label; a create that fails changes no answer of the getter; and the
    getter answers [null] exactly for the labels that are not keys. *)
Definition present_or_absent {H : Type} (proj : Heap -> JsMap.t H)
           (getter : string -> Js (option H)) (create : string -> Js (option H)) : Prop :=
  (forall label h, getter label h = (Ret (JsMap.get (proj h) label), h)) /\
  (forall key h x h',
      create key h = (Ret (Some x), h') ->
      fst (getter key h') = Ret (Some x) /\
      forall l, l <> key -> fst (getter l h') = fst (getter l h)) /\
  (forall key h h',
      create key h = (Ret None, h') ->
      forall l, fst (getter l h') = fst (getter l h)) /\
  (forall label h,
      fst (getter label h) = Ret None <-> ~ In label (JsMap.keys (proj h))).

(** A browser in which every call succeeds and shaders compile without
    messages. *)
Definition friendly_host : Host :=
  {| has_gpu := true;
     rejects := fun _ _ => false;
     nulls := fun _ _ => false;
     compilationInfo := fun _ => [];
     loadImage := fun url => Some {| image_src := url; image_width := 64; image_height := 64 |};
     loadVideo := fun url => Some {| video_src := url; videoWidth := 64; videoHeight := 64 |};
     preferredCanvasFormat := "bgra8unorm"%string;
     performance_now := fun _ => JsNumber.of_Z 5000;
     date_now := fun _ => "0"%string |}.

Definition default_context_options : WebGPUContextOptions :=
  {| powerPreference := None; forceFallbackAdapter := None;
     alphaMode := None; colorSpace := None |}.

(** [new Podium({ canvas, enablePostProcessing: true })] on an 800 by 600
    canvas, before and after [initialize()]. *)
Definition fresh_podium : Heap :=
  Podium.constructor friendly_host 800 600 default_context_options true.

Definition started_podium : Heap := snd (Podium.initialize fresh_podium).

(** What a create call does to the mapping it fills: it stores the new
    handle under [key] when it succeeds, leaves the mapping alone when it
    returns [null], and does not throw. *)
Definition stores_on_success {H : Type} (proj : Heap -> JsMap.t H) (key : string)
           (create : Js (option H)) : Prop :=
  forall h r h',
    create h = (r, h') ->
    match r with
    | Ret (Some x) => proj h' = JsMap.set (proj h) key x
    | Ret None => proj h' = proj h
    | Throw _ => False
    end.






(** The uniform data of the blur effect, as [updateEffectUniforms] builds
    it on an 800 by 600 canvas at time 5, for a given intensity. *)
Definition blur_uniforms (intensity : JsNumber.number) : UniformData :=
  [ ("resolution"%string, VPair (JsNumber.of_Z 800) (JsNumber.of_Z 600));
    ("time"%string, VNumber (JsNumber.of_Z 5));
    ("intensity"%string, VNumber intensity);
    ("radius"%string, VNumber (JsNumber.of_Z 2)) ].

(** The events a computation added to the history. *)
Definition new_events (before after : Heap) : list Event :=
  skipn (List.length (history before)) (history after).


(** A browser whose device refuses to create samplers. *)
Definition samplerless_host : Host :=
  {| has_gpu := true;
     rejects := fun _ c => match c with CreateSampler _ _ _ _ _ => true | _ => false end;
     nulls := fun _ _ => false;
     compilationInfo := fun _ => [];
     loadImage := fun _ => None;
     loadVideo := fun _ => None;
     preferredCanvasFormat := "bgra8unorm"%string;
     performance_now := fun _ => JsNumber.of_Z 5000;
     date_now := fun _ => "0"%string |}.

Definition is_error (l : LogLine) : bool :=
  match level l with LogError => true | LogWarn => false end.

(** [new Podium({ canvas, enablePostProcessing: true })] in the browser
    without samplers. *)
Definition samplerless_podium : Heap :=
  Podium.constructor samplerless_host 800 600 default_context_options true.

(** A browser whose device refuses to create textures. *)
Definition textureless_host : Host :=
  {| has_gpu := true;
     rejects := fun _ c => match c with CreateTexture _ _ _ _ _ _ => true | _ => false end;
     nulls := fun _ _ => false;
     compilationInfo := fun _ => [];
     loadImage := fun _ => None;
     loadVideo := fun _ => None;
     preferredCanvasFormat := "bgra8unorm"%string;
     performance_now := fun _ => JsNumber.of_Z 5000;
     date_now := fun _ => "0"%string |}.

(** [new Podium({ canvas, enablePostProcessing: true })] in the browser
    without textures. *)
Definition textureless_podium : Heap :=
  Podium.constructor textureless_host 800 600 default_context_options true.

(** The heap in which [Podium.initialize] starts the post-processor: the
    one the context's [initialize] leaves. *)
Definition after_context (h : Heap) : Heap := snd (WebGPUContext.initialize h).

(** What [Podium.initialize] asks of the post-processor. *)
Definition start_postProcessor (h : Heap) : Outcome bool * Heap :=
  PostProcessor.initialize (canvas_width (ctx (after_context h)))
                           (canvas_height (ctx (after_context h)))
                           (after_context h).

(** ** What a frame tells the graphics backend

    Of the host calls of a run, the ones that allocate textures, create
    views and encode render passes are kept, without the ordinals of the
    encoders and bind groups. *)
Inductive PassCommand :=
| Allocate
| Touch (texture : GPUTexture)
| Begin (target : GPUTextureView) (depth : option GPUTextureView)
| UsePipeline (pipeline : GPURenderPipeline)
| Sample (views : list GPUTextureView)
| SetBuffers
| Draw (indexCount : nat)
| End.

Definition views_of (bg : GPUBindGroup) : list GPUTextureView :=
  flat_map (fun e => match snd e with ViewBinding v => [v] | _ => [] end)
           (bg_entries bg).

Definition observe1 (e : Event) : list PassCommand :=
  match ev_call e with
  | CreateTexture _ _ _ _ _ _ => [Allocate]
  | CreateView t => [Touch t]
  | BeginRenderPass _ d => [Begin (colorView d) (depthView d)]
  | SetPipeline _ p => [UsePipeline p]
  | SetBindGroup _ _ bg => [Sample (views_of bg)]
  | SetIndexBuffer _ _ _ => [SetBuffers]
  | DrawIndexed _ n => [Draw n]
  | EndPass _ => [End]
  | _ => []
  end.

Definition observe (evs : list Event) : list PassCommand := flat_map observe1 evs.

(** Where a post-processing step renders to: one of the offscreen targets
    or the view handed to [applyPostProcessing]. *)
Inductive Target :=
| Offscreen (texture : GPUTexture)
| Final (view : GPUTextureView).

Record Step := {
  step_pipeline : GPURenderPipeline;
  step_input : GPUTexture;
  step_output : Target
}.

(** The commands of one step, drawn with the fullscreen quad of [n]
    indices. *)
Definition step_commands (n : nat) (s : Step) : list PassCommand :=
  match step_output s with
  | Offscreen t => [Touch t; Begin (ViewOf t) None]
  | Final v => [Begin v None]
  end
  ++ [ Touch (step_input s); UsePipeline (step_pipeline s);
       Sample [ViewOf (step_input s)]; SetBuffers; Draw n; End ].

(** The ping-pong walk over the enabled passes: the step of the pass at
    hand reads [input]; unless it is the last one it writes [a], and the
    walk goes on reading [a] with the roles of [a] and [b] swapped. *)
Fixpoint pingpong (final : GPUTextureView) (input a b : GPUTexture)
         (ps : list PostProcessPass) : list Step :=
  match ps with
  | [] => []
  | p :: rest =>
      match rest with
      | [] => [ {| step_pipeline := pass_pipeline p; step_input := input;
                   step_output := Final final |} ]
      | _ :: _ =>
          {| step_pipeline := pass_pipeline p; step_input := input;
             step_output := Offscreen a |}
          :: pingpong final a b a rest
      end
  end.

(** A linear chain from the texture [input] to the view [final]: each step
    reads what the step before wrote, the first reads [input] and the last
    writes [final]. *)
Fixpoint chained (input : GPUTexture) (final : GPUTextureView) (steps : list Step)
  : Prop :=
  match steps with
  | [] => False
  | s :: rest =>
      step_input s = input /\
      match rest with
      | [] => step_output s = Final final
      | _ :: _ => exists t, step_output s = Offscreen t /\ chained t final rest
      end
  end.

(** The parts of the heap a post-processing run relies on. *)
Definition fixtures (h : Heap) :=
  (host h, ctx h, textureManager h, postProcessor h, podium h).

(** A post-processor as [initialize] leaves it, in a browser that accepts
    every call and compiles the shaders without errors: the scene target
    [r], the two temporary targets [t0] and [t1], the fullscreen quad and
    the default sampler are there, and every pass has its uniform buffer. *)
Set Implicit Arguments.
Record Ready (h : Heap) (p : PostProcessorState) (quad : PlaneState)
       (r t0 t1 : GPUTexture) : Prop := {
  ready_accepts : forall n c, rejects (host h) n c = false;
  ready_nulls : forall n c, nulls (host h) n c = false;
  ready_compiles :
    forall m,
      existsb (fun x => String.eqb (msg_type x) "error") (compilationInfo (host h) m)
      = false;
  ready_device : device (ctx h) <> None;
  ready_postProcessor : postProcessor h = Some p;
  ready_quad : fullscreenQuad p = Some quad;
  ready_buffers_of_quad : vertexBuffer quad <> None /\ indexBuffer quad <> None;
  ready_renderTarget : renderTarget p = Some r;
  ready_tempTargets : tempTargets p = [t0; t1];
  ready_sampler : JsMap.get (samplers (textureManager h)) "default" <> None;
  ready_uniformBuffers :
    Forall (fun pass => pass_uniformBuffer pass <> None) (JsMap.values (passes p))
}.
Unset Implicit Arguments.

(** The passes [applyPostProcessing] runs. *)
Definition enabledPasses (p : PostProcessorState) : list PostProcessPass :=
  filter enabled (JsMap.values (passes p)).

(** The steps of a run of [applyPostProcessing]: the ping-pong walk over
    the enabled passes from the scene target [r] over the temporary targets
    [t0] and [t1], or, with no pass enabled, one step that draws [r] onto
    the final target through the pipeline [copy]. *)
Definition plan (p : PostProcessorState) (final : GPUTextureView)
           (r t0 t1 : GPUTexture) (copy : GPURenderPipeline) : list Step :=
  match enabledPasses p with
  | [] => [ {| step_pipeline := copy; step_input := r; step_output := Final final |} ]
  | _ :: _ => pingpong final r t0 t1 (enabledPasses p)
  end.

(** The textures a command reads, writes or makes a view of. *)
Definition texture_of_view (v : GPUTextureView) : GPUTexture :=
  match v with ViewOf t => t end.

Definition textures_of (c : PassCommand) : list GPUTexture :=
  match c with
  | Touch t => [t]
  | Begin target depth =>
      texture_of_view target
        :: match depth with Some d => [texture_of_view d] | None => [] end
  | Sample views => map texture_of_view views
  | _ => []
  end.


(** The started instance with the blur, vignette and film grain effects
    switched on. *)
Definition three_effects : Heap :=
  snd ((PostProcessor.setEffectEnabled "blur" true ;;;
        PostProcessor.setEffectEnabled "vignette" true ;;;
        PostProcessor.setEffectEnabled "filmGrain" true)%js started_podium).

(** The post-processor and the fullscreen quad of a heap that has them. *)
Definition the_postProcessor (h : Heap) : PostProcessorState :=
  match postProcessor h with Some p => p | None => PostProcessor.constructor end.

Definition the_quad (h : Heap) : PlaneState :=
  match fullscreenQuad (the_postProcessor h) with
  | Some q => q
  | None => {| vertexBuffer := None; indexBuffer := None; vertexCount := 0; indexCount := 0 |}
  end.

(** ** The draw commands of a frame *)





(** The host accepts every call. *)
Definition accepts (h : Heap) : Prop := forall n c, rejects (host h) n c = false.



(** A render object as [createImagePlane] leaves one: a quad of six
    indices with its buffers, a pipeline and a bind group over an image
    texture. *)
Definition sample_object (id : string) (n : nat) (v : bool) : RenderObject :=
  {| obj_id := id;
     plane := {| vertexBuffer := Some (100 + n)%nat; indexBuffer := Some (101 + n)%nat;
                 vertexCount := 4; indexCount := 6 |};
     obj_pipeline := (102 + n)%nat;
     obj_bindGroup :=
       {| bg_id := (103 + n)%nat;
          bg_entries := [ (0%nat, BufferBinding (104 + n)%nat);
                          (1%nat, ViewBinding (ViewOf (DeviceTexture (105 + n)%nat)));
                          (2%nat, SamplerBinding (106 + n)%nat) ] |};
     obj_uniformBuffer := Some (104 + n)%nat;
     visible := v |}.

(** The started instance with three effects and three objects, the second
    of them hidden. *)
Definition sample_scene : Heap :=
  set_podium
    (Podium.set_renderObjects
       (fun _ =>
          JsMap.set
            (JsMap.set
               (JsMap.set [] "front"%string (sample_object "front" 0 true))
               "hidden"%string (sample_object "hidden" 10 false))
            "back"%string (sample_object "back" 20 true)))
    three_effects.

(** The started instance after a second [initialize()], and the same with
    the five built-in effects switched on. *)
Definition restarted_podium : Heap := snd (Podium.initialize started_podium).

Definition restarted_effects : Heap :=
  snd ((PostProcessor.setEffectEnabled "blur" true ;;;
        PostProcessor.setEffectEnabled "bloom" true ;;;
        PostProcessor.setEffectEnabled "colorCorrection" true ;;;
        PostProcessor.setEffectEnabled "vignette" true ;;;
        PostProcessor.setEffectEnabled "filmGrain" true)%js restarted_podium).

(** The textures the commands of [run] read, write or make a view of,
    started in [h]. *)
Definition textures_used (h : Heap) (run : Js unit) : list GPUTexture :=
  flat_map textures_of (observe (new_events h (snd (run h)))).

(* ================================================================== *)
(** * Vocabulary of the further properties *)
(* ================================================================== *)

(** ** Geometry *)

(** The triangles an index list draws, three indices each. *)
Fixpoint triangles (ixs : list Z) : list (Z * Z * Z) :=
  match ixs with
  | a :: b :: c :: rest => (a, b, c) :: triangles rest
  | _ => []
  end.

(** A triangle over [n] vertices: three different vertices that exist. *)
Definition proper_triangle (n : nat) (t : Z * Z * Z) : Prop :=
  let '(a, b, c) := t in
  (0 <= a < Z.of_nat n /\ 0 <= b < Z.of_nat n /\ 0 <= c < Z.of_nat n) /\
  a <> b /\ b <> c /\ a <> c.

(** The cells of a grid of [gx] by [gy] segments, row by row. *)
Definition cells (gx gy : nat) : list (nat * nat) :=
  flat_map (fun iy => map (fun ix => (ix, iy)) (seq 0 gx)) (seq 0 gy).

(** The six indices [createGeometry] pushes for a cell. *)
Definition cell_indices (gx : nat) (c : nat * nat) : list Z :=
  let '(ix, iy) := c in
  [ Z.of_nat (ix + (gx + 1) * iy); Z.of_nat (ix + (gx + 1) * (iy + 1));
    Z.of_nat ((ix + 1) + (gx + 1) * iy);
    Z.of_nat (ix + (gx + 1) * (iy + 1)); Z.of_nat ((ix + 1) + (gx + 1) * (iy + 1));
    Z.of_nat ((ix + 1) + (gx + 1) * iy) ].

(** ** Uniforms *)

(** The matrix [serializeUniformData] copies: [data.mvpMatrix] when it is
    a [Float32Array], the identity otherwise. *)
Definition matrix_of (data : UniformData) : Float32Array.t :=
  match JsMap.get data "mvpMatrix"%string with
  | Some (VFloat32Array m) => m
  | _ => Matrix.createIdentityMatrix
  end.

(** The value of lane 16: [data.time] rounded when it is a number, and
    what the lane held otherwise. *)
Definition time_of (data : UniformData) (otherwise : JsNumber.number) : JsNumber.number :=
  match JsMap.get data "time"%string with
  | Some (VNumber t) => JsNumber.fround t
  | _ => otherwise
  end.

(** ** Host calls *)

(** The calls a computation made, each of them accepted by the host. *)
Definition calls_made (h h' : Heap) (calls : list ApiCall) : Prop :=
  map ev_call (new_events h h') = calls /\
  Forall (fun e => ev_result e <> None) (new_events h h').

(** Everything of the heap but the history of host calls and its clock. *)
Definition objects (h : Heap) :=
  (host h, console h, ctx h, shaderManager h, textureManager h, uniformManager h,
   postProcessor h, podium h).

(** Every host call a computation makes, however it ends, is of the kind
    [Q]. *)
Definition emits {A : Type} (Q : ApiCall -> bool) (c : Js A) : Prop :=
  forall h r h',
    c h = (r, h') ->
    exists evs,
      history h' = history h ++ evs /\
      Forall (fun e => Q (ev_call e) = true) evs.

(** The calls that create or destroy a texture, a buffer or the device. *)
Definition allocates (c : ApiCall) : bool :=
  match c with
  | CreateTexture _ _ _ _ _ _ | CreateBuffer _ _ _ _
  | DestroyTexture _ | DestroyBuffer _ | DestroyDevice _ => true
  | _ => false
  end.

Definition frugal (c : ApiCall) : bool := negb (allocates c).

(** The calls that open, close and submit the command buffer of a frame. *)
Definition frames_commands (c : ApiCall) : bool :=
  match c with
  | CreateCommandEncoder _ | Finish _ | Submit _ => true
  | _ => false
  end.

(** What the passes of a frame are made of: neither an allocation nor a
    call on the command buffer as a whole. *)
Definition pass_work (c : ApiCall) : bool :=
  negb (allocates c) && negb (frames_commands c).

(** Everything but a submission to the queue. *)
Definition no_submit (c : ApiCall) : bool :=
  match c with Submit _ => false | _ => true end.

(** The submissions the queue accepted. *)
Definition submitted (e : Event) : bool :=
  match ev_call e, ev_result e with
  | Submit _, Some _ => true
  | _, _ => false
  end.

Definition submissions (evs : list Event) : nat := List.length (filter submitted evs).

(** The frame counter of the instance. *)
Definition frames (h : Heap) : nat := frameCount (podium h).

(** A computation that submits at most one frame, and counts it when it
    does. *)
Definition counts_frames {A : Type} (c : Js A) : Prop :=
  forall h r h',
    c h = (r, h') ->
    exists evs,
      history h' = history h ++ evs /\
      (submissions evs <= 1)%nat /\
      frames h' = (frames h + submissions evs)%nat.

(** A shader module that compiled with at least one message of type
    [error]. *)
Definition has_errors (h : Heap) (m : GPUShaderModule) : bool :=
  existsb (fun x => String.eqb (msg_type x) "error") (compilationInfo (host h) m).

(** ** Effects *)

(** A computation keeps the property [I] of the heap, however it ends. *)
Definition keeps {A : Type} (I : Heap -> Prop) (c : Js A) : Prop :=
  forall h r h', I h -> c h = (r, h') -> I h'.

(** The passes of the post-processor, when there is one. *)
Definition passesOf (h : Heap) : option (JsMap.t PostProcessPass) :=
  option_map passes (postProcessor h).

(** Every pass is stored under its own id and is switched off. *)
Definition all_disabled (h : Heap) : Prop :=
  exists p,
    postProcessor h = Some p /\
    Forall (fun kv => pass_id (snd kv) = fst kv /\ enabled (snd kv) = false) (passes p).

(** Every pass is stored once, under the id of a built-in effect. *)
Definition builtin_only (h : Heap) : Prop :=
  exists p,
    postProcessor h = Some p /\
    NoDup (JsMap.keys (passes p)) /\
    incl (JsMap.keys (passes p))
         ["blur"; "bloom"; "colorCorrection"; "vignette"; "filmGrain"]%string.

(** What a pass holds besides its options object. *)
Definition pass_settings (pass : PostProcessPass) :=
  (pass_id pass, pass_shader pass, pass_pipeline pass, pass_bindGroup pass,
   pass_uniformBuffer pass, enabled pass).

(** The pass stored under [id] in a heap that has it. *)
Definition the_pass (h : Heap) (id : string) : PostProcessPass :=
  match JsMap.get (passes (the_postProcessor h)) id with
  | Some pass => pass
  | None =>
      {| pass_id := id; pass_shader := PostProcessor.getCopyShader;
         pass_pipeline := 0%nat;
         pass_bindGroup := {| bg_id := 0%nat; bg_entries := [] |};
         pass_uniformBuffer := None; enabled := false; pass_options := [] |}
  end.

(** ** Render objects *)

(** The buffers a render object owns: those of its plane and its uniform
    buffer. *)
Definition buffersOf (obj : RenderObject) : list GPUBuffer :=
  match vertexBuffer (plane obj) with Some b => [b] | None => [] end
  ++ match indexBuffer (plane obj) with Some b => [b] | None => [] end
  ++ match obj_uniformBuffer obj with Some b => [b] | None => [] end.

(** ** Sample instances *)

(** The started instance in a browser that can load no image. *)
Definition offline_podium : Heap := snd (Podium.initialize samplerless_podium).

(** The started instance after loading one image. *)
Definition textured_podium : Heap :=
  snd (TextureManager.loadImageTexture "a.png" no_texture_options started_podium).

(** The started instance with the passes of its post-processor removed. *)
Definition passless_podium : Heap :=
  set_postProcessor
    (option_map (PostProcessor.set_passes (fun _ => JsMap.empty))) started_podium.

(* ================================================================== *)
(** * Facts about numbers *)
(* ================================================================== *)

Section NumberFacts.
Import JsNumber.

Lemma iter_pos_swap (A : Type) (f : A -> A) (p : positive) (x : A) :
  iter_pos f p (f x) = f (iter_pos f p x).
Proof.
  revert x. induction p as [p IH | p IH | ]; intros x; simpl.
  - now rewrite !IH.
  - now rewrite !IH.
  - reflexivity.
Qed.

Lemma iter_pos_succ (A : Type) (f : A -> A) (p : positive) (x : A) :
  iter_pos f (Pos.succ p) x = f (iter_pos f p x).
Proof.
  revert x. induction p as [p IH | p IH | ]; intros x; simpl.
  - rewrite !IH. now rewrite <- !iter_pos_swap.
  - now rewrite <- !iter_pos_swap.
  - reflexivity.
Qed.

(** Shifting right undoes shifting left, with nothing lost. *)
Lemma shr_shl_exact (m d : positive) :
  iter_pos shr_1 d
    {| shr_m := Zpos (Pos.iter xO m d); shr_r := false; shr_s := false |}
  = {| shr_m := Zpos m; shr_r := false; shr_s := false |}.
Proof.
  induction d as [| d IH] using Pos.peano_ind.
  - reflexivity.
  - rewrite Pos.iter_succ, iter_pos_succ, <- iter_pos_swap.
    simpl. exact IH.
Qed.

Lemma digits2_shl (m d : positive) :
  digits2_pos (Pos.iter xO m d) = (digits2_pos m + d)%positive.
Proof.
  induction d as [| d IH] using Pos.peano_ind.
  - simpl. lia.
  - rewrite Pos.iter_succ. simpl. rewrite IH. lia.
Qed.

(** Rounding a canonical mantissa that was shifted left by [d] bits gives
    the mantissa back. *)
Lemma round_shifted (prec emax : Z) (s : bool) (m d : positive) (e : Z) :
  bounded prec emax m e = true ->
  binary_round_aux prec emax s (Zpos (Pos.iter xO m d)) (e - Zpos d) loc_Exact
  = S754_finite s m e.
Proof.
  unfold bounded, canonical_mantissa. intros Hb.
  apply andb_prop in Hb. destruct Hb as [Hc He].
  apply Z.eqb_eq in Hc.
  unfold binary_round_aux, shr_fexp. simpl Zdigits2.
  rewrite digits2_shl.
  replace (Zpos (digits2_pos m + d) + (e - Zpos d)) with (Zpos (digits2_pos m) + e) by lia.
  rewrite Hc.
  replace (e - (e - Zpos d)) with (Zpos d) by lia.
  cbn [shr shr_record_of_loc]. rewrite shr_shl_exact.
  cbn [shr_m loc_of_shr_record round_nearest_even Zdigits2].
  replace (e - Zpos d + Zpos d) with e by lia.
  rewrite Hc, Z.sub_diag. cbn [shr shr_record_of_loc shr_m].
  now rewrite He.
Qed.

Lemma mul_one_l (x : number) :
  isFinite x = true -> valid_binary prec64 emax64 x = true -> mul one x = x.
Proof.
  destruct x as [s | s | | s m e]; try discriminate; intros _ Hv.
  - reflexivity.
  - unfold mul, one, SFmul. simpl xorb.
    change (4503599627370496 * m)%positive with (Pos.iter xO m 52).
    replace (-52 + e) with (e - 52) by lia.
    now apply round_shifted.
Qed.

Lemma mul_one_r (x : number) :
  isFinite x = true -> valid_binary prec64 emax64 x = true -> mul x one = x.
Proof.
  destruct x as [s | s | | s m e]; try discriminate; intros _ Hv.
  - destruct s; reflexivity.
  - unfold mul, one, SFmul. rewrite xorb_false_r, Pos.mul_comm.
    change (4503599627370496 * m)%positive with (Pos.iter xO m 52).
    replace (e + -52) with (e - 52) by lia.
    now apply round_shifted.
Qed.

Lemma mul_zero_l (x : number) :
  isFinite x = true -> is_zero (mul zero x) = true.
Proof. destruct x; try discriminate; reflexivity. Qed.

Lemma mul_zero_r (x : number) :
  isFinite x = true -> is_zero (mul x zero) = true.
Proof. destruct x; try discriminate; reflexivity. Qed.

Lemma agree_refl x : agree x x.
Proof. now left. Qed.

Lemma agree_add_zero_r r x z :
  isFinite x = true -> agree r x -> is_zero z = true -> agree (add r z) x.
Proof.
  intros Hx [-> | [Hr Hxz]] Hz.
  - destruct x as [s | s | | s m e]; try discriminate;
      destruct z as [sz | | |]; try discriminate.
    + right. split; [ destruct s, sz |]; reflexivity.
    + left. reflexivity.
  - right. split; [| exact Hxz].
    destruct r as [sr | | |]; try discriminate;
      destruct z as [sz | | |]; try discriminate.
    destruct sr, sz; reflexivity.
Qed.

Lemma agree_add_zero_l r x z :
  isFinite x = true -> agree r x -> is_zero z = true -> agree (add z r) x.
Proof.
  intros Hx [-> | [Hr Hxz]] Hz.
  - destruct x as [s | s | | s m e]; try discriminate;
      destruct z as [sz | | |]; try discriminate.
    + right. split; [ destruct s, sz |]; reflexivity.
    + left. reflexivity.
  - right. split; [| exact Hxz].
    destruct r as [sr | | |]; try discriminate;
      destruct z as [sz | | |]; try discriminate.
    destruct sr, sz; reflexivity.
Qed.

Lemma agree_fround r x : fround x = x -> agree r x -> agree (fround r) x.
Proof.
  intros Hx [-> | [Hr Hxz]].
  - left. exact Hx.
  - right. split; [| exact Hxz]. destruct r; try discriminate. reflexivity.
Qed.

Lemma agree_eqb r x : isFinite x = true -> agree r x -> eqb r x = true.
Proof.
  intros Hx [-> | [Hr Hxz]].
  - destruct x as [s | s | | s m e]; try discriminate; unfold eqb, SFeqb, SFcompare.
    + reflexivity.
    + rewrite Z.compare_refl.
      assert (H : Pos.compare_cont Eq m m = Eq) by apply Pos.compare_cont_refl.
      rewrite H. destruct s; reflexivity.
  - destruct r; try discriminate; destruct x; try discriminate. reflexivity.
Qed.

End NumberFacts.

Section MatrixFacts.
Import JsNumber.

Lemma is_zero_add z1 z2 :
  is_zero z1 = true -> is_zero z2 = true -> is_zero (add z1 z2) = true.
Proof.
  destruct z1 as [s1 | | |]; try discriminate.
  destruct z2 as [s2 | | |]; try discriminate.
  destruct s1, s2; reflexivity.
Qed.

Lemma createIdentityMatrix_eq :
  Matrix.createIdentityMatrix =
  [ one; zero; zero; zero;  zero; one; zero; zero;
    zero; zero; one; zero;  zero; zero; zero; one ].
Proof. reflexivity. Qed.

Lemma multiplyMatrices_entries a b :
  Matrix.multiplyMatrices a b =
  map (fun k => fround (Matrix.entry a b (k / 4) (k mod 4))) (seq 0 16).
Proof. reflexivity. Qed.

Lemma finite_f32_isFinite x : finite_f32 x -> isFinite x = true.
Proof. now intros [H _]. Qed.

Ltac zero_term :=
  repeat first
    [ apply is_zero_add
    | apply mul_zero_l; apply finite_f32_isFinite; assumption
    | apply mul_zero_r; apply finite_f32_isFinite; assumption ].

Ltac unit_term :=
  first
    [ rewrite mul_one_l; [ apply agree_refl | .. ]
    | rewrite mul_one_r; [ apply agree_refl | .. ] ];
  match goal with H : finite_f32 ?x |- _ = true => apply H end.

Ltac dot_product :=
  first
    [ solve [ unit_term ]
    | apply agree_add_zero_r;
      [ apply finite_f32_isFinite; assumption | dot_product | solve [ zero_term ] ]
    | apply agree_add_zero_l;
      [ apply finite_f32_isFinite; assumption | solve [ unit_term ] | solve [ zero_term ] ] ].

Lemma multiplyMatrices_identity_agree (m : Float32Array.t) :
  List.length m = 16%nat ->
  Forall finite_f32 m ->
  Forall2 agree (Matrix.multiplyMatrices Matrix.createIdentityMatrix m) m /\
  Forall2 agree (Matrix.multiplyMatrices m Matrix.createIdentityMatrix) m.
Proof.
  intros Hlen Hfin.
  do 16 (destruct m as [| ? m]; [ discriminate Hlen |]).
  destruct m; [| discriminate Hlen]. clear Hlen.
  repeat match goal with
         | H : Forall _ (_ :: _) |- _ => inversion H; subst; clear H
         | H : Forall _ [] |- _ => clear H
         end.
  rewrite !multiplyMatrices_entries, createIdentityMatrix_eq.
  cbn [seq map Matrix.entry Float32Array.get nth Nat.div Nat.modulo Nat.divmod
           fst snd Nat.mul Nat.add Nat.sub].
  split.
  all: repeat (apply Forall2_cons; [ | ]); try apply Forall2_nil.
  all: apply agree_fround; [ match goal with H : finite_f32 ?x |- fround ?x = ?x => apply H end |].
  all: dot_product.
Qed.

End MatrixFacts.

(* ================================================================== *)
(** * Reasoning about computations *)
(* ================================================================== *)

Local Open Scope js_scope.

Lemma bind_eq {A B} (c : Js A) (k : A -> Js B) h :
  bind c k h =
  match c h with
  | (Ret a, h') => k a h'
  | (Throw e, h') => (Throw e, h')
  end.
Proof. reflexivity. Qed.

Lemma host_call_accepted c h :
  rejects (host h) (clock h) c = false ->
  host_call c h = (Ret (clock h), record {| ev_call := c; ev_result := Some (clock h) |} h).
Proof. unfold host_call. now intros ->. Qed.

(** ** Parts of the heap a computation leaves alone *)

Section Preserves.
Context {X : Type} (P : Heap -> X).
Hypothesis P_record : forall e h, P (record e h) = P h.
Hypothesis P_console : forall f h, P (set_console f h) = P h.

Lemma preserves_ret {A} (a : A) : preserves P (ret a).
Proof. intros h r h' H. now inversion H. Qed.

Lemma preserves_gets {A} (f : Heap -> A) : preserves P (gets f).
Proof. intros h r h' H. now inversion H. Qed.

Lemma preserves_throw {A} e : preserves P (@throw A e).
Proof. intros h r h' H. now inversion H. Qed.

Lemma preserves_modify (f : Heap -> Heap) :
  (forall h, P (f h) = P h) -> preserves P (modify f).
Proof. intros Hf h r h' H. inversion H. apply Hf. Qed.

Lemma preserves_bind {A B} (c : Js A) (k : A -> Js B) :
  preserves P c -> (forall a, preserves P (k a)) -> preserves P (bind c k).
Proof.
  intros Hc Hk h r h' H. rewrite bind_eq in H.
  destruct (c h) as [[a | e] h1] eqn:E.
  - rewrite (Hk a _ _ _ H). eapply Hc; eauto.
  - inversion H; subst. eapply Hc; eauto.
Qed.

Lemma preserves_try_catch {A} (c : Js A) (handler : Exn -> Js A) :
  preserves P c -> (forall e, preserves P (handler e)) -> preserves P (try_catch c handler).
Proof.
  intros Hc Hk h r h' H. unfold try_catch in H.
  destruct (c h) as [[a | e] h1] eqn:E.
  - inversion H; subst. eapply Hc; eauto.
  - rewrite (Hk e _ _ _ H). eapply Hc; eauto.
Qed.

Lemma preserves_forEach {A} (xs : list A) (body : A -> Js unit) :
  (forall x, preserves P (body x)) -> preserves P (forEach xs body).
Proof.
  intros Hb. induction xs as [| x xs IH]; simpl.
  - apply preserves_ret.
  - apply preserves_bind; [ apply Hb | intros _; exact IH ].
Qed.

Lemma preserves_host_call c : preserves P (host_call c).
Proof.
  intros h r h' H. unfold host_call in H.
  destruct (rejects _ _ _); inversion H; apply P_record.
Qed.

Lemma preserves_host_call_nullable c : preserves P (host_call_nullable c).
Proof.
  intros h r h' H. unfold host_call_nullable in H.
  destruct (rejects _ _ _); [| destruct (nulls _ _ _) ];
    inversion H; apply P_record.
Qed.

Lemma preserves_console_error msg : preserves P (console_error msg).
Proof. apply preserves_modify. intros h. apply P_console. Qed.

Lemma preserves_console_warn msg : preserves P (console_warn msg).
Proof. apply preserves_modify. intros h. apply P_console. Qed.

Lemma preserves_non_null {A} what (x : option A) : preserves P (non_null what x).
Proof. destruct x; [ apply preserves_ret | apply preserves_throw ]. Qed.

Lemma preserves_performance_now : preserves P performance_now_.
Proof. apply preserves_gets. Qed.
End Preserves.

(** One step of a frame proof: split the computation at its head. *)
Ltac preserves_step :=
  lazymatch goal with
  | |- preserves _ (bind _ _) => apply preserves_bind; [| intros ? ]
  | |- preserves _ (ret _) => apply preserves_ret
  | |- preserves _ (gets _) => apply preserves_gets
  | |- preserves _ (throw _) => apply preserves_throw
  | |- preserves _ (non_null _ _) => apply preserves_non_null
  | |- preserves _ performance_now_ => apply preserves_performance_now
  | |- preserves _ (try_catch _ _) => apply preserves_try_catch; [| intros ? ]
  | |- preserves _ (forEach _ _) => apply preserves_forEach; intros ?
  | |- preserves _ (host_call _) =>
      apply preserves_host_call; intros; reflexivity
  | |- preserves _ (host_call_nullable _) =>
      apply preserves_host_call_nullable; intros; reflexivity
  | |- preserves _ (console_error _) =>
      apply preserves_console_error; intros; reflexivity
  | |- preserves _ (console_warn _) =>
      apply preserves_console_warn; intros; reflexivity
  | |- preserves _ (modify _) => apply preserves_modify; intros; reflexivity
  | |- preserves _ (match ?x with _ => _ end) => destruct x
  | |- preserves _ (if ?x then _ else _) => destruct x
  end.

Create HintDb frames.

Ltac preserves_tac := repeat first [ preserves_step | solve [ auto with frames ] ].

(** ** Computations that always return *)

Lemma returns_ret {A} (a : A) : returns (ret a).
Proof. intros h. now exists a, h. Qed.

Lemma returns_gets {A} (f : Heap -> A) : returns (gets f).
Proof. intros h. now exists (f h), h. Qed.

Lemma returns_modify f : returns (modify f).
Proof. intros h. now exists tt, (f h). Qed.

Lemma returns_bind {A B} (c : Js A) (k : A -> Js B) :
  returns c -> (forall a, returns (k a)) -> returns (bind c k).
Proof.
  intros Hc Hk h. rewrite bind_eq.
  destruct (Hc h) as (a & h1 & ->). apply Hk.
Qed.

Lemma returns_try_catch {A} (c : Js A) (handler : Exn -> Js A) :
  (forall e, returns (handler e)) -> returns (try_catch c handler).
Proof.
  intros Hk h. unfold try_catch.
  destruct (c h) as [[a | e] h1].
  - now exists a, h1.
  - apply Hk.
Qed.

Lemma returns_console_error msg : returns (console_error msg).
Proof. apply returns_modify. Qed.

Lemma returns_console_warn msg : returns (console_warn msg).
Proof. apply returns_modify. Qed.

Lemma returns_forEach {A} (xs : list A) (body : A -> Js unit) :
  (forall x, returns (body x)) -> returns (forEach xs body).
Proof.
  intros Hb. induction xs as [| x xs IH]; simpl.
  - apply returns_ret.
  - apply returns_bind; [ apply Hb | intros _; exact IH ].
Qed.

Ltac returns_step :=
  lazymatch goal with
  | |- returns (bind _ _) => apply returns_bind; [| intros ? ]
  | |- returns (ret _) => apply returns_ret
  | |- returns (gets _) => apply returns_gets
  | |- returns (modify _) => apply returns_modify
  | |- returns (console_error _) => apply returns_console_error
  | |- returns (console_warn _) => apply returns_console_warn
  | |- returns (try_catch _ _) => apply returns_try_catch; intros ?
  | |- returns (forEach _ _) => apply returns_forEach; intros ?
  | |- returns (match ?x with _ => _ end) => destruct x
  | |- returns (if ?x then _ else _) => destruct x
  end.

Ltac returns_tac := repeat first [ returns_step | solve [ auto with frames ] ].

(** ** Maps *)

Section JsMapFacts.
Context {V : Type}.

Lemma get_set_same (m : JsMap.t V) k v : JsMap.get (JsMap.set m k v) k = Some v.
Proof.
  induction m as [| [k' v'] m IH]; simpl.
  - now rewrite String.eqb_refl.
  - destruct (String.eqb k k') eqn:E; simpl; rewrite E; [ reflexivity | exact IH ].
Qed.

Lemma get_set_other (m : JsMap.t V) k k' v :
  k <> k' -> JsMap.get (JsMap.set m k v) k' = JsMap.get m k'.
Proof.
  intros N. induction m as [| [k0 v0] m IH]; simpl.
  - destruct (String.eqb k' k) eqn:E; [| reflexivity ].
    apply String.eqb_eq in E. congruence.
  - destruct (String.eqb k k0) eqn:E; simpl.
    + apply String.eqb_eq in E. subst k0.
      destruct (String.eqb k' k) eqn:E'; [| reflexivity ].
      apply String.eqb_eq in E'. congruence.
    + now rewrite IH.
Qed.

Lemma get_none_iff (m : JsMap.t V) k :
  JsMap.get m k = None <-> ~ In k (JsMap.keys m).
Proof.
  induction m as [| [k0 v0] m IH]; simpl.
  - tauto.
  - destruct (String.eqb k k0) eqn:E.
    + apply String.eqb_eq in E. subst. split; [ discriminate | tauto ].
    + apply String.eqb_neq in E. rewrite IH. split.
      * intros N [-> | H]; tauto.
      * tauto.
Qed.
End JsMapFacts.

(** ** Running a computation forwards *)

Ltac head_scrutinee t :=
  lazymatch t with
  | match ?s with _ => _ end => head_scrutinee s
  | (match ?s with _ => _ end) _ => head_scrutinee s
  | (if ?s then _ else _) _ => head_scrutinee s
  | _ => t
  end.

Ltac js_unfold_in H :=
  unfold bind, try_catch, host_call, host_call_nullable, gets, ret, modify, throw,
         non_null, console_error, console_warn, performance_now_ in H;
  cbn [fst snd host history clock console ctx shaderManager textureManager uniformManager
       postProcessor podium record set_console set_ctx set_shaderManager
       set_textureManager set_uniformManager set_postProcessor set_podium] in H.

(** From [H : c h = (r, h')], follow [c] and split on whatever its head
    inspects, down to the returned pair. *)
Ltac run_in H :=
  js_unfold_in H;
  lazymatch type of H with
  | (_, _) = (_, _) => inversion H; subst; clear H
  | ?lhs = _ =>
      let s := head_scrutinee lhs in
      let E := fresh "E" in
      destruct s eqn:E; run_in H
  end.

(* ================================================================== *)
(** * A post-processing run, step by step *)
(* ================================================================== *)

Ltac js_unfold :=
  unfold bind, try_catch, host_call, host_call_nullable, gets, ret, modify, throw,
         non_null, console_error, console_warn, performance_now_;
  cbn [fst snd host history clock console ctx shaderManager textureManager uniformManager
       postProcessor podium record set_console set_ctx set_shaderManager
       set_textureManager set_uniformManager set_postProcessor set_podium].

Lemma observe_app evs1 evs2 : observe (evs1 ++ evs2) = observe evs1 ++ observe evs2.
Proof. apply flat_map_app. Qed.

Lemma fixtures_eq h h' :
  fixtures h' = fixtures h ->
  host h' = host h /\ ctx h' = ctx h /\ textureManager h' = textureManager h /\
  postProcessor h' = postProcessor h /\ podium h' = podium h.
Proof. unfold fixtures. intros H. inversion H. auto. Qed.

Lemma ready_fixtures h h' p quad r t0 t1 :
  fixtures h' = fixtures h -> Ready h p quad r t0 t1 -> Ready h' p quad r t0 t1.
Proof.
  intros F R. apply fixtures_eq in F. destruct F as (Fh & Fc & Ft & Fp & _).
  destruct R. constructor; rewrite ?Fh, ?Fc, ?Ft, ?Fp; assumption.
Qed.

Lemma serializeUniformData_pure data h r h' :
  UniformManager.serializeUniformData data h = (r, h') -> h' = h.
Proof.
  unfold UniformManager.serializeUniformData. intros H. run_in H; reflexivity.
Qed.

(** An upload of uniforms returns, touches no fixture and adds nothing a
    render pass would see. *)
Lemma updateUniformBuffer_quiet label data offset h :
  exists b h' evs,
    UniformManager.updateUniformBuffer label data offset h = (Ret b, h') /\
    fixtures h' = fixtures h /\
    uniformManager h' = uniformManager h /\
    shaderManager h' = shaderManager h /\
    history h' = history h ++ evs /\ observe evs = [].
Proof.
  destruct (UniformManager.updateUniformBuffer label data offset h) as [r h'] eqn:H.
  unfold UniformManager.updateUniformBuffer in H.
  run_in H;
    repeat match goal with
           | E : UniformManager.serializeUniformData _ _ = _ |- _ =>
               apply serializeUniformData_pure in E; subst
           end;
    cbn [history record set_console];
    first [ do 2 eexists; exists []; rewrite app_nil_r;
            repeat split; reflexivity
          | do 3 eexists; repeat split; reflexivity ].
Qed.

Lemma updateEffectUniforms_quiet id options h :
  postProcessor h <> None ->
  exists b h' evs,
    PostProcessor.updateEffectUniforms id options h = (Ret b, h') /\
    fixtures h' = fixtures h /\
    uniformManager h' = uniformManager h /\
    shaderManager h' = shaderManager h /\
    history h' = history h ++ evs /\ observe evs = [].
Proof.
  intros N. unfold PostProcessor.updateEffectUniforms, PostProcessor.this.
  js_unfold. destruct (postProcessor h); [| congruence ].
  apply updateUniformBuffer_quiet.
Qed.

(** Rewrite what [Ready] knows into [H], reducing as it goes. *)
Ltac ready_rewrite H :=
  js_unfold_in H;
  repeat (match goal with
          | R : Ready ?h _ _ _ _ _ |- _ =>
              progress (rewrite ?(ready_postProcessor R), ?(ready_quad R),
                         ?(ready_renderTarget R), ?(ready_tempTargets R),
                         ?(ready_accepts R), ?(ready_nulls R) in H)
          end; js_unfold_in H).

(** Close a branch that contradicts [Ready]. *)
Ltac ready_prune :=
  match goal with
  | E : device (ctx ?h) = None, R : Ready ?h _ _ _ _ _ |- _ =>
      exact (False_ind _ (ready_device R E))
  | E : JsMap.get (samplers (textureManager ?h)) _ = None,
    R : Ready ?h _ _ _ _ _ |- _ =>
      exact (False_ind _ (ready_sampler R E))
  | E : ?x = None, B : ?x <> None |- _ => exact (False_ind _ (B E))
  | B : None <> None |- _ => exact (False_ind _ (B eq_refl))
  end.

(** Follow [H : c h = (r, h')] along the one path that [Ready] allows. *)
Ltac run_ready H :=
  ready_rewrite H;
  lazymatch type of H with
  | (_, _) = (_, _) => inversion H; subst; clear H
  | ?lhs = _ =>
      let s := head_scrutinee lhs in
      let E := fresh "E" in
      destruct s eqn:E; first [ solve [ ready_prune ] | run_ready H ]
  end.

Lemma ready_record e h p quad r t0 t1 :
  Ready h p quad r t0 t1 -> Ready (record e h) p quad r t0 t1.
Proof. apply ready_fixtures. reflexivity. Qed.

Lemma this_ready h p quad r t0 t1 :
  Ready h p quad r t0 t1 -> PostProcessor.this h = (Ret p, h).
Proof.
  intros R. unfold PostProcessor.this. js_unfold.
  now rewrite (ready_postProcessor R).
Qed.

(** One pass of the chain: the uniforms are uploaded, a bind group over the
    input texture is made, and the fullscreen quad is drawn with the pass's
    pipeline. *)
Lemma renderPostProcessPass_run h p quad r t0 t1 renderPass pass input time :
  Ready h p quad r t0 t1 ->
  pass_uniformBuffer pass <> None ->
  exists h' evs,
    PostProcessor.renderPostProcessPass renderPass pass (Some input) time h = (Ret tt, h') /\
    fixtures h' = fixtures h /\
    history h' = history h ++ evs /\
    observe evs =
      [ Touch input; UsePipeline (pass_pipeline pass); Sample [ViewOf input];
        SetBuffers; Draw (indexCount quad) ].
Proof.
  intros R B.
  destruct (PostProcessor.renderPostProcessPass renderPass pass (Some input) time h)
    as [res h'] eqn:H.
  unfold PostProcessor.renderPostProcessPass, PostProcessor.this in H.
  ready_rewrite H.
  destruct (updateEffectUniforms_quiet (pass_id pass)
              (JsMap.set (pass_options pass) "time" (VNumber time)) h)
    as (b & h1 & evs1 & U & F1 & _ & _ & H1 & O1).
  { rewrite (ready_postProcessor R). discriminate. }
  rewrite U in H.
  pose proof (ready_fixtures _ _ _ _ _ _ _ F1 R) as R1.
  destruct (ready_buffers_of_quad R) as [Bv Bi].
  unfold PostProcessor.createPostProcessBindGroupLayout,
    PostProcessor.createPostProcessBindGroup, TextureManager.getSampler,
    Plane.bind, Plane.draw in H.
  run_ready H.
  do 2 eexists. split; [ reflexivity |]. split; [| split ].
  - unfold fixtures in *. cbn. exact F1.
  - cbn [history record]. rewrite H1, <- !app_assoc. reflexivity.
  - rewrite observe_app, O1. reflexivity.
Qed.

Lemma mod2_SS i : (S (S i) mod 2 = i mod 2)%nat.
Proof.
  replace (S (S i)) with (i + 1 * 2)%nat by lia.
  apply Nat.Div0.mod_add.
Qed.

(** Execute an accepted host call at the head of the goal. *)
Ltac exec_call R :=
  rewrite bind_eq, host_call_accepted by (apply (ready_accepts R));
  cbv beta iota.

(** The loop of [applyPostProcessing] from index [i] on walks the
    ping-pong plan. *)
Lemma passLoop_run rest :
  forall h p quad r t0 t1 commandEncoder final time n i input a b,
    Ready h p quad r t0 t1 ->
    Forall (fun pass => pass_uniformBuffer pass <> None) rest ->
    n = (i + List.length rest)%nat ->
    nth_error [t0; t1] (i mod 2) = Some a ->
    nth_error [t0; t1] (S i mod 2) = Some b ->
    exists h' evs,
      PostProcessor.passLoop commandEncoder final time n i rest (Some input) h
      = (Ret tt, h') /\
      fixtures h' = fixtures h /\
      history h' = history h ++ evs /\
      observe evs
      = flat_map (step_commands (indexCount quad)) (pingpong final input a b rest).
Proof.
  induction rest as [| pass rest IH];
    intros h p quad r t0 t1 enc final time n i input a b R B N Ha Hb.
  - exists h, []. cbn. rewrite app_nil_r. auto.
  - inversion B as [| ? ? Bpass Brest]; subst.
    cbn [PostProcessor.passLoop pingpong].
    destruct rest as [| next rest].
    + (* the last pass renders to the final target *)
      replace (Nat.eqb i (i + List.length [pass] - 1)) with true
        by (symmetry; apply Nat.eqb_eq; cbn; lia).
      exec_call R.
      set (h1 := record _ h).
      assert (R1 : Ready h1 p quad r t0 t1) by (apply ready_record; exact R).
      destruct (renderPostProcessPass_run h1 p quad r t0 t1 (clock h) pass input time R1 Bpass)
        as (h2 & evs2 & E2 & F2 & H2 & O2).
      rewrite bind_eq, E2. cbv beta iota.
      assert (R2 : Ready h2 p quad r t0 t1) by (eapply ready_fixtures; eauto).
      exec_call R2. cbn [PostProcessor.passLoop]. unfold ret.
      do 2 eexists. split; [ reflexivity |]. split; [| split ].
      * unfold fixtures in *. cbn. rewrite F2. reflexivity.
      * cbn [history record]. rewrite H2. subst h1. cbn [history record].
        rewrite <- !app_assoc. reflexivity.
      * rewrite !observe_app, O2. reflexivity.
    + (* an intermediate pass renders to a temporary target *)
      replace (Nat.eqb i (i + List.length (pass :: next :: rest) - 1)) with false
        by (symmetry; apply Nat.eqb_neq; cbn; lia).
      rewrite bind_eq, (this_ready _ _ _ _ _ _ R). cbv beta iota.
      rewrite (ready_tempTargets R). cbn [List.length].
      rewrite Ha. cbn [non_null].
      rewrite bind_eq. unfold ret at 1. cbv beta iota.
      exec_call R.
      set (h1 := record _ h).
      assert (R1 : Ready h1 p quad r t0 t1) by (apply ready_record; exact R).
      exec_call R1.
      set (h2 := record _ h1).
      assert (R2 : Ready h2 p quad r t0 t1) by (apply ready_record; exact R1).
      destruct (renderPostProcessPass_run h2 p quad r t0 t1 (clock h1) pass input time R2 Bpass)
        as (h3 & evs3 & E3 & F3 & H3 & O3).
      rewrite bind_eq, E3. cbv beta iota.
      assert (R3 : Ready h3 p quad r t0 t1) by (eapply ready_fixtures; eauto).
      exec_call R3.
      set (h4 := record _ h3).
      assert (R4 : Ready h4 p quad r t0 t1) by (apply ready_record; exact R3).
      destruct (IH h4 p quad r t0 t1 enc final time
                   (i + List.length (pass :: next :: rest))%nat (S i) a b a
                   R4 Brest) as (h5 & evs5 & E5 & F5 & H5 & O5).
      { cbn. lia. }
      { exact Hb. }
      { rewrite mod2_SS. exact Ha. }
      cbn [List.length] in E5. rewrite E5.
      do 2 eexists. split; [ reflexivity |]. split; [| split ].
      * rewrite F5. subst h4. unfold fixtures in *. cbn. rewrite F3. reflexivity.
      * rewrite H5. subst h4. cbn [history record]. rewrite H3.
        subst h2 h1. cbn [history record]. rewrite <- !app_assoc. reflexivity.
      * rewrite !observe_app, O3, O5. reflexivity.
Qed.

Lemma forEach_only_logs {A : Type} (xs : list A) (body : A -> Js unit) :
  (forall x h, exists lines, body x h = (Ret tt, set_console (fun l => l ++ lines) h)) ->
  forall h, exists lines, forEach xs body h = (Ret tt, set_console (fun l => l ++ lines) h).
Proof.
  intros Hb. induction xs as [| x xs IH]; intros h.
  - exists []. destruct h. unfold set_console. cbn. now rewrite app_nil_r.
  - cbn [forEach]. rewrite bind_eq. destruct (Hb x h) as (l1 & ->).
    destruct (IH (set_console (fun l => l ++ l1) h)) as (l2 & ->).
    exists (l1 ++ l2). unfold set_console. cbn. now rewrite app_assoc.
Qed.

(** Replace the logging loops of [H] by what they do to the console. *)
Ltac logging_in H :=
  repeat match type of H with
         | context [forEach ?xs ?body ?hx] =>
             let lines := fresh "lines" in
             let L := fresh "L" in
             destruct (forEach_only_logs xs body
                         ltac:(intros ? ?; eexists; reflexivity) hx) as (lines & L);
             rewrite L in H; clear L
         end.

Ltac run_ready' H :=
  ready_rewrite H; logging_in H; ready_rewrite H;
  lazymatch type of H with
  | (_, _) = (_, _) => inversion H; subst; clear H
  | ?lhs = _ =>
      let s := head_scrutinee lhs in
      let E := fresh "E" in
      first
        [ match goal with E' : s = _ |- _ => rewrite E' in H end
        | lazymatch s with
          | compilationInfo (host ?h) ?m =>
              match goal with
              | R : Ready h _ _ _ _ _ |- _ =>
                  let C := fresh "C" in
                  pose proof (ready_compiles R m) as C;
                  destruct s eqn:E
              end
          | _ => destruct s eqn:E
          end ];
      first [ solve [ ready_prune ] | run_ready' H ]
  end.

Ltac finish_fixtures :=
  unfold fixtures in *;
  cbn [host ctx textureManager postProcessor podium record set_console
       set_shaderManager set_uniformManager] in *;
  congruence.

Lemma createPipeline_run h p quad r t0 t1 label shader options l ls :
  Ready h p quad r t0 t1 ->
  po_bindGroupLayouts options = Some (l :: ls) ->
  exists pl h' evs,
    ShaderManager.createPipeline label shader options h = (Ret (Some pl), h') /\
    fixtures h' = fixtures h /\
    history h' = history h ++ evs /\
    observe evs = [] /\
    JsMap.get (pipelinesOf h') label = Some pl.
Proof.
  intros R L.
  destruct (ShaderManager.createPipeline label shader options h) as [res h'] eqn:H.
  unfold ShaderManager.createPipeline, ShaderManager.createShaderModule,
    ShaderManager.checkCompilation in H.
  rewrite L in H.
  run_ready' H.
  all: do 3 eexists; split; [ reflexivity |].
  all: split; [ reflexivity |].
  all: split; [ cbn [history record set_console set_shaderManager];
                rewrite <- ?app_assoc; reflexivity |].
  all: split; [ reflexivity | apply get_set_same ].
Qed.

(** With no pass enabled the scene target is drawn onto the final target
    through the copy pipeline, which is compiled on first use. *)
Lemma copyToFinalTarget_run h p quad r t0 t1 commandEncoder final :
  Ready h p quad r t0 t1 ->
  exists pl h' evs,
    PostProcessor.copyToFinalTarget commandEncoder (Some r) final h = (Ret tt, h') /\
    fixtures h' = fixtures h /\
    history h' = history h ++ evs /\
    observe evs
    = step_commands (indexCount quad)
        {| step_pipeline := pl; step_input := r; step_output := Final final |} /\
    JsMap.get (pipelinesOf h') "copy_shader" = Some pl.
Proof.
  intros R.
  destruct (PostProcessor.copyToFinalTarget commandEncoder (Some r) final h)
    as [res h'] eqn:H.
  unfold PostProcessor.copyToFinalTarget, ShaderManager.getPipeline, PostProcessor.this,
    TextureManager.getSampler, Plane.bind, Plane.draw in H.
  destruct (ready_buffers_of_quad R) as [Bv Bi].
  ready_rewrite H.
  destruct (device (ctx h)) as [d |] eqn:D; [| solve [ ready_prune ] ].
  ready_rewrite H.
  destruct (JsMap.get (pipelines (shaderManager h)) "copy_shader") as [cached |] eqn:G.
  - run_ready' H.
    do 3 eexists. split; [ reflexivity |].
    split; [ reflexivity |].
    split; [ cbn [history record]; rewrite <- ?app_assoc; reflexivity |].
    split; [ reflexivity | exact G ].
  - ready_rewrite H.
    match type of H with
    | context [ShaderManager.createPipeline ?label ?shader ?opts ?hx] =>
        assert (Rx : Ready hx p quad r t0 t1) by (repeat apply ready_record; exact R);
        destruct (createPipeline_run hx p quad r t0 t1 label shader opts _ _ Rx eq_refl)
          as (pl & h2 & evs2 & Ex & Fx & Hx & Ox & Gx);
        rewrite Ex in H;
        pose proof (ready_fixtures _ _ _ _ _ _ _ Fx Rx) as R2
    end.
    run_ready' H.
    do 3 eexists. split; [ reflexivity |].
    split; [ finish_fixtures |].
    split; [ cbn [history record]; rewrite Hx; cbn [history record];
             rewrite <- ?app_assoc; reflexivity |].
    split; [ rewrite !observe_app, Ox; reflexivity | exact Gx ].
Qed.

(** A run of [applyPostProcessing] on a ready post-processor returns and
    tells the backend the commands of its plan, in order. *)
Lemma applyPostProcessing_run h p quad r t0 t1 commandEncoder final time :
  Ready h p quad r t0 t1 ->
  exists copy h' evs,
    PostProcessor.applyPostProcessing commandEncoder final time h = (Ret tt, h') /\
    fixtures h' = fixtures h /\
    history h' = history h ++ evs /\
    observe evs
    = flat_map (step_commands (indexCount quad)) (plan p final r t0 t1 copy) /\
    (enabledPasses p = [] -> JsMap.get (pipelinesOf h') "copy_shader" = Some copy).
Proof.
  intros R. unfold PostProcessor.applyPostProcessing, plan.
  rewrite bind_eq, (this_ready _ _ _ _ _ _ R). cbv beta iota.
  rewrite (ready_quad R), (ready_renderTarget R).
  fold (enabledPasses p).
  destruct (enabledPasses p) as [| pass rest] eqn:En.
  - destruct (copyToFinalTarget_run h p quad r t0 t1 commandEncoder final R)
      as (copy & h' & evs & E & F & Hh & O & G).
    exists copy, h', evs. rewrite E. cbn [flat_map]. rewrite app_nil_r. auto.
  - destruct (passLoop_run (pass :: rest) h p quad r t0 t1 commandEncoder final time
                (List.length (pass :: rest)) 0 r t0 t1 R)
      as (h' & evs & E & F & Hh & O); try reflexivity.
    + rewrite <- En. apply Forall_forall. intros x Hx.
      apply filter_In in Hx. destruct Hx as [Hx _].
      pose proof (ready_uniformBuffers R) as U.
      rewrite Forall_forall in U. now apply U.
    + exists 0%nat, h', evs. rewrite E. repeat split; auto. discriminate.
Qed.

(** The sample instance is ready. *)
Lemma three_effects_ready :
  Ready three_effects (the_postProcessor three_effects) (the_quad three_effects)
        (DeviceTexture 5) (DeviceTexture 7) (DeviceTexture 8).
Proof.
  constructor; try (intros; vm_compute; reflexivity);
    try (vm_compute; discriminate).
  - split; vm_compute; discriminate.
  - vm_compute. repeat constructor; discriminate.
Qed.

(** [createRenderTargets], started without temporary targets, leaves
    three different textures as scene target and temporary targets. *)
Lemma createRenderTargets_distinct h p :
  postProcessor h = Some p ->
  tempTargets p = [] ->
  device (ctx h) <> None ->
  (forall n c, rejects (host h) n c = false) ->
  exists h',
    PostProcessor.createRenderTargets h = (Ret tt, h') /\
    renderTarget (the_postProcessor h') = Some (DeviceTexture (clock h)) /\
    tempTargets (the_postProcessor h')
    = [DeviceTexture (2 + clock h); DeviceTexture (3 + clock h)].
Proof.
  intros P T D A.
  destruct (PostProcessor.createRenderTargets h) as [res h'] eqn:H.
  unfold PostProcessor.createRenderTargets, PostProcessor.this, PostProcessor.update in H.
  cbn [forEach seq] in H.
  js_unfold_in H.
  destruct (device (ctx h)); [| congruence ].
  repeat (progress (rewrite ?A, ?P in H); js_unfold_in H; cbn [option_map] in H).
  inversion H; subst; clear H.
  eexists. split; [ reflexivity |].
  unfold the_postProcessor. cbn. rewrite P. cbn. rewrite T. auto.
Qed.

(** The events a run adds are what it appends to the history. *)
Lemma new_events_app h h' evs :
  history h' = history h ++ evs -> new_events h h' = evs.
Proof.
  unfold new_events. intros ->.
  rewrite skipn_app, skipn_all, Nat.sub_diag. reflexivity.
Qed.
(* ================================================================== *)
(** * A frame, step by step *)
(* ================================================================== *)



(** Follow [H] in a browser that accepts every call. *)
Ltac run_accepting A H :=
  js_unfold_in H;
  repeat (progress (rewrite ?A in H); js_unfold_in H);
  lazymatch type of H with
  | (_, _) = (_, _) => inversion H; subst; clear H
  | ?lhs = _ =>
      let s := head_scrutinee lhs in
      let E := fresh "E" in
      destruct s eqn:E; run_accepting A H
  end.














(* ================================================================== *)
(** * The identity matrix and [multiplyMatrices] *)
(* ================================================================== *)

(** C10, as stated, fails: with [Infinity] in the first slot of [m], the
    product of the identity matrix and [m] holds [NaN] in slot 4 (the term
    [0 * Infinity]), so it is not [m]. *)
Lemma identity_product_of_infinity_is_nan :
  List.length matrix_with_infinity = 16%nat /\
  Float32Array.get
    (Matrix.multiplyMatrices Matrix.createIdentityMatrix matrix_with_infinity) 4
  = JsNumber.NaN /\
  Float32Array.get matrix_with_infinity 4 = JsNumber.zero /\
  Matrix.multiplyMatrices Matrix.createIdentityMatrix matrix_with_infinity
  <> matrix_with_infinity.
Proof.
  repeat split; try (vm_compute; reflexivity).
  intros H. vm_compute in H. discriminate H.
Qed.

(** C10, amended: for every matrix [m] of 16 finite entries, both
    [multiplyMatrices(createIdentityMatrix(), m)] and
    [multiplyMatrices(m, createIdentityMatrix())] agree with [m] entry by
    entry: each entry is [===] to the entry of [m], and is the very same
    number unless it is a zero, whose sign may differ. *)
Theorem multiplyMatrices_identity_finite (m : Float32Array.t) :
  List.length m = 16%nat ->
  Forall JsNumber.finite_f32 m ->
  Forall2 (fun r x => agree r x /\ JsNumber.eqb r x = true)
          (Matrix.multiplyMatrices Matrix.createIdentityMatrix m) m /\
  Forall2 (fun r x => agree r x /\ JsNumber.eqb r x = true)
          (Matrix.multiplyMatrices m Matrix.createIdentityMatrix) m.
Proof.
  intros Hlen Hfin.
  destruct (multiplyMatrices_identity_agree m Hlen Hfin) as [L R].
  assert (strengthen : forall rs xs,
             Forall JsNumber.finite_f32 xs -> Forall2 agree rs xs ->
             Forall2 (fun r x => agree r x /\ JsNumber.eqb r x = true) rs xs).
  { intros rs xs F A. induction A as [| r x rs xs Hrx A IH]; constructor.
    - inversion F; subst. split; [ exact Hrx |].
      apply agree_eqb; [ apply finite_f32_isFinite |]; assumption.
    - inversion F; subst. now apply IH. }
  split; apply strengthen; assumption.
Qed.

Lemma multiplyMatrices_identity_finite_witness :
  Forall2 (fun r x => agree r x /\ JsNumber.eqb r x = true)
          (Matrix.multiplyMatrices Matrix.createIdentityMatrix sample_matrix)
          sample_matrix /\
  Forall2 (fun r x => agree r x /\ JsNumber.eqb r x = true)
          (Matrix.multiplyMatrices sample_matrix Matrix.createIdentityMatrix)
          sample_matrix.
Proof.
  apply (multiplyMatrices_identity_finite sample_matrix).
  - reflexivity.
  - repeat (apply Forall_cons; [ repeat split; vm_compute; reflexivity |]).
    apply Forall_nil.
Defined.

(* ================================================================== *)
(** * The label-keyed mappings *)
(* ================================================================== *)

Section Stores.

Lemma createUniformBuffer_stores label size init :
  stores_on_success uniformBuffersOf label
    (UniformManager.createUniformBuffer label size init).
Proof.
  unfold UniformManager.createUniformBuffer. intros h r h' H.
  run_in H; reflexivity.
Qed.

Lemma createUniformBindGroup_stores label layout buffer texture sampler :
  stores_on_success bindGroupsOf label
    (UniformManager.createUniformBindGroup label layout buffer texture sampler).
Proof.
  unfold UniformManager.createUniformBindGroup. intros h r h' H.
  run_in H; reflexivity.
Qed.

Lemma createSampler_stores label options :
  stores_on_success samplersOf label (TextureManager.createSampler label options).
Proof.
  unfold TextureManager.createSampler. intros h r h' H.
  run_in H; reflexivity.
Qed.

Lemma createShaderModule_pipelines label src :
  preserves pipelinesOf (ShaderManager.createShaderModule label src).
Proof. unfold ShaderManager.createShaderModule. preserves_tac. Qed.

Lemma checkCompilation_pipelines label info ty :
  preserves pipelinesOf (ShaderManager.checkCompilation label info ty).
Proof. unfold ShaderManager.checkCompilation. preserves_tac. Qed.

Lemma createDefaultBindGroupLayout_pipelines :
  preserves pipelinesOf ShaderManager.createDefaultBindGroupLayout.
Proof. unfold ShaderManager.createDefaultBindGroupLayout. preserves_tac. Qed.

Lemma createPipeline_stores label src options :
  stores_on_success pipelinesOf label (ShaderManager.createPipeline label src options).
Proof.
  unfold ShaderManager.createPipeline. intros h r h' H.
  run_in H;
    repeat match goal with
           | E : ShaderManager.createShaderModule _ _ _ = _ |- _ =>
               apply createShaderModule_pipelines in E
           | E : ShaderManager.checkCompilation _ _ _ _ = _ |- _ =>
               apply checkCompilation_pipelines in E
           | E : ShaderManager.createDefaultBindGroupLayout _ = _ |- _ =>
               apply createDefaultBindGroupLayout_pipelines in E
           end;
    unfold pipelinesOf in *; cbn in *; congruence.
Qed.

Lemma createTextureFromImage_textures image options :
  preserves texturesOf (TextureManager.createTextureFromImage image options).
Proof. unfold TextureManager.createTextureFromImage. preserves_tac. Qed.

Lemma loadImageTexture_stores url options :
  stores_on_success texturesOf url (TextureManager.loadImageTexture url options).
Proof.
  unfold TextureManager.loadImageTexture. intros h r h' H.
  run_in H;
    repeat match goal with
           | E : TextureManager.createTextureFromImage _ _ _ = _ |- _ =>
               apply createTextureFromImage_textures in E
           end;
    unfold texturesOf in *; cbn in *; congruence.
Qed.

(** A lookup getter over a mapping that its create call fills only on
    success obeys the discipline. *)
Lemma discipline {H : Type} (proj : Heap -> JsMap.t H)
      (getter create : string -> Js (option H)) :
  (forall label h, getter label h = (Ret (JsMap.get (proj h) label), h)) ->
  (forall key, stores_on_success proj key (create key)) ->
  present_or_absent proj getter create.
Proof.
  intros G S. split; [ exact G | split; [| split ] ].
  - intros key h x h' C. specialize (S key h _ _ C). cbn in S. split.
    + rewrite G. cbn. rewrite S. now rewrite get_set_same.
    + intros l N. rewrite !G. cbn. rewrite S. f_equal.
      apply get_set_other. congruence.
  - intros key h h' C l. specialize (S key h _ _ C). cbn in S.
    rewrite !G. cbn. now rewrite S.
  - intros label h. rewrite G. cbn. rewrite <- get_none_iff. split.
    + congruence.
    + now intros ->.
Qed.

End Stores.

(** C8: each of the getters [getUniformBuffer], [getPipeline], [getTexture],
    [getSampler] and [getBindGroup] returns the handle most recently stored
    under the label by a successful create call and [null] when the label
    is absent, and never changes the mappings. *)
Theorem getters_present_or_absent :
  (forall size initialData,
      present_or_absent uniformBuffersOf UniformManager.getUniformBuffer
        (fun label => UniformManager.createUniformBuffer label size initialData)) /\
  (forall shader options,
      present_or_absent pipelinesOf ShaderManager.getPipeline
        (fun label => ShaderManager.createPipeline label shader options)) /\
  (forall options,
      present_or_absent texturesOf TextureManager.getTexture
        (fun url => TextureManager.loadImageTexture url options)) /\
  (forall options,
      present_or_absent samplersOf TextureManager.getSampler
        (fun label => TextureManager.createSampler label options)) /\
  (forall layout buffer texture sampler,
      present_or_absent bindGroupsOf UniformManager.getBindGroup
        (fun label =>
           UniformManager.createUniformBindGroup label layout buffer texture sampler)).
Proof.
  split; [| split; [| split; [| split ] ] ];
    intros; apply discipline; intros; try reflexivity.
  - apply createUniformBuffer_stores.
  - apply createPipeline_stores.
  - apply loadImageTexture_stores.
  - apply createSampler_stores.
  - apply createUniformBindGroup_stores.
Qed.

Lemma getters_present_or_absent_witness :
  fst (TextureManager.getSampler "mine"
         (snd (TextureManager.createSampler "mine" no_texture_options started_podium)))
  = Ret (Some 81%nat).
Proof.
  destruct getters_present_or_absent as (_ & _ & _ & S & _).
  destruct (S no_texture_options) as (_ & St & _).
  apply (St "mine"%string started_podium 81%nat).
  vm_compute. reflexivity.
Defined.

(* ================================================================== *)
(** * Resource creation and the missing device *)
(* ================================================================== *)

Section Creation.
























End Creation.



(* ================================================================== *)
(** * What [updateUniformBuffer] writes *)
(* ================================================================== *)

(** The serialized bytes depend on the keys [mvpMatrix] and [time] only. *)
Lemma serializeUniformData_two_keys (d1 d2 : UniformData) :
  JsMap.get d1 "mvpMatrix" = JsMap.get d2 "mvpMatrix" ->
  JsMap.get d1 "time" = JsMap.get d2 "time" ->
  UniformManager.serializeUniformData d1 = UniformManager.serializeUniformData d2.
Proof.
  unfold UniformManager.serializeUniformData. intros E1 E2.
  rewrite E1, E2. reflexivity.
Qed.

Lemma updateUniformBuffer_two_keys (d1 d2 : UniformData) label offset h :
  JsMap.get d1 "mvpMatrix" = JsMap.get d2 "mvpMatrix" ->
  JsMap.get d1 "time" = JsMap.get d2 "time" ->
  UniformManager.updateUniformBuffer label d1 offset h
  = UniformManager.updateUniformBuffer label d2 offset h.
Proof.
  intros E1 E2. unfold UniformManager.updateUniformBuffer.
  now rewrite (serializeUniformData_two_keys d1 d2 E1 E2).
Qed.

(** C1 at a concrete input: on the started instance, updating the blur
    effect's buffer with intensity [1] and with intensity [0.5] returns
    [true] and writes the same lanes, the identity matrix followed by the
    time: neither the intensity nor the radius nor the resolution is
    written. *)
Theorem updateUniformBuffer_drops_effect_options :
  UniformManager.updateUniformBuffer "blur_uniforms" (blur_uniforms JsNumber.one) 0
    started_podium
  = UniformManager.updateUniformBuffer "blur_uniforms"
      (blur_uniforms (JsNumber.decimal 1 2)) 0 started_podium /\
  fst (UniformManager.updateUniformBuffer "blur_uniforms" (blur_uniforms JsNumber.one) 0
         started_podium) = Ret true /\
  map ev_call
    (new_events started_podium
       (snd (UniformManager.updateUniformBuffer "blur_uniforms"
               (blur_uniforms JsNumber.one) 0 started_podium)))
  = [ WriteBuffer 16%nat 0
        (Matrix.createIdentityMatrix
           ++ JsNumber.of_Z 5 :: repeat JsNumber.zero 7) ].
Proof.
  split; [| split ].
  - apply updateUniformBuffer_two_keys; reflexivity.
  - vm_compute. reflexivity.
  - vm_compute. reflexivity.
Qed.

(* ================================================================== *)
(** * How failures are reported *)
(* ================================================================== *)

Section Reporting.





Lemma updateEffectUniforms_keeps_postProcessor id options :
  preserves postProcessor (PostProcessor.updateEffectUniforms id options).
Proof.
  unfold PostProcessor.updateEffectUniforms, PostProcessor.this,
    UniformManager.updateUniformBuffer, UniformManager.serializeUniformData.
  preserves_tac.
Qed.





End Reporting.




(* ================================================================== *)
(** * [Podium.initialize] *)
(* ================================================================== *)

(** C5, as stated, fails: in a browser whose device refuses to create
    samplers the post-processor reports failure, and [Podium.initialize]
    drops it and returns [true]. *)
Lemma initialize_true_without_postProcessor :
  postProcessor samplerless_podium <> None /\
  fst (start_postProcessor samplerless_podium) = Ret false /\
  fst (Podium.initialize samplerless_podium) = Ret true /\
  postProcessor (snd (Podium.initialize samplerless_podium)) = None.
Proof.
  split; [ discriminate |].
  repeat split; vm_compute; reflexivity.
Qed.

Lemma context_initialize_returns : returns WebGPUContext.initialize.
Proof. unfold WebGPUContext.initialize. returns_tac. Qed.

Lemma context_initialize_podium : preserves podium WebGPUContext.initialize.
Proof. unfold WebGPUContext.initialize. preserves_tac. Qed.

Lemma addEffect_podium id shader options :
  preserves podium (PostProcessor.addEffect id shader options).
Proof.
  unfold PostProcessor.addEffect, PostProcessor.updateEffectUniforms,
    UniformManager.createUniformBuffer, UniformManager.updateUniformBuffer,
    UniformManager.serializeUniformData,
    PostProcessor.createPostProcessBindGroupLayout,
    PostProcessor.createPostProcessBindGroup,
    ShaderManager.createPipeline, ShaderManager.createShaderModule,
    ShaderManager.checkCompilation, ShaderManager.createDefaultBindGroupLayout,
    TextureManager.getSampler, PostProcessor.this, PostProcessor.update.
  preserves_tac.
Qed.

Lemma postProcessor_initialize_podium w hh :
  preserves podium (PostProcessor.initialize w hh).
Proof.
  unfold PostProcessor.initialize, PostProcessor.initializeBuiltInEffects,
    PostProcessor.createRenderTargets, TextureManager.getSampler,
    TextureManager.createSampler, Plane.constructor, PostProcessor.this,
    PostProcessor.update.
  pose proof addEffect_podium.
  preserves_tac.
Qed.

(** Settle a conjunction of facts about an outcome that is known. *)
Ltac settle_outcome :=
  repeat match goal with
         | |- _ /\ _ => split
         | |- _ <-> _ => split
         | |- forall _, _ => intro
         end;
  repeat match goal with
         | X : _ /\ _ |- _ => destruct X
         | X : _ \/ _ |- _ => destruct X
         | X : exists _, _ |- _ => destruct X
         end;
  try discriminate; try congruence; eauto.

(** C5, amended: [Podium.initialize] returns [false] exactly when the
    WebGPU context failed to initialize, and it throws exactly when the
    context initialized and the post-processor's [initialize], which it
    calls without a guard, throws: the instance is then not marked
    initialized.  In every other case it returns [true] and marks the
    instance initialized; a post-processor that is still there afterwards
    initialized successfully, and one whose initialization reported failure
    has been dropped with a warning. *)
Theorem initialize_true_iff_context (h : Heap) (r : Outcome bool) (h' : Heap) :
  Podium.initialize h = (r, h') ->
  (r = Ret false <-> fst (WebGPUContext.initialize h) = Ret false) /\
  (r = Ret true <->
   fst (WebGPUContext.initialize h) = Ret true /\
   (postProcessor (after_context h) = None \/
    exists ok, fst (start_postProcessor h) = Ret ok)) /\
  (forall e,
      r = Throw e <->
      fst (WebGPUContext.initialize h) = Ret true /\
      postProcessor (after_context h) <> None /\
      fst (start_postProcessor h) = Throw e) /\
  (r = Ret true -> isInitialized (podium h') = true) /\
  (r <> Ret true -> isInitialized (podium h') = isInitialized (podium h)) /\
  (r = Ret true -> postProcessor h' <> None ->
   fst (start_postProcessor h) = Ret true) /\
  (r = Ret true -> postProcessor (after_context h) <> None ->
   fst (start_postProcessor h) = Ret false ->
   postProcessor h' = None /\
   console h'
   = console (snd (start_postProcessor h))
       ++ [{| level := LogWarn;
              message := "Failed to initialize post-processor, continuing without it" |}]).
Proof.
  unfold start_postProcessor, after_context, Podium.initialize. intros H.
  rewrite bind_eq in H.
  destruct (context_initialize_returns h) as (a & h0 & E0).
  pose proof (context_initialize_podium h _ _ E0) as K0.
  rewrite E0 in *. cbn [fst snd] in *.
  destruct a; cbn [negb] in H.
  - js_unfold_in H. destruct (postProcessor h0) as [p |] eqn:PP.
    + destruct (PostProcessor.initialize (canvas_width (ctx h0))
                  (canvas_height (ctx h0)) h0) as [[ok | e] h1] eqn:E1;
        pose proof (postProcessor_initialize_podium _ _ _ _ _ E1) as K1;
        cbn [fst snd] in *; [ destruct ok; cbn [negb] in H |];
        inversion H; subst; clear H;
        cbn [postProcessor podium console set_podium set_postProcessor set_console
             isInitialized Podium.set_isInitialized Podium.set_startTime];
        settle_outcome.
    + inversion H; subst; clear H;
        cbn [postProcessor podium console set_podium set_postProcessor set_console
             isInitialized Podium.set_isInitialized Podium.set_startTime];
        settle_outcome.
  - js_unfold_in H. inversion H; subst; clear H.
    cbn [podium set_console]. settle_outcome.
Qed.

Lemma initialize_true_iff_context_witness :
  (Ret true = Ret true <->
   fst (WebGPUContext.initialize fresh_podium) = Ret true /\
   (postProcessor (after_context fresh_podium) = None \/
    exists ok, fst (start_postProcessor fresh_podium) = Ret ok)) /\
  isInitialized (podium started_podium) = true /\
  fst (start_postProcessor fresh_podium) = Ret true.
Proof.
  destruct (initialize_true_iff_context fresh_podium (Ret true) started_podium)
    as (_ & T & _ & I & _ & S & _).
  - vm_compute. reflexivity.
  - split; [ exact T |]. split; [ apply I; reflexivity |].
    apply S; [ reflexivity | vm_compute; discriminate ].
Defined.

(** The exception of an unguarded step reaches the caller: in a browser
    whose device refuses to create textures the context initializes, the
    post-processor's [createRenderTargets] throws, and [Podium.initialize]
    throws with it, leaving the instance unmarked and the post-processor
    in place. *)
Lemma initialize_throws_without_textures :
  fst (WebGPUContext.initialize textureless_podium) = Ret true /\
  fst (Podium.initialize textureless_podium)
  = Throw (HostError (CreateTexture "main_render_target" 800 600 "bgra8unorm"
                        (Z.lor GPUTextureUsage.RENDER_ATTACHMENT
                               GPUTextureUsage.TEXTURE_BINDING) None)) /\
  isInitialized (podium (snd (Podium.initialize textureless_podium))) = false /\
  postProcessor (snd (Podium.initialize textureless_podium)) <> None.
Proof.
  split; [ vm_compute; reflexivity |].
  split; [ vm_compute; reflexivity |].
  split; [ vm_compute; reflexivity | vm_compute; discriminate ].
Qed.

(* ================================================================== *)
(** * The post-processing chain *)
(* ================================================================== *)

Section Chain.

Lemma pingpong_pipelines final ps :
  forall input a b,
    map step_pipeline (pingpong final input a b ps) = map pass_pipeline ps.
Proof.
  induction ps as [| p rest IH]; intros input a b; [ reflexivity |].
  cbn [pingpong]. destruct rest as [| q rest]; [ reflexivity |].
  cbn [map]. f_equal. apply IH.
Qed.

Lemma pingpong_chained final ps :
  ps <> [] -> forall input a b, chained input final (pingpong final input a b ps).
Proof.
  induction ps as [| p rest IH]; intros N input a b; [ congruence |].
  cbn [pingpong]. destruct rest as [| q rest].
  - cbn. auto.
  - cbn [chained]. split; [ reflexivity |].
    assert (IH' := IH ltac:(discriminate) a b a).
    destruct (pingpong final a b a (q :: rest)) as [| s ss] eqn:E.
    + cbn in IH'. contradiction.
    + exists a. split; [ reflexivity | exact IH' ].
Qed.


Lemma textures_of_step n s t :
  In t (flat_map textures_of (step_commands n s)) ->
  t = step_input s \/
  match step_output s with
  | Offscreen o => t = o
  | Final v => ViewOf t = v
  end.
Proof.
  unfold step_commands. destruct (step_output s) as [o | [tf]]; cbn;
    intuition (subst; auto).
Qed.

Lemma no_allocation_in_step n s : ~ In Allocate (step_commands n s).
Proof.
  unfold step_commands. destruct (step_output s); cbn;
    intuition discriminate.
Qed.

Lemma pingpong_targets final r t0 t1 ps :
  forall input a b,
    In input [r; t0; t1] -> In a [t0; t1] -> In b [t0; t1] ->
    Forall (fun s => In (step_input s) [r; t0; t1] /\
                     match step_output s with
                     | Offscreen o => In o [t0; t1]
                     | Final v => v = final
                     end)
           (pingpong final input a b ps).
Proof.
  induction ps as [| p rest IH]; intros input a b I A B; [ constructor |].
  cbn [pingpong]. destruct rest as [| q rest].
  - constructor; [ cbn; auto | constructor ].
  - constructor; [ cbn; auto |].
    apply IH; auto. cbn in A |- *. tauto.
Qed.

End Chain.

(** C2: on a ready post-processor, [applyPostProcessing] returns after
    telling the backend one step per enabled pass, in the order the passes
    were added, as a linear chain: the first step samples the scene render
    target, every later step samples what the step before rendered into,
    and the last step renders into the final target; with no pass enabled
    there is the single step that draws the scene render target onto the
    final target through the copy pipeline. *)
Theorem applyPostProcessing_linear_chain
        h p quad r t0 t1 commandEncoder final time :
  Ready h p quad r t0 t1 ->
  exists h' steps,
    PostProcessor.applyPostProcessing commandEncoder final time h = (Ret tt, h') /\
    observe (new_events h h') = flat_map (step_commands (indexCount quad)) steps /\
    chained r final steps /\
    match enabledPasses p with
    | [] =>
        exists copy,
        JsMap.get (pipelinesOf h') "copy_shader" = Some copy /\
        steps = [ {| step_pipeline := copy; step_input := r;
                     step_output := Final final |} ]
    | _ :: _ => map step_pipeline steps = map pass_pipeline (enabledPasses p)
    end.
Proof.
  intros R.
  destruct (applyPostProcessing_run h p quad r t0 t1 commandEncoder final time R)
    as (copy & h' & evs & E & _ & Hh & O & G).
  exists h', (plan p final r t0 t1 copy).
  split; [ exact E |].
  split; [ now rewrite (new_events_app _ _ _ Hh) |].
  unfold plan in *. destruct (enabledPasses p) as [| pass rest] eqn:En.
  - split; [ cbn; auto |]. exists copy. auto.
  - split; [ apply pingpong_chained; discriminate | apply pingpong_pipelines ].
Qed.

(** With the two temporary targets that one [initialize] or a [resize]
    leaves, and whatever the number of enabled passes, a run of
    [applyPostProcessing] creates no texture, and every texture it makes a
    view of, renders into or samples is the final target or one of three:
    the scene render target and the two temporary targets. *)
Theorem applyPostProcessing_three_targets
        h p quad r t0 t1 commandEncoder final time :
  Ready h p quad r t0 t1 ->
  exists h',
    PostProcessor.applyPostProcessing commandEncoder final time h = (Ret tt, h') /\
    ~ In Allocate (observe (new_events h h')) /\
    forall t,
      In t (flat_map textures_of (observe (new_events h h'))) ->
      ViewOf t = final \/ In t [r; t0; t1].
Proof.
  intros R.
  destruct (applyPostProcessing_run h p quad r t0 t1 commandEncoder final time R)
    as (copy & h' & evs & E & _ & Hh & O & _).
  exists h'. split; [ exact E |].
  rewrite (new_events_app _ _ _ Hh), O.
  assert (T : Forall (fun s => In (step_input s) [r; t0; t1] /\
                               match step_output s with
                               | Offscreen o => In o [t0; t1]
                               | Final v => v = final
                               end)
                     (plan p final r t0 t1 copy)).
  { unfold plan. destruct (enabledPasses p) as [| pass rest].
    - constructor; [ cbn; auto | constructor ].
    - apply pingpong_targets; cbn; auto. }
  split.
  - intros A. apply in_flat_map in A. destruct A as (s & _ & A).
    exact (no_allocation_in_step _ _ A).
  - intros t I. apply in_flat_map in I. destruct I as (c & Ic & It).
    apply in_flat_map in Ic. destruct Ic as (s & Is & Ic).
    rewrite Forall_forall in T. destruct (T s Is) as [Tin Tout].
    assert (I' : In t (flat_map textures_of (step_commands (indexCount quad) s))).
    { apply in_flat_map. eauto. }
    apply textures_of_step in I'. destruct I' as [-> | I'].
    + right. exact Tin.
    + destruct (step_output s) as [o | v].
      * subst o. right. cbn in Tout |- *. tauto.
      * left. congruence.
Qed.


Lemma applyPostProcessing_linear_chain_witness :
  exists h' steps,
    PostProcessor.applyPostProcessing 81%nat (ViewOf (CanvasTexture 82))
      (JsNumber.of_Z 5) three_effects = (Ret tt, h') /\
    observe (new_events three_effects h')
    = flat_map (step_commands (indexCount (the_quad three_effects))) steps /\
    chained (DeviceTexture 5) (ViewOf (CanvasTexture 82)) steps /\
    match enabledPasses (the_postProcessor three_effects) with
    | [] =>
        exists copy,
        JsMap.get (pipelinesOf h') "copy_shader" = Some copy /\
        steps = [ {| step_pipeline := copy; step_input := DeviceTexture 5;
                     step_output := Final (ViewOf (CanvasTexture 82)) |} ]
    | _ :: _ =>
        map step_pipeline steps
        = map pass_pipeline (enabledPasses (the_postProcessor three_effects))
    end.
Proof.
  apply (applyPostProcessing_linear_chain three_effects
           (the_postProcessor three_effects) (the_quad three_effects)
           (DeviceTexture 5) (DeviceTexture 7) (DeviceTexture 8)).
  exact three_effects_ready.
Defined.

Lemma applyPostProcessing_three_targets_witness :
  exists h',
    PostProcessor.applyPostProcessing 81%nat (ViewOf (CanvasTexture 82))
      (JsNumber.of_Z 5) three_effects = (Ret tt, h') /\
    ~ In Allocate (observe (new_events three_effects h')) /\
    forall t,
      In t (flat_map textures_of (observe (new_events three_effects h'))) ->
      ViewOf t = ViewOf (CanvasTexture 82) \/
      In t [DeviceTexture 5; DeviceTexture 7; DeviceTexture 8].
Proof.
  apply (applyPostProcessing_three_targets three_effects
           (the_postProcessor three_effects) (the_quad three_effects)
           (DeviceTexture 5) (DeviceTexture 7) (DeviceTexture 8)).
  exact three_effects_ready.
Defined.

(** C3 fails after a second [initialize()]: [createRenderTargets] pushes
    its two temporary targets onto the two that are there ([resize] and
    [destroy] empty the list first, [initialize] does not), so that the
    post-processor holds four of them, and a run with the five effects
    enabled renders into all four: it reads and writes five offscreen
    textures, and no three textures cover the run.  A [resize] brings the
    number back to two. *)
Theorem reinitialize_adds_render_targets :
  fst (Podium.initialize started_podium) = Ret true /\
  tempTargets (the_postProcessor started_podium) = [DeviceTexture 7; DeviceTexture 8] /\
  tempTargets (the_postProcessor restarted_podium)
  = [DeviceTexture 7; DeviceTexture 8; DeviceTexture 88; DeviceTexture 89] /\
  renderTarget (the_postProcessor restarted_podium) = Some (DeviceTexture 86) /\
  List.length (enabledPasses (the_postProcessor restarted_effects)) = 5%nat /\
  List.length
    (tempTargets
       (the_postProcessor (snd (PostProcessor.resize 1024 768 restarted_podium))))
  = 2%nat /\
  let final := ViewOf (CanvasTexture 162) in
  let run := PostProcessor.applyPostProcessing 161%nat final (JsNumber.of_Z 5) in
  fst (run restarted_effects) = Ret tt /\
  (forall t,
      In t [DeviceTexture 86; DeviceTexture 7; DeviceTexture 8;
            DeviceTexture 88; DeviceTexture 89] ->
      In t (textures_used restarted_effects run) /\ ViewOf t <> final) /\
  ~ exists r t0 t1,
      forall t, In t (textures_used restarted_effects run) ->
                ViewOf t = final \/ In t [r; t0; t1].
Proof.
  split; [ vm_compute; reflexivity |].
  split; [ vm_compute; reflexivity |].
  split; [ vm_compute; reflexivity |].
  split; [ vm_compute; reflexivity |].
  split; [ vm_compute; reflexivity |].
  split; [ vm_compute; reflexivity |].
  intros final run.
  split; [ vm_compute; reflexivity |].
  assert (U : forall t,
             In t [DeviceTexture 86; DeviceTexture 7; DeviceTexture 8;
                   DeviceTexture 88; DeviceTexture 89] ->
             In t (textures_used restarted_effects run) /\ ViewOf t <> final).
  { intros t T.
    assert (E : textures_used restarted_effects run
                = [DeviceTexture 7; DeviceTexture 7; DeviceTexture 86;
                   DeviceTexture 86; DeviceTexture 8; DeviceTexture 8;
                   DeviceTexture 7; DeviceTexture 7; DeviceTexture 88;
                   DeviceTexture 88; DeviceTexture 8; DeviceTexture 8;
                   DeviceTexture 89; DeviceTexture 89; DeviceTexture 88;
                   DeviceTexture 88; CanvasTexture 162; DeviceTexture 89;
                   DeviceTexture 89])
      by (vm_compute; reflexivity).
    rewrite E. cbn [In] in T |- *.
    repeat destruct T as [T | T]; try contradiction; subst t;
      (split; [ tauto | discriminate ]). }
  split; [ exact U |].
  intros (r & t0 & t1 & C).
  assert (I : incl [DeviceTexture 86; DeviceTexture 7; DeviceTexture 8;
                    DeviceTexture 88; DeviceTexture 89] [r; t0; t1]).
  { intros t T. destruct (U t T) as (M & N).
    destruct (C t M) as [F | F]; [ contradiction | exact F ]. }
  apply NoDup_incl_length in I.
  - cbn in I. lia.
  - repeat constructor; cbn [In]; intuition discriminate.
Qed.


(* ================================================================== *)
(** * C7: a frame draws the visible objects, in insertion order *)
(* ================================================================== *)



(* ================================================================== *)
(** * The geometry of a plane *)
(* ================================================================== *)

Lemma length_flat_map_const {A B} (f : A -> list B) (k : nat) (xs : list A) :
  (forall x, List.length (f x) = k) ->
  List.length (flat_map f xs) = (k * List.length xs)%nat.
Proof.
  intros Hf. induction xs as [| x xs IH]; cbn [flat_map List.length].
  - lia.
  - rewrite length_app, Hf, IH. lia.
Qed.

Lemma flat_map_map {A B C} (f : A -> B) (k : B -> list C) xs :
  flat_map k (map f xs) = flat_map (fun x => k (f x)) xs.
Proof. induction xs; cbn; [ reflexivity | now rewrite IHxs ]. Qed.

Lemma flat_map_flat_map {A B C} (f : A -> list B) (k : B -> list C) xs :
  flat_map k (flat_map f xs) = flat_map (fun x => flat_map k (f x)) xs.
Proof.
  induction xs; cbn; [ reflexivity |]. now rewrite flat_map_app, IHxs.
Qed.

Lemma createGeometry_lengths width height gx gy :
  let g := Plane.createGeometry width height gx gy in
  List.length (Plane.positions g) = (3 * ((gx + 1) * (gy + 1)))%nat /\
  List.length (Plane.uvs g) = (2 * ((gx + 1) * (gy + 1)))%nat /\
  List.length (Plane.indices g) = (gx * gy * 6)%nat.
Proof.
  unfold Plane.createGeometry, Float32Array.of_list, Plane.Uint16Array_of_list.
  cbn [Plane.positions Plane.uvs Plane.indices].
  rewrite !length_map.
  split; [| split ].
  - rewrite (length_flat_map_const _ (3 * (gx + 1))%nat).
    + rewrite length_seq. lia.
    + intros iy. rewrite (length_flat_map_const _ 3%nat) by reflexivity.
      now rewrite length_seq.
  - rewrite (length_flat_map_const _ (2 * (gx + 1))%nat).
    + rewrite length_seq. lia.
    + intros iy. rewrite (length_flat_map_const _ 2%nat) by reflexivity.
      now rewrite length_seq.
  - rewrite (length_flat_map_const _ (6 * gx)%nat).
    + rewrite length_seq. lia.
    + intros iy. rewrite (length_flat_map_const _ 6%nat) by reflexivity.
      now rewrite length_seq.
Qed.

(** The indices of the geometry, cell by cell. *)
Lemma indices_by_cell width height gx gy :
  Plane.indices (Plane.createGeometry width height gx gy)
  = map (fun x => x mod 65536) (flat_map (cell_indices gx) (cells gx gy)).
Proof.
  unfold Plane.createGeometry, Plane.Uint16Array_of_list, cells.
  cbn [Plane.indices]. f_equal.
  rewrite flat_map_flat_map. apply flat_map_ext. intros iy.
  rewrite flat_map_map. reflexivity.
Qed.

Lemma in_cells gx gy ix iy : In (ix, iy) (cells gx gy) -> (ix < gx /\ iy < gy)%nat.
Proof.
  unfold cells. rewrite in_flat_map. intros (y & Hy & H).
  rewrite in_map_iff in H. destruct H as (x & E & Hx).
  inversion E; subst. rewrite in_seq in Hx, Hy. lia.
Qed.

Lemma triangles_by_cell gx (cs : list (nat * nat)) :
  triangles (map (fun x => x mod 65536) (flat_map (cell_indices gx) cs))
  = flat_map
      (fun c =>
         match map (fun x => x mod 65536) (cell_indices gx c) with
         | [a; b; d; b'; c'; d'] => [(a, b, d); (b', c', d')]
         | _ => []
         end) cs.
Proof.
  induction cs as [| [ix iy] cs IH]; [ reflexivity |].
  cbn [flat_map]. rewrite map_app. cbn [cell_indices map app triangles].
  now rewrite IH.
Qed.

(** The index list of a plane of [gx] by [gy] segments with at most
    [2^16] vertices draws two triangles per cell, and each triangle joins
    three different vertices of the plane. *)
Theorem createGeometry_triangles width height gx gy :
  Z.of_nat ((gx + 1) * (gy + 1)) <= 65536 ->
  let g := Plane.createGeometry width height gx gy in
  List.length (triangles (Plane.indices g)) = (2 * (gx * gy))%nat /\
  Forall (proper_triangle ((gx + 1) * (gy + 1))) (triangles (Plane.indices g)).
Proof.
  intros Small g. unfold g. rewrite indices_by_cell, triangles_by_cell. split.
  - rewrite (length_flat_map_const _ 2%nat).
    + unfold cells. rewrite (length_flat_map_const _ gx).
      * rewrite length_seq. lia.
      * intros iy. now rewrite length_map, length_seq.
    + intros [ix iy]. reflexivity.
  - apply Forall_flat_map. apply Forall_forall. intros [ix iy] Hc.
    apply in_cells in Hc. destruct Hc as [Hx Hy].
    cbn [cell_indices map].
    assert (B : ((ix + 1) + (gx + 1) * (iy + 1) < (gx + 1) * (gy + 1))%nat) by nia.
    constructor; [| constructor; [| constructor ] ];
      unfold proper_triangle; rewrite !Z.mod_small by lia; nia.
Qed.

Lemma createGeometry_triangles_witness :
  List.length
    (triangles
       (Plane.indices (Plane.createGeometry (JsNumber.of_Z 2) (JsNumber.of_Z 2) 2 3)))
  = (2 * (2 * 3))%nat /\
  Forall (proper_triangle ((2 + 1) * (3 + 1)))
    (triangles
       (Plane.indices (Plane.createGeometry (JsNumber.of_Z 2) (JsNumber.of_Z 2) 2 3))).
Proof.
  apply (createGeometry_triangles (JsNumber.of_Z 2) (JsNumber.of_Z 2) 2 3).
  vm_compute. discriminate.
Defined.

(** A plane's buffers fit its geometry: the vertex count is a third of
    the positions and the index count is the number of indices; with a
    device the vertex buffer is created with four bytes for every position
    and texture coordinate and the index buffer with two bytes per index,
    and without a device the plane logs an error and has no buffers. *)
Theorem plane_buffers_fit_geometry width height gx gy h p h' :
  Plane.constructor gx gy h = (Ret p, h') ->
  let g := Plane.createGeometry width height gx gy in
  (3 * vertexCount p)%nat = List.length (Plane.positions g) /\
  indexCount p = List.length (Plane.indices g) /\
  match device (ctx h) with
  | None =>
      vertexBuffer p = None /\ indexBuffer p = None /\ history h' = history h /\
      console h'
      = console h ++ [ {| level := LogError; message := "WebGPU device not available" |} ]
  | Some _ =>
      exists vb ib,
        vertexBuffer p = Some vb /\ indexBuffer p = Some ib /\
        map ev_call (new_events h h')
        = [ CreateBuffer None
              (4 * Z.of_nat (List.length (Plane.positions g) + List.length (Plane.uvs g)))
              (Z.lor GPUBufferUsage.VERTEX GPUBufferUsage.COPY_DST) true;
            GetMappedRange vb; Unmap vb;
            CreateBuffer None (2 * Z.of_nat (List.length (Plane.indices g)))
              (Z.lor GPUBufferUsage.INDEX GPUBufferUsage.COPY_DST) true;
            GetMappedRange ib; Unmap ib ]
  end.
Proof.
  intros H g.
  destruct (createGeometry_lengths width height gx gy) as (Lp & Lu & Li).
  fold g in Lp, Lu, Li. rewrite Lp, Lu, Li.
  unfold Plane.constructor in H.
  run_in H; cbn [vertexCount indexCount vertexBuffer indexBuffer].
  - split; [ reflexivity |]. split; [ reflexivity |].
    do 2 eexists. split; [ reflexivity |]. split; [ reflexivity |].
    erewrite new_events_app
      by (cbn [history record]; rewrite <- ?app_assoc; reflexivity).
    cbn [map ev_call app].
    replace (4 * Z.of_nat (3 * ((gx + 1) * (gy + 1)) + 2 * ((gx + 1) * (gy + 1))))
      with (Z.of_nat ((gx + 1) * (gy + 1)) * 5 * 4) by lia.
    replace (2 * Z.of_nat (gx * gy * 6)) with (Z.of_nat (gx * gy * 6) * 2) by lia.
    reflexivity.
  - repeat split.
Qed.

Lemma plane_buffers_fit_geometry_witness :
  let p := {| vertexBuffer := Some 81%nat; indexBuffer := Some 84%nat;
              vertexCount := 4; indexCount := 6 |} in
  let h' := snd (Plane.constructor 1 1 started_podium) in
  let g := Plane.createGeometry (JsNumber.of_Z 2) (JsNumber.of_Z 2) 1 1 in
  (3 * vertexCount p)%nat = List.length (Plane.positions g) /\
  indexCount p = List.length (Plane.indices g) /\
  match device (ctx started_podium) with
  | None =>
      vertexBuffer p = None /\ indexBuffer p = None /\
      history h' = history started_podium /\
      console h'
      = console started_podium
          ++ [ {| level := LogError; message := "WebGPU device not available" |} ]
  | Some _ =>
      exists vb ib,
        vertexBuffer p = Some vb /\ indexBuffer p = Some ib /\
        map ev_call (new_events started_podium h')
        = [ CreateBuffer None
              (4 * Z.of_nat (List.length (Plane.positions g) + List.length (Plane.uvs g)))
              (Z.lor GPUBufferUsage.VERTEX GPUBufferUsage.COPY_DST) true;
            GetMappedRange vb; Unmap vb;
            CreateBuffer None (2 * Z.of_nat (List.length (Plane.indices g)))
              (Z.lor GPUBufferUsage.INDEX GPUBufferUsage.COPY_DST) true;
            GetMappedRange ib; Unmap ib ]
  end.
Proof.
  apply (plane_buffers_fit_geometry (JsNumber.of_Z 2) (JsNumber.of_Z 2) 1 1
           started_podium).
  vm_compute. reflexivity.
Defined.
(* ================================================================== *)
(** * Uniform buffers *)
(* ================================================================== *)

(** Find an event in the history it was appended to. *)
Ltac in_list := first [ left; reflexivity | right; in_list ].

Ltac in_appended :=
  first [ apply in_or_app; right; in_list
        | apply in_or_app; left; in_appended ].

Ltac in_history :=
  cbn [history clock record set_console set_shaderManager set_textureManager
       set_uniformManager set_postProcessor set_podium set_ctx];
  in_appended.

Lemma aligned_size (size : Z) :
  let a := Z.max (UniformManager.ceil256 size * 256) 256 in
  a mod 256 = 0 /\ 256 <= a /\ size <= a /\
  forall k, k mod 256 = 0 -> 256 <= k -> size <= k -> a <= k.
Proof.
  unfold UniformManager.ceil256. cbn zeta.
  pose proof (Z.div_mod (size + 255) 256 ltac:(lia)) as D.
  pose proof (Z.mod_pos_bound (size + 255) 256 ltac:(lia)) as B.
  repeat split.
  - destruct (Z.max_spec ((size + 255) / 256 * 256) 256) as [[_ ->] | [_ ->]].
    + reflexivity.
    + apply Z.mod_mul. lia.
  - lia.
  - lia.
  - intros k K0 K1 K2.
    apply Z.mod_divide in K0; [| lia ]. destruct K0 as [q ->].
    assert ((size + 255) / 256 < q + 1) by (apply Z.div_lt_upper_bound; lia).
    lia.
Qed.

(** The buffer [createUniformBuffer] asks the device for has the least
    size that is a multiple of 256, at least 256 and at least the size
    asked for. *)
Theorem createUniformBuffer_aligned label size initialData h b h' :
  UniformManager.createUniformBuffer label size initialData h = (Ret (Some b), h') ->
  exists a usage mapped,
    In {| ev_call := CreateBuffer (Some label) a usage mapped; ev_result := Some b |}
       (history h') /\
    a mod 256 = 0 /\ 256 <= a /\ size <= a /\
    (forall k, k mod 256 = 0 -> 256 <= k -> size <= k -> a <= k) /\
    JsMap.get (uniformBuffers (uniformManager h')) label = Some b.
Proof.
  unfold UniformManager.createUniformBuffer. intros H.
  run_in H;
    (do 3 eexists; split; [ in_history |];
     destruct (aligned_size size) as (A1 & A2 & A3 & A4);
     repeat split; try assumption;
     cbn [uniformManager set_uniformManager UniformManager.set_uniformBuffers
          uniformBuffers record set_console];
     apply get_set_same).
Qed.

Lemma createUniformBuffer_aligned_witness :
  exists a usage mapped,
    In {| ev_call := CreateBuffer (Some "mine") a usage mapped; ev_result := Some 81%nat |}
       (history (snd (UniformManager.createUniformBuffer "mine" 96 None started_podium))) /\
    a mod 256 = 0 /\ 256 <= a /\ 96 <= a /\
    (forall k, k mod 256 = 0 -> 256 <= k -> 96 <= k -> a <= k) /\
    JsMap.get (uniformBuffers
                 (uniformManager
                    (snd (UniformManager.createUniformBuffer "mine" 96 None
                            started_podium)))) "mine" = Some 81%nat.
Proof.
  apply (createUniformBuffer_aligned "mine" 96 None started_podium 81%nat).
  vm_compute. reflexivity.
Defined.

(* ================================================================== *)
(** * The serialized uniforms *)
(* ================================================================== *)

Lemma blit_length target source r :
  Float32Array.blit target source = Some r -> List.length r = List.length target.
Proof.
  revert target r. induction source as [| s source IH]; intros [| t target] r H;
    cbn in H; try (inversion H; reflexivity); try discriminate.
  destruct (Float32Array.blit target source) eqn:E; [| discriminate ].
  inversion H; subst. cbn. f_equal. now apply IH.
Qed.

Lemma blit_none target source :
  Float32Array.blit target source = None <->
  (List.length target < List.length source)%nat.
Proof.
  revert target. induction source as [| s source IH]; intros [| t target]; cbn.
  - split; [ discriminate | lia ].
  - split; [ discriminate | lia ].
  - split; [ lia | reflexivity ].
  - destruct (Float32Array.blit target source) eqn:E.
    + split; [ discriminate |]. intros L.
      assert (N : Float32Array.blit target source = None) by (apply IH; lia).
      congruence.
    + split; [| reflexivity ]. intros _. apply IH in E. lia.
Qed.

Lemma set_length a i v : List.length (Float32Array.set a i v) = List.length a.
Proof.
  revert i. induction a as [| x a IH]; intros [| i]; cbn; try reflexivity.
  now rewrite IH.
Qed.

Lemma blit_some target source :
  (List.length source <= List.length target)%nat ->
  Float32Array.blit target source
  = Some (source ++ skipn (List.length source) target).
Proof.
  revert target. induction source as [| s source IH]; intros [| t target] L;
    cbn in *; try reflexivity; try lia.
  rewrite IH by lia. reflexivity.
Qed.

Lemma set_app a b i v :
  (List.length a <= i)%nat ->
  Float32Array.set (a ++ b) i v = a ++ Float32Array.set b (i - List.length a) v.
Proof.
  revert i. induction a as [| x a IH]; intros i L; cbn in *.
  - now rewrite Nat.sub_0_r.
  - destruct i as [| i]; [ lia |]. cbn. rewrite IH by lia. reflexivity.
Qed.

Lemma set_repeat_zero n k v :
  Float32Array.set (repeat JsNumber.zero n ++ JsNumber.zero :: repeat JsNumber.zero k) n v
  = repeat JsNumber.zero n ++ JsNumber.fround v :: repeat JsNumber.zero k.
Proof.
  rewrite set_app by (rewrite repeat_length; lia).
  rewrite repeat_length, Nat.sub_diag. reflexivity.
Qed.

Lemma skipn_repeat {A} (x : A) n k : skipn n (repeat x k) = repeat x (k - n).
Proof.
  revert k. induction n as [| n IH]; intros [| k]; cbn; try reflexivity.
  apply IH.
Qed.

(** [serializeUniformData] yields 24 lanes: the matrix, zeros up to lane
    16, the time in lane 16 and seven zeros; a matrix that does not fit
    the 24 lanes makes it throw a [RangeError]. *)
Theorem serializeUniformData_shape (data : UniformData) (h : Heap) :
  ((List.length (matrix_of data) <= 24)%nat ->
   exists lanes,
     UniformManager.serializeUniformData data h = (Ret lanes, h) /\
     List.length lanes = 24%nat /\
     ((List.length (matrix_of data) <= 16)%nat ->
      lanes = matrix_of data
                ++ repeat JsNumber.zero (16 - List.length (matrix_of data))
                ++ time_of data JsNumber.zero :: repeat JsNumber.zero 7)) /\
  ((24 < List.length (matrix_of data))%nat ->
   UniformManager.serializeUniformData data h
   = (Throw (RangeError "offset is out of bounds"), h)).
Proof.
  assert (S : UniformManager.serializeUniformData data h
              = match Float32Array.blit (Float32Array.make 24) (matrix_of data) with
                | Some view =>
                    (Ret match JsMap.get data "time" with
                         | Some (VNumber time) => Float32Array.set view 16 time
                         | _ => view
                         end, h)
                | None => (Throw (RangeError "offset is out of bounds"), h)
                end).
  { unfold UniformManager.serializeUniformData, matrix_of.
    destruct (JsMap.get data "mvpMatrix") as [[| | | m | |] |];
      rewrite bind_eq;
      match goal with
      | |- context [Float32Array.blit ?v ?m] => destruct (Float32Array.blit v m)
      end; try reflexivity;
      destruct (JsMap.get data "time") as [[] |]; reflexivity. }
  rewrite S. clear S. split.
  - intros L.
    rewrite blit_some by (unfold Float32Array.make; rewrite repeat_length; exact L).
    eexists. split; [ reflexivity |]. split.
    + assert (B : List.length
                    (matrix_of data
                       ++ skipn (List.length (matrix_of data)) (Float32Array.make 24))
                  = 24%nat).
      { unfold Float32Array.make. rewrite length_app, skipn_repeat, repeat_length. lia. }
      destruct (JsMap.get data "time") as [[] |]; rewrite ?set_length; exact B.
    + intros L16. unfold Float32Array.make, time_of. rewrite skipn_repeat.
      replace (24 - List.length (matrix_of data))%nat
        with ((16 - List.length (matrix_of data)) + 8)%nat by lia.
      rewrite repeat_app. change (repeat JsNumber.zero 8)
        with (JsNumber.zero :: repeat JsNumber.zero 7).
      destruct (JsMap.get data "time") as [[| t | | | |] |]; try reflexivity.
      rewrite set_app by exact L16. f_equal. apply set_repeat_zero.
  - intros L.
    assert (N : Float32Array.blit (Float32Array.make 24) (matrix_of data) = None).
    { apply blit_none. unfold Float32Array.make. rewrite repeat_length. exact L. }
    now rewrite N.
Qed.

Lemma serializeUniformData_shape_witness :
  exists lanes,
    UniformManager.serializeUniformData (blur_uniforms JsNumber.one) started_podium
    = (Ret lanes, started_podium) /\
    List.length lanes = 24%nat /\
    ((List.length (matrix_of (blur_uniforms JsNumber.one)) <= 16)%nat ->
     lanes = matrix_of (blur_uniforms JsNumber.one)
               ++ repeat JsNumber.zero
                    (16 - List.length (matrix_of (blur_uniforms JsNumber.one)))
               ++ time_of (blur_uniforms JsNumber.one) JsNumber.zero
                  :: repeat JsNumber.zero 7).
Proof.
  apply (serializeUniformData_shape (blur_uniforms JsNumber.one) started_podium).
  cbn. lia.
Defined.
(* ================================================================== *)
(** * The WebGPU context *)
(* ================================================================== *)

(** [getCurrentTextureView] never throws.  Without a canvas context it
    answers [null] and does nothing; with one it asks for the current
    texture and a view of it, and answers that view, or warns and answers
    [null] when one of the two calls throws. *)
Theorem getCurrentTextureView_outcome (h : Heap) :
  exists r h',
    WebGPUContext.getCurrentTextureView h = (Ret r, h') /\
    match context (ctx h), r with
    | None, None => h' = h
    | Some _, Some v =>
        v = ViewOf (CanvasTexture (clock h)) /\
        history h'
        = history h
            ++ [ {| ev_call := GetCurrentTexture; ev_result := Some (clock h) |};
                 {| ev_call := CreateView (CanvasTexture (clock h));
                    ev_result := Some (S (clock h)) |} ] /\
        console h' = console h
    | Some _, None =>
        console h'
        = console h
            ++ [ {| level := LogWarn; message := "Failed to get current texture view:" |} ] /\
        exists call, In {| ev_call := call; ev_result := None |} (history h')
    | None, Some _ => False
    end.
Proof.
  destruct (WebGPUContext.getCurrentTextureView h) as [r h'] eqn:H.
  unfold WebGPUContext.getCurrentTextureView in H.
  run_in H; do 2 eexists; (split; [ reflexivity |]);
    cbn [history console record set_console clock];
    rewrite <- ?app_assoc; try (repeat split; reflexivity);
    (split; [ reflexivity |]; eexists; in_history).
Qed.




(** When [WebGPUContext.initialize] answers [true], the adapter, the
    device and the canvas context are all there, the presentation format
    is the one the browser prefers, and the canvas context was configured
    with that device and format; when it answers [false], it has logged
    exactly one error. *)
Theorem context_initialize_outcome h b h' :
  WebGPUContext.initialize h = (Ret b, h') ->
  if b then
    has_gpu (host h) = true /\
    adapter (ctx h') <> None /\ context (ctx h') <> None /\
    presentationFormat (ctx h') = preferredCanvasFormat (host h) /\
    console h' = console h /\
    exists dev alpha space n,
      device (ctx h') = Some dev /\
      In {| ev_call := Configure dev (preferredCanvasFormat (host h)) alpha space;
            ev_result := Some n |} (history h')
  else
    exists msg,
      console h' = console h ++ [ {| level := LogError; message := msg |} ].
Proof.
  unfold WebGPUContext.initialize. intros H.
  run_in H;
    cbn [ctx set_ctx record set_console console host adapter device context
         presentationFormat WebGPUContext.set_adapter WebGPUContext.set_device
         WebGPUContext.set_context WebGPUContext.set_presentationFormat];
    try (eexists; reflexivity).
  apply negb_false_iff in E.
  repeat split; try assumption; try discriminate.
  do 4 eexists. split; [ reflexivity | in_history ].
Qed.

Lemma context_initialize_outcome_witness :
  has_gpu (host fresh_podium) = true /\
  adapter (ctx (snd (WebGPUContext.initialize fresh_podium))) <> None /\
  context (ctx (snd (WebGPUContext.initialize fresh_podium))) <> None /\
  presentationFormat (ctx (snd (WebGPUContext.initialize fresh_podium)))
  = preferredCanvasFormat (host fresh_podium) /\
  console (snd (WebGPUContext.initialize fresh_podium)) = console fresh_podium /\
  exists dev alpha space n,
    device (ctx (snd (WebGPUContext.initialize fresh_podium))) = Some dev /\
    In {| ev_call := Configure dev (preferredCanvasFormat (host fresh_podium)) alpha space;
          ev_result := Some n |}
       (history (snd (WebGPUContext.initialize fresh_podium))).
Proof.
  apply (context_initialize_outcome fresh_podium true).
  vm_compute. reflexivity.
Defined.

(** [WebGPUContext.destroy] destroys the device when there is one and
    leaves the context without adapter, device and canvas context, so
    that [getCurrentTextureView] answers [null] without a call to the
    host. *)
Theorem context_destroy_outcome h h' :
  WebGPUContext.destroy h = (Ret tt, h') ->
  adapter (ctx h') = None /\ device (ctx h') = None /\ context (ctx h') = None /\
  history h'
  = history h
      ++ match device (ctx h) with
         | Some dev => [ {| ev_call := DestroyDevice dev; ev_result := Some (clock h) |} ]
         | None => []
         end /\
  WebGPUContext.getCurrentTextureView h' = (Ret None, h').
Proof.
  unfold WebGPUContext.destroy. intros H.
  run_in H;
    cbn [ctx set_ctx record history adapter device context
         WebGPUContext.set_adapter WebGPUContext.set_device WebGPUContext.set_context];
    rewrite ?app_nil_r; repeat split; try reflexivity; assumption.
Qed.

Lemma context_destroy_outcome_witness :
  adapter (ctx (snd (WebGPUContext.destroy started_podium))) = None /\
  device (ctx (snd (WebGPUContext.destroy started_podium))) = None /\
  context (ctx (snd (WebGPUContext.destroy started_podium))) = None /\
  history (snd (WebGPUContext.destroy started_podium))
  = history started_podium
      ++ match device (ctx started_podium) with
         | Some dev =>
             [ {| ev_call := DestroyDevice dev;
                  ev_result := Some (clock started_podium) |} ]
         | None => []
         end /\
  WebGPUContext.getCurrentTextureView (snd (WebGPUContext.destroy started_podium))
  = (Ret None, snd (WebGPUContext.destroy started_podium)).
Proof.
  apply (context_destroy_outcome started_podium).
  vm_compute. reflexivity.
Defined.

(* ================================================================== *)
(** * Textures *)
(* ================================================================== *)

(** An image that is neither cached nor loadable: [loadImageTexture]
    answers [null] after logging one error, without a call to the host
    and without a change to the caches. *)
Theorem loadImageTexture_unloadable url options h :
  device (ctx h) <> None ->
  JsMap.get (imageCache (textureManager h)) url = None ->
  loadImage (host h) url = None ->
  exists h',
    TextureManager.loadImageTexture url options h = (Ret None, h') /\
    history h' = history h /\
    textureManager h' = textureManager h /\
    console h'
    = console h
        ++ [ {| level := LogError;
                message := "Error loading image texture from " ++ url |} ].
Proof.
  intros D C L. unfold TextureManager.loadImageTexture.
  js_unfold. destruct (device (ctx h)); [| congruence ].
  rewrite C, L. eexists. repeat split.
Qed.

Lemma loadImageTexture_unloadable_witness :
  exists h',
    TextureManager.loadImageTexture "a.png" no_texture_options offline_podium
    = (Ret None, h') /\
    history h' = history offline_podium /\
    textureManager h' = textureManager offline_podium /\
    console h'
    = console offline_podium
        ++ [ {| level := LogError;
                message := "Error loading image texture from " ++ "a.png" |} ].
Proof.
  apply (loadImageTexture_unloadable "a.png" no_texture_options offline_podium).
  - vm_compute. discriminate.
  - vm_compute. reflexivity.
  - vm_compute. reflexivity.
Defined.

(** A successful [loadImageTexture] leaves the image and the texture
    cached under the URL, and the texture it returns was filled from that
    image: the image that was cached before, when there was one, and the
    image the browser loaded otherwise. *)
Theorem loadImageTexture_success url options h t h' :
  TextureManager.loadImageTexture url options h = (Ret (Some t), h') ->
  exists image flip n,
    JsMap.get (imageCache (textureManager h')) url = Some image /\
    JsMap.get (textures (textureManager h')) url = Some t /\
    match JsMap.get (imageCache (textureManager h)) url with
    | Some cached => image = cached
    | None => loadImage (host h) url = Some image
    end /\
    In {| ev_call := CopyExternalImageToTexture (ImageSource image) flip t
                       (image_width image) (image_height image);
          ev_result := Some n |} (history h').
Proof.
  unfold TextureManager.loadImageTexture, TextureManager.createTextureFromImage.
  intros H.
  run_in H;
    cbn [textureManager set_textureManager TextureManager.set_textures
         TextureManager.set_imageCache imageCache textures record set_console];
    do 3 eexists;
    (split; [ first [ eassumption | apply get_set_same ] |];
     split; [ apply get_set_same |];
     split; [ first [ reflexivity | eassumption ] | in_history ]).
Qed.

Lemma loadImageTexture_success_witness :
  exists image flip n,
    JsMap.get (imageCache (textureManager textured_podium)) "a.png" = Some image /\
    JsMap.get (textures (textureManager textured_podium)) "a.png"
    = Some (DeviceTexture 81) /\
    match JsMap.get (imageCache (textureManager started_podium)) "a.png" with
    | Some cached => image = cached
    | None => loadImage (host started_podium) "a.png" = Some image
    end /\
    In {| ev_call := CopyExternalImageToTexture (ImageSource image) flip
                       (DeviceTexture 81) (image_width image) (image_height image);
          ev_result := Some n |} (history textured_podium).
Proof.
  apply (loadImageTexture_success "a.png" no_texture_options started_podium
           (DeviceTexture 81) textured_podium).
  vm_compute. reflexivity.
Defined.

(** A loop that makes one host call per element. *)
Lemma forEach_calls {A} (f : A -> ApiCall) (xs : list A) :
  forall h h',
    forEach xs (fun x => host_call (f x) ;;; ret tt) h = (Ret tt, h') ->
    objects h' = objects h /\
    exists evs,
      history h' = history h ++ evs /\
      map ev_call evs = map f xs /\
      Forall (fun e => ev_result e <> None) evs.
Proof.
  induction xs as [| x xs IH]; intros h h' H.
  - inversion H; subst. split; [ reflexivity |]. exists []. rewrite app_nil_r. auto.
  - cbn [forEach] in H. rewrite bind_eq in H.
    destruct ((host_call (f x) ;;; ret tt) h) as [[[] | e] h1] eqn:E; [| discriminate ].
    run_in E. apply IH in H. destruct H as (O & evs & Hh & M & F).
    split; [ rewrite O; reflexivity |].
    eexists. split; [ rewrite Hh; cbn [history record]; rewrite <- app_assoc; reflexivity |].
    split; [ cbn; now rewrite M |].
    constructor; [ discriminate | exact F ].
Qed.

Lemma calls_made_intro h h' evs calls :
  history h' = history h ++ evs ->
  map ev_call evs = calls ->
  Forall (fun e => ev_result e <> None) evs ->
  calls_made h h' calls.
Proof.
  intros Hh M F. unfold calls_made. now rewrite (new_events_app _ _ _ Hh).
Qed.

(** When the [destroy] of a manager returns, it has destroyed what the
    manager had cached, once each and in the order it was stored (the
    textures of the texture manager, the buffers of the uniform manager;
    the shader manager destroys nothing), it has made no other call, and
    the manager's caches are empty, so every getter answers [null]. *)
Theorem managers_destroy_outcome h :
  (forall h',
      TextureManager.destroy h = (Ret tt, h') ->
      calls_made h h' (map DestroyTexture (JsMap.values (textures (textureManager h)))) /\
      textureManager h' = TextureManager.constructor /\
      (forall key,
          TextureManager.getTexture key h' = (Ret None, h') /\
          TextureManager.getSampler key h' = (Ret None, h') /\
          TextureManager.getImage key h' = (Ret None, h') /\
          TextureManager.getVideo key h' = (Ret None, h'))) /\
  (forall h',
      UniformManager.destroy h = (Ret tt, h') ->
      calls_made h h'
        (map DestroyBuffer (JsMap.values (uniformBuffers (uniformManager h)))) /\
      uniformManager h' = UniformManager.constructor /\
      (forall label,
          UniformManager.getUniformBuffer label h' = (Ret None, h') /\
          UniformManager.getBindGroup label h' = (Ret None, h') /\
          UniformManager.getUniformLayout label h' = (Ret None, h'))) /\
  (exists h',
      ShaderManager.destroy h = (Ret tt, h') /\
      history h' = history h /\
      (forall label,
          ShaderManager.getPipeline label h' = (Ret None, h') /\
          ShaderManager.getShaderModule label h' = (Ret None, h') /\
          ShaderManager.getBindGroupLayout label h' = (Ret None, h'))).
Proof.
  split; [| split ].
  - unfold TextureManager.destroy. intros h' H.
    rewrite bind_eq in H. unfold gets at 1 in H. cbv beta iota in H.
    rewrite bind_eq in H.
    destruct (forEach _ _ h) as [[[] | e] h1] eqn:E; [| discriminate ].
    apply forEach_calls in E. destruct E as (O & evs & Hh & M & F).
    inversion H; subst. split; [| split ].
    + eapply calls_made_intro; eauto.
    + reflexivity.
    + intros key. repeat split.
  - unfold UniformManager.destroy. intros h' H.
    rewrite bind_eq in H. unfold gets at 1 in H. cbv beta iota in H.
    rewrite bind_eq in H.
    destruct (forEach _ _ h) as [[[] | e] h1] eqn:E; [| discriminate ].
    apply forEach_calls in E. destruct E as (O & evs & Hh & M & F).
    inversion H; subst. split; [| split ].
    + eapply calls_made_intro; eauto.
    + reflexivity.
    + intros key. repeat split.
  - eexists. split; [ reflexivity |]. split; [ reflexivity |].
    intros label. repeat split.
Qed.

Lemma managers_destroy_outcome_witness :
  calls_made textured_podium (snd (TextureManager.destroy textured_podium))
    (map DestroyTexture (JsMap.values (textures (textureManager textured_podium)))) /\
  textureManager (snd (TextureManager.destroy textured_podium))
  = TextureManager.constructor /\
  (forall key,
      TextureManager.getTexture key (snd (TextureManager.destroy textured_podium))
      = (Ret None, snd (TextureManager.destroy textured_podium)) /\
      TextureManager.getSampler key (snd (TextureManager.destroy textured_podium))
      = (Ret None, snd (TextureManager.destroy textured_podium)) /\
      TextureManager.getImage key (snd (TextureManager.destroy textured_podium))
      = (Ret None, snd (TextureManager.destroy textured_podium)) /\
      TextureManager.getVideo key (snd (TextureManager.destroy textured_podium))
      = (Ret None, snd (TextureManager.destroy textured_podium))).
Proof.
  destruct (managers_destroy_outcome textured_podium) as (T & _).
  apply (T (snd (TextureManager.destroy textured_podium))).
  vm_compute. reflexivity.
Defined.

(** [createTextureBindGroup] without a sampler binds the sampler cached
    under ["default"]: the one that was there, and then no sampler is
    created, or a new one with repeat wrapping and linear filtering that
    is cached for the next call. *)
Theorem createTextureBindGroup_default_sampler layout texture label h bg h' :
  TextureManager.createTextureBindGroup layout texture None label h
  = (Ret (Some bg), h') ->
  exists s,
    JsMap.get (samplers (textureManager h')) "default" = Some s /\
    bg_entries bg = [ (0%nat, ViewBinding (ViewOf texture)); (1%nat, SamplerBinding s) ] /\
    match JsMap.get (samplers (textureManager h)) "default" with
    | Some s0 =>
        s = s0 /\ textureManager h' = textureManager h /\
        map ev_call (new_events h h')
        = [ CreateView texture;
            CreateBindGroup label layout
              [ (0%nat, ViewBinding (ViewOf texture)); (1%nat, SamplerBinding s) ] ]
    | None =>
        map ev_call (new_events h h')
        = [ CreateSampler "default" "repeat" "repeat" "linear" "linear";
            CreateView texture;
            CreateBindGroup label layout
              [ (0%nat, ViewBinding (ViewOf texture)); (1%nat, SamplerBinding s) ] ]
    end.
Proof.
  unfold TextureManager.createTextureBindGroup, TextureManager.getOrCreateDefaultSampler,
    TextureManager.createSampler.
  intros H.
  run_in H;
    cbn [textureManager set_textureManager TextureManager.set_samplers samplers
         record set_console bg_entries];
    eexists;
    (split; [ first [ eassumption | apply get_set_same ] |];
     split; [ reflexivity |]);
    repeat split;
    erewrite new_events_app
      by (cbn [history record set_textureManager set_console];
          rewrite <- ?app_assoc; reflexivity);
    reflexivity.
Qed.

Lemma createTextureBindGroup_default_sampler_witness :
  exists s,
    JsMap.get
      (samplers
         (textureManager
            (snd (TextureManager.createTextureBindGroup 7%nat (DeviceTexture 5) None
                    (Some "bg") (after_context fresh_podium))))) "default"
    = Some s /\
    [ (0%nat, ViewBinding (ViewOf (DeviceTexture 5))); (1%nat, SamplerBinding 5%nat) ]
    = [ (0%nat, ViewBinding (ViewOf (DeviceTexture 5))); (1%nat, SamplerBinding s) ] /\
    match JsMap.get (samplers (textureManager (after_context fresh_podium))) "default" with
    | Some s0 =>
        s = s0 /\
        textureManager
          (snd (TextureManager.createTextureBindGroup 7%nat (DeviceTexture 5) None
                  (Some "bg") (after_context fresh_podium)))
        = textureManager (after_context fresh_podium) /\
        map ev_call
          (new_events (after_context fresh_podium)
             (snd (TextureManager.createTextureBindGroup 7%nat (DeviceTexture 5) None
                     (Some "bg") (after_context fresh_podium))))
        = [ CreateView (DeviceTexture 5);
            CreateBindGroup (Some "bg") 7%nat
              [ (0%nat, ViewBinding (ViewOf (DeviceTexture 5)));
                (1%nat, SamplerBinding s) ] ]
    | None =>
        map ev_call
          (new_events (after_context fresh_podium)
             (snd (TextureManager.createTextureBindGroup 7%nat (DeviceTexture 5) None
                     (Some "bg") (after_context fresh_podium))))
        = [ CreateSampler "default" "repeat" "repeat" "linear" "linear";
            CreateView (DeviceTexture 5);
            CreateBindGroup (Some "bg") 7%nat
              [ (0%nat, ViewBinding (ViewOf (DeviceTexture 5)));
                (1%nat, SamplerBinding s) ] ]
    end.
Proof.
  apply (createTextureBindGroup_default_sampler 7%nat (DeviceTexture 5) (Some "bg")
           (after_context fresh_podium)
           {| bg_id := 7;
              bg_entries := [ (0%nat, ViewBinding (ViewOf (DeviceTexture 5)));
                              (1%nat, SamplerBinding 5%nat) ] |}).
  vm_compute. reflexivity.
Defined.

(* ================================================================== *)
(** * Pipelines *)
(* ================================================================== *)

Lemma append_inj_l (a b c : string) : (a ++ b = a ++ c)%string -> b = c.
Proof.
  induction a as [| x a IH]; cbn; [ auto |]. intros H. inversion H. auto.
Qed.

(** Follow [H], replacing the logging loops by what they write. *)
Ltac run_logging H :=
  js_unfold_in H; logging_in H; js_unfold_in H;
  lazymatch type of H with
  | (_, _) = (_, _) => inversion H; subst; clear H
  | ?lhs = _ =>
      let s := head_scrutinee lhs in
      let E := fresh "E" in
      first [ match goal with E' : s = _ |- _ => rewrite E' in H end
            | destruct s eqn:E ];
      run_logging H
  end.

(** A pipeline [createPipeline] returns was built from the two shader
    modules it compiled and cached as [<label>_vertex] and
    [<label>_fragment], neither of which has a compilation message of
    type [error], and it is cached under the label. *)
Theorem createPipeline_from_clean_shaders label src options h pl h' :
  ShaderManager.createPipeline label src options h = (Ret (Some pl), h') ->
  exists d,
    In {| ev_call := CreateRenderPipeline d; ev_result := Some pl |} (history h') /\
    rpd_label d = label /\
    In {| ev_call := CreateShaderModule (label ++ "_vertex")%string (vertex src);
          ev_result := Some (rpd_vertex_module d) |} (history h') /\
    In {| ev_call := CreateShaderModule (label ++ "_fragment")%string (fragment src);
          ev_result := Some (rpd_fragment_module d) |} (history h') /\
    has_errors h (rpd_vertex_module d) = false /\
    has_errors h (rpd_fragment_module d) = false /\
    JsMap.get (shaderModules (shaderManager h')) (label ++ "_vertex")
    = Some (rpd_vertex_module d) /\
    JsMap.get (shaderModules (shaderManager h')) (label ++ "_fragment")
    = Some (rpd_fragment_module d) /\
    JsMap.get (pipelines (shaderManager h')) label = Some pl.
Proof.
  unfold ShaderManager.createPipeline, ShaderManager.createShaderModule,
    ShaderManager.checkCompilation, ShaderManager.createDefaultBindGroupLayout.
  intros H.
  assert (N : (label ++ "_fragment")%string <> (label ++ "_vertex")%string)
    by (intros Q; apply append_inj_l in Q; discriminate Q).
  run_logging H;
    eexists;
    (split; [ in_history |]);
    (split; [ reflexivity |]);
    (split; [ in_history |]);
    (split; [ in_history |]);
    cbn [rpd_vertex_module rpd_fragment_module shaderManager set_shaderManager
         record set_console shaderModules pipelines
         ShaderManager.set_shaderModules ShaderManager.set_pipelines
         ShaderManager.set_bindGroupLayouts];
    unfold has_errors;
    repeat match goal with
           | E : compilationInfo _ _ = _ |- _ => rewrite E
           end;
    (split; [ first [ reflexivity | assumption ] |]);
    (split; [ first [ reflexivity | assumption ] |]);
    (split; [ rewrite get_set_other by exact N; apply get_set_same |]);
    (split; apply get_set_same).
Qed.

Lemma createPipeline_from_clean_shaders_witness :
  exists d,
    rpd_label d = "mine" /\
    has_errors started_podium (rpd_vertex_module d) = false /\
    has_errors started_podium (rpd_fragment_module d) = false /\
    JsMap.get
      (pipelines
         (shaderManager
            (snd (ShaderManager.createPipeline "mine"
                    ShaderManager.getBasicTextureShader
                    {| vertexBufferLayouts := [Plane.getVertexBufferLayout];
                       po_bindGroupLayouts := None; topology := None;
                       cullMode := None; frontFace := None; depthTest := None;
                       depthWrite := None; depthCompare := None |}
                    started_podium)))) "mine"
    = Some 89%nat.
Proof.
  destruct (createPipeline_from_clean_shaders "mine"
              ShaderManager.getBasicTextureShader
              {| vertexBufferLayouts := [Plane.getVertexBufferLayout];
                 po_bindGroupLayouts := None; topology := None;
                 cullMode := None; frontFace := None; depthTest := None;
                 depthWrite := None; depthCompare := None |}
              started_podium 89%nat
              (snd (ShaderManager.createPipeline "mine"
                      ShaderManager.getBasicTextureShader
                      {| vertexBufferLayouts := [Plane.getVertexBufferLayout];
                         po_bindGroupLayouts := None; topology := None;
                         cullMode := None; frontFace := None; depthTest := None;
                         depthWrite := None; depthCompare := None |}
                      started_podium)))
    as (d & _ & L & _ & _ & V & F & _ & _ & P).
  - vm_compute. reflexivity.
  - exists d. split; [ exact L |]. split; [ exact V |]. split; [ exact F | exact P ].
Defined.

(* ================================================================== *)
(** * Effects *)
(* ================================================================== *)
(* ================================================================== *)
(** * Effects *)
(* ================================================================== *)

Section MoreMapFacts.
Context {V : Type}.

Lemma keys_set_present (m : JsMap.t V) k v :
  JsMap.get m k <> None -> JsMap.keys (JsMap.set m k v) = JsMap.keys m.
Proof.
  induction m as [| [k0 v0] m IH]; cbn; [ congruence |].
  destruct (String.eqb k k0) eqn:E; cbn; [ reflexivity |].
  intros N. f_equal. now apply IH.
Qed.

Lemma get_set (m : JsMap.t V) k k' v :
  JsMap.get (JsMap.set m k v) k'
  = if String.eqb k' k then Some v else JsMap.get m k'.
Proof.
  destruct (String.eqb k' k) eqn:E.
  - apply String.eqb_eq in E. subst. apply get_set_same.
  - apply String.eqb_neq in E. apply get_set_other. congruence.
Qed.

(** [Object.assign(target, source)]: a key of [source] gets the value
    [source] has for it, and every other key keeps the value of
    [target]. *)
Lemma get_assign (target source : JsMap.t V) k :
  NoDup (JsMap.keys source) ->
  JsMap.get (JsMap.assign target source) k
  = match JsMap.get source k with
    | Some v => Some v
    | None => JsMap.get target k
    end.
Proof.
  unfold JsMap.assign. revert target.
  induction source as [| [k0 v0] source IH]; intros target N; cbn.
  - reflexivity.
  - inversion N as [| ? ? Hk Hs]; subst. rewrite IH by assumption.
    destruct (String.eqb k k0) eqn:E.
    + apply String.eqb_eq in E. subst k0.
      assert (G : JsMap.get source k = None) by (apply get_none_iff; exact Hk).
      rewrite G. apply get_set_same.
    + destruct (JsMap.get source k); [ reflexivity |].
      rewrite get_set, E. reflexivity.
Qed.
End MoreMapFacts.



(** [updateEffect] on a known effect answers [true] and merges the new
    options into the options of that pass: a key given in the call takes
    the new value, every other key keeps its value.  The order of the
    passes stays as it was, and so does what the passes hold besides
    their options: id, shader, pipeline, bind group, uniform buffer and
    flag, of this pass and of every other.  (The options of another pass
    are left out: a pass keeps the options object it was created with,
    and passes created with one and the same object share it.) *)
Theorem updateEffect_merges id options h p pass :
  postProcessor h = Some p ->
  JsMap.get (passes p) id = Some pass ->
  NoDup (JsMap.keys options) ->
  exists h' p' pass',
    PostProcessor.updateEffect id options h = (Ret true, h') /\
    postProcessor h' = Some p' /\
    JsMap.keys (passes p') = JsMap.keys (passes p) /\
    JsMap.get (passes p') id = Some pass' /\
    (forall k,
        JsMap.get (pass_options pass') k
        = match JsMap.get options k with
          | Some v => Some v
          | None => JsMap.get (pass_options pass) k
          end) /\
    (forall k,
        option_map pass_settings (JsMap.get (passes p') k)
        = option_map pass_settings (JsMap.get (passes p) k)).
Proof.
  intros P G N. unfold PostProcessor.updateEffect.
  rewrite bind_eq. unfold PostProcessor.this at 1. js_unfold. rewrite P. js_unfold.
  rewrite G. unfold PostProcessor.update. js_unfold.
  match goal with
  | |- context [PostProcessor.updateEffectUniforms ?i ?o ?h1] =>
      destruct (updateEffectUniforms_quiet i o h1) as (b & h2 & evs & E & F & _)
  end.
  { cbn [postProcessor set_postProcessor]. rewrite P. discriminate. }
  rewrite E. apply fixtures_eq in F. destruct F as (_ & _ & _ & F & _).
  cbn [postProcessor set_postProcessor] in F. rewrite P in F. cbn [option_map] in F.
  do 3 eexists. split; [ reflexivity |]. split; [ exact F |].
  cbn [PostProcessor.set_passes passes].
  split; [ apply keys_set_present; congruence |].
  split; [ apply get_set_same |].
  cbn [PostProcessor.set_pass_options pass_options].
  split; [ intros k; now apply get_assign |].
  intros k. destruct (String.eqb id k) eqn:K.
  - apply String.eqb_eq in K. subst k. rewrite get_set_same, G. reflexivity.
  - apply String.eqb_neq in K. rewrite get_set_other by congruence. reflexivity.
Qed.

Lemma updateEffect_merges_witness :
  exists h' p' pass',
    PostProcessor.updateEffect "blur" [("intensity", VNumber JsNumber.one)]
      started_podium = (Ret true, h') /\
    postProcessor h' = Some p' /\
    JsMap.get (passes p') "blur" = Some pass' /\
    JsMap.get (pass_options pass') "intensity" = Some (VNumber JsNumber.one) /\
    JsMap.get (pass_options pass') "radius"
    = JsMap.get (pass_options (the_pass started_podium "blur")) "radius".
Proof.
  destruct (updateEffect_merges "blur" [("intensity", VNumber JsNumber.one)]
              started_podium (the_postProcessor started_podium)
              (the_pass started_podium "blur"))
    as (h' & p' & pass' & E & P & _ & G & M & _).
  - vm_compute. reflexivity.
  - vm_compute. reflexivity.
  - repeat constructor. intros [].
  - exists h', p', pass'.
    split; [ exact E |]. split; [ exact P |]. split; [ exact G |].
    split; rewrite M; reflexivity.
Defined.

(** Follow [H] along the path on which the host accepts every call and
    the post-processor is [p]. *)
Ltac pp_simpl_in H :=
  js_unfold_in H;
  cbn [option_map forEach seq
       PostProcessor.set_renderTarget PostProcessor.set_depthTexture
       PostProcessor.set_tempTargets PostProcessor.set_passes
       PostProcessor.set_fullscreenQuad PostProcessor.set_size
       renderTarget depthTexture tempTargets passes fullscreenQuad width height] in H.

Ltac run_pp R H :=
  pp_simpl_in H;
  repeat (progress (rewrite ?(ready_postProcessor R), ?(ready_quad R),
                     ?(ready_renderTarget R), ?(ready_tempTargets R),
                     ?(ready_accepts R) in H);
          pp_simpl_in H);
  lazymatch type of H with
  | (_, _) = (_, _) => inversion H; subst; clear H
  | ?lhs = _ =>
      let s := head_scrutinee lhs in
      let E := fresh "E" in
      destruct s eqn:E; first [ solve [ ready_prune ] | run_pp R H ]
  end.

(** A [resize] to a new size on a ready post-processor destroys the scene
    target, the depth texture and the two temporary targets, and creates
    four textures of the new size in their place: the post-processor is
    ready again, with three new targets that differ from each other and
    with the passes it had. *)
Theorem postProcessor_resize_ready w hh h p quad r t0 t1 :
  Ready h p quad r t0 t1 ->
  width p <> w \/ height p <> hh ->
  exists h' p' a b c,
    PostProcessor.resize w hh h = (Ret tt, h') /\
    Ready h' p' quad (DeviceTexture a) (DeviceTexture b) (DeviceTexture c) /\
    a <> b /\ a <> c /\ b <> c /\
    width p' = w /\ height p' = hh /\ passes p' = passes p /\
    depthTexture p' <> None /\
    map ev_call (new_events h h')
    = map DestroyTexture
        (r :: match depthTexture p with Some d => [d] | None => [] end ++ [t0; t1])
      ++ [ CreateTexture "main_render_target" w hh (presentationFormat (ctx h))
             (Z.lor GPUTextureUsage.RENDER_ATTACHMENT GPUTextureUsage.TEXTURE_BINDING)
             None;
           CreateTexture "depth_texture" w hh "depth24plus"
             GPUTextureUsage.RENDER_ATTACHMENT None;
           CreateTexture "temp_render_target_0" w hh (presentationFormat (ctx h))
             (Z.lor GPUTextureUsage.RENDER_ATTACHMENT GPUTextureUsage.TEXTURE_BINDING)
             None;
           CreateTexture "temp_render_target_1" w hh (presentationFormat (ctx h))
             (Z.lor GPUTextureUsage.RENDER_ATTACHMENT GPUTextureUsage.TEXTURE_BINDING)
             None ].
Proof.
  intros R S.
  destruct (PostProcessor.resize w hh h) as [res h'] eqn:H.
  unfold PostProcessor.resize, PostProcessor.destroyTargets,
    PostProcessor.createRenderTargets, PostProcessor.this, PostProcessor.update in H.
  run_pp R H.
  all: try (exfalso; apply andb_true_iff in E; destruct E as [E1 E2];
            apply Z.eqb_eq in E1, E2; tauto).
  all: do 5 eexists; (split; [ reflexivity |]).
  all: assert (P : forall f, postProcessor (set_postProcessor f h) = f (Some p))
         by (intros f; cbn [postProcessor set_postProcessor];
             now rewrite (ready_postProcessor R)).
  all: split;
    [ constructor;
      [ | | | | cbn [postProcessor record set_postProcessor];
                rewrite (ready_postProcessor R); cbn [option_map]; reflexivity | .. ];
      cbn [host ctx textureManager postProcessor record set_postProcessor
           PostProcessor.set_tempTargets PostProcessor.set_depthTexture
           PostProcessor.set_renderTarget PostProcessor.set_size fullscreenQuad
           renderTarget tempTargets passes app];
      first [ solve [ apply R ] | reflexivity ]
    | ].
  all: cbn [PostProcessor.set_tempTargets PostProcessor.set_depthTexture
            PostProcessor.set_renderTarget PostProcessor.set_size
            width height passes depthTexture].
  all: repeat (split; [ first [ lia | reflexivity | discriminate ] |]).
  all: erewrite new_events_app
         by (cbn [history record set_postProcessor]; rewrite <- ?app_assoc; reflexivity).
  all: reflexivity.
Qed.

Lemma postProcessor_resize_ready_witness :
  exists h' p' a b c,
    PostProcessor.resize 1024 768 three_effects = (Ret tt, h') /\
    Ready h' p' (the_quad three_effects)
          (DeviceTexture a) (DeviceTexture b) (DeviceTexture c) /\
    width p' = 1024 /\ height p' = 768 /\
    passes p' = passes (the_postProcessor three_effects).
Proof.
  destruct (postProcessor_resize_ready 1024 768 three_effects
              (the_postProcessor three_effects) (the_quad three_effects)
              (DeviceTexture 5) (DeviceTexture 7) (DeviceTexture 8))
    as (h' & p' & a & b & c & E & R & _ & _ & _ & W & H & P & _).
  - exact three_effects_ready.
  - left. vm_compute. discriminate.
  - exists h', p', a, b, c.
    split; [ exact E |]. split; [ exact R |]. split; [ exact W |].
    split; [ exact H | exact P ].
Defined.

Lemma createUniformBuffer_keeps_postProcessor label size init :
  preserves postProcessor (UniformManager.createUniformBuffer label size init).
Proof. unfold UniformManager.createUniformBuffer. preserves_tac. Qed.

Lemma createPipeline_keeps_effects label src options :
  preserves (fun h => (postProcessor h, uniformManager h, textureManager h))
    (ShaderManager.createPipeline label src options).
Proof.
  unfold ShaderManager.createPipeline, ShaderManager.createShaderModule,
    ShaderManager.checkCompilation, ShaderManager.createDefaultBindGroupLayout.
  preserves_tac.
Qed.

(** [addEffect] on a post-processor never throws.  When it answers
    [true], the pass is stored under its id, disabled, with the options
    and the shader it was given, over a uniform buffer cached as
    [<id>_uniforms] and a pipeline cached as [<id>_postprocess]; when it
    answers [false], the passes are as they were and an error has been
    logged. *)
Theorem addEffect_outcome id shader options h p :
  postProcessor h = Some p ->
  exists b h',
    PostProcessor.addEffect id shader options h = (Ret b, h') /\
    if b then
      exists pass ub,
        postProcessor h'
        = Some (PostProcessor.set_passes (fun m => JsMap.set m id pass) p) /\
        pass_id pass = id /\ enabled pass = false /\
        pass_options pass = options /\ pass_shader pass = shader /\
        pass_uniformBuffer pass = Some ub /\
        JsMap.get (uniformBuffers (uniformManager h')) (id ++ "_uniforms") = Some ub /\
        JsMap.get (pipelines (shaderManager h')) (id ++ "_postprocess")
        = Some (pass_pipeline pass)
    else
      postProcessor h' = Some p /\
      exists msg, In {| level := LogError; message := msg |} (console h').
Proof.
  intros P.
  destruct (PostProcessor.addEffect id shader options h) as [res h'] eqn:H.
  unfold PostProcessor.addEffect, PostProcessor.this,
    PostProcessor.createPostProcessBindGroupLayout,
    PostProcessor.createPostProcessBindGroup, TextureManager.getSampler,
    PostProcessor.update in H.
  js_unfold_in H. rewrite P in H.
  run_in H;
    repeat match goal with
           | E : UniformManager.createUniformBuffer _ _ _ ?h0 = (_, ?h1) |- _ =>
               pose proof (createUniformBuffer_keeps_postProcessor _ _ _ _ _ _ E);
               apply createUniformBuffer_stores in E;
               unfold uniformBuffersOf in E
           | E : PostProcessor.updateEffectUniforms ?i ?o ?h0 = (_, ?h1) |- _ =>
               let b := fresh in
               let h2 := fresh in
               let evs := fresh in
               let Q := fresh in
               let F := fresh "F" in
               let U := fresh "U" in
               let S := fresh "S" in
               destruct (updateEffectUniforms_quiet i o h0 ltac:(congruence))
                 as (b & h2 & evs & Q & F & U & S & _);
               rewrite E in Q; inversion Q; subst; clear Q E;
               apply fixtures_eq in F; destruct F as (_ & _ & _ & F & _)
           | E : ShaderManager.createPipeline _ _ _ ?h0 = (_, ?h1) |- _ =>
               let K := fresh "K" in
               pose proof (createPipeline_keeps_effects _ _ _ _ _ _ E) as K;
               inversion K; clear K;
               apply createPipeline_stores in E;
               unfold pipelinesOf in E
           end;
    do 2 eexists; (split; [ reflexivity |]);
    cbn [postProcessor console uniformManager shaderManager
         set_postProcessor set_console record option_map];
    first
      [ split;
        [ congruence
        | eexists; first [ apply in_or_app; right; left; reflexivity | in_appended ] ]
      | idtac ].
  do 2 eexists.
  split; [ replace (postProcessor h2) with (Some p) by congruence; reflexivity |].
  cbn [pass_id enabled pass_options pass_shader pass_uniformBuffer pass_pipeline].
  repeat split.
  - replace (uniformManager h2) with (uniformManager h0) by congruence.
    rewrite E1. apply get_set_same.
  - match goal with
    | E : pipelines (shaderManager _) = JsMap.set _ _ _ |- _ => rewrite E
    end.
    apply get_set_same.
Qed.

Lemma addEffect_outcome_witness :
  exists b h',
    PostProcessor.addEffect "mine" PostProcessor.getBlurShader [] started_podium
    = (Ret b, h').
Proof.
  destruct (addEffect_outcome "mine" PostProcessor.getBlurShader [] started_podium
              (the_postProcessor started_podium))
    as (b & h' & E & _).
  - vm_compute. reflexivity.
  - exists b, h'. exact E.
Defined.

Lemma keeps_bind {A B} (I : Heap -> Prop) (c : Js A) (k : A -> Js B) :
  keeps I c -> (forall a, keeps I (k a)) -> keeps I (bind c k).
Proof.
  intros Hc Hk h r h' Ih H. rewrite bind_eq in H.
  destruct (c h) as [[a | e] h1] eqn:E.
  - eapply Hk; [ eapply Hc; eauto | exact H ].
  - inversion H; subst. eapply Hc; eauto.
Qed.

Lemma keeps_passes {A} (c : Js A) :
  preserves passesOf c -> keeps all_disabled c.
Proof.
  intros Hc h r h' (p & P & F) H. apply Hc in H.
  unfold passesOf in H. rewrite P in H. cbn in H.
  destruct (postProcessor h') as [p' |] eqn:P'; [| discriminate ].
  exists p'. split; [ exact P' |]. cbn in H. congruence.
Qed.

Lemma update_keeps_passes f :
  (forall p, passes (f p) = passes p) -> preserves passesOf (PostProcessor.update f).
Proof.
  intros Hf h r h' H. unfold PostProcessor.update, modify in H. inversion H.
  unfold passesOf. cbn [postProcessor set_postProcessor].
  destruct (postProcessor h); cbn; [ now rewrite Hf | reflexivity ].
Qed.

#[local] Hint Resolve update_keeps_passes : frames.

Lemma this_keeps_passes : preserves passesOf PostProcessor.this.
Proof. unfold PostProcessor.this. preserves_tac. Qed.

#[local] Hint Resolve this_keeps_passes : frames.

Lemma createRenderTargets_keeps_passes :
  preserves passesOf PostProcessor.createRenderTargets.
Proof.
  unfold PostProcessor.createRenderTargets. preserves_tac;
    apply update_keeps_passes; reflexivity.
Qed.

Lemma createSampler_keeps_passes label options :
  preserves passesOf (TextureManager.createSampler label options).
Proof. unfold TextureManager.createSampler. preserves_tac. Qed.

Lemma plane_keeps_passes ws hs : preserves passesOf (Plane.constructor ws hs).
Proof. unfold Plane.constructor. preserves_tac. Qed.

Lemma set_disabled (m : JsMap.t PostProcessPass) pass :
  Forall (fun kv => pass_id (snd kv) = fst kv /\ enabled (snd kv) = false) m ->
  enabled pass = false ->
  Forall (fun kv => pass_id (snd kv) = fst kv /\ enabled (snd kv) = false)
         (JsMap.set m (pass_id pass) pass).
Proof.
  intros F E. induction m as [| [k v] m IH]; cbn.
  - constructor; [ split; [ reflexivity | assumption ] | constructor ].
  - inversion F as [| ? ? [Hk He] Fm]; subst.
    destruct (String.eqb (pass_id pass) k) eqn:Q.
    + apply String.eqb_eq in Q.
      constructor; [ split; [ exact Q | exact E ] | exact Fm ].
    + constructor; [ split; assumption | apply IH; exact Fm ].
Qed.

Lemma addEffect_keeps_disabled id shader options :
  keeps all_disabled (PostProcessor.addEffect id shader options).
Proof.
  intros h r h' (p & P & F) H.
  destruct (addEffect_outcome id shader options h p P) as (b & h1 & E & O).
  rewrite E in H. inversion H; subst. destruct b.
  - destruct O as (pass & ub & P' & I & D & _).
    eexists. split; [ exact P' |]. cbn [PostProcessor.set_passes passes].
    rewrite <- I. now apply set_disabled.
  - destruct O as (P' & _). now exists p.
Qed.

(** However [PostProcessor.initialize] ends, it leaves every effect
    switched off and stored under its own id when that was so before, as
    it is for a new post-processor: until [setEffectEnabled] is called, no
    pass is enabled. *)
Theorem initialize_leaves_effects_disabled w hh h r h' :
  all_disabled h ->
  PostProcessor.initialize w hh h = (r, h') ->
  exists p',
    postProcessor h' = Some p' /\
    Forall (fun kv => pass_id (snd kv) = fst kv /\ enabled (snd kv) = false) (passes p') /\
    filter enabled (JsMap.values (passes p')) = [].
Proof.
  intros I H.
  assert (K : keeps all_disabled (PostProcessor.initialize w hh)).
  { unfold PostProcessor.initialize, PostProcessor.initializeBuiltInEffects,
      TextureManager.getSampler.
    repeat first
      [ apply addEffect_keeps_disabled
      | apply keeps_bind; [| intros ? ]
      | apply keeps_passes; solve [ preserves_tac
                                  | apply update_keeps_passes; reflexivity
                                  | apply createRenderTargets_keeps_passes
                                  | apply createSampler_keeps_passes
                                  | apply plane_keeps_passes ]
      | match goal with
        | |- keeps _ (match ?x with _ => _ end) => destruct x
        | |- keeps _ (if ?x then _ else _) => destruct x
        end ]. }
  destruct (K h r h' I H) as (p' & P' & F).
  exists p'. split; [ exact P' |]. split; [ exact F |].
  unfold JsMap.values. clear - F.
  induction (passes p') as [| [k v] m IH]; [ reflexivity |].
  inversion F as [| ? ? [_ E] Fm]; subst. cbn in *. rewrite E. now apply IH.
Qed.

Lemma initialize_leaves_effects_disabled_witness :
  exists p',
    postProcessor (snd (PostProcessor.initialize 800 600 (after_context fresh_podium)))
    = Some p' /\
    filter enabled (JsMap.values (passes p')) = [].
Proof.
  destruct (initialize_leaves_effects_disabled 800 600 (after_context fresh_podium)
              (fst (PostProcessor.initialize 800 600 (after_context fresh_podium)))
              (snd (PostProcessor.initialize 800 600 (after_context fresh_podium))))
    as (p' & P & _ & F).
  - exists PostProcessor.constructor. split; [ vm_compute; reflexivity | constructor ].
  - apply surjective_pairing.
  - exists p'. split; assumption.
Defined.

(** [destroy] on a ready post-processor destroys the scene target, the
    depth texture, the two temporary targets and the two buffers of the
    fullscreen quad, and forgets the passes and the temporary targets;
    the scene target and the depth texture stay in their fields, so that
    [getRenderTarget] still answers the texture that was destroyed. *)
Theorem postProcessor_destroy_outcome h p quad r t0 t1 :
  Ready h p quad r t0 t1 ->
  exists h' p' vb ib,
    PostProcessor.destroy h = (Ret tt, h') /\
    postProcessor h' = Some p' /\
    vertexBuffer quad = Some vb /\ indexBuffer quad = Some ib /\
    calls_made h h'
      (map DestroyTexture
           (r :: match depthTexture p with Some d => [d] | None => [] end ++ [t0; t1])
       ++ [DestroyBuffer vb; DestroyBuffer ib]) /\
    passes p' = JsMap.empty /\ tempTargets p' = [] /\
    renderTarget p' = Some r /\ depthTexture p' = depthTexture p /\
    (exists quad', fullscreenQuad p' = Some quad' /\
                   vertexBuffer quad' = None /\ indexBuffer quad' = None) /\
    PostProcessor.getRenderTarget h' = (Ret (Some r), h').
Proof.
  intros R.
  destruct (ready_buffers_of_quad R) as [Bv Bi].
  destruct (vertexBuffer quad) as [vb |] eqn:Ev; [| congruence ].
  destruct (indexBuffer quad) as [ib |] eqn:Ei; [| congruence ].
  destruct (PostProcessor.destroy h) as [res h'] eqn:H.
  unfold PostProcessor.destroy, PostProcessor.destroyTargets, Plane.destroy,
    PostProcessor.this, PostProcessor.update in H.
  run_pp R H; try congruence.
  all: inversion Ev; inversion Ei; subst.
  all: do 4 eexists; (split; [ reflexivity |]).
  all: split;
    [ cbn [postProcessor set_postProcessor record];
      rewrite (ready_postProcessor R); cbn [option_map]; reflexivity |].
  all: split; [ reflexivity |]; split; [ reflexivity |].
  all: split;
    [ eapply calls_made_intro;
      [ cbn [history set_postProcessor record]; rewrite <- ?app_assoc; reflexivity
      | reflexivity
      | repeat constructor; discriminate ] |].
  all: cbn [PostProcessor.set_passes PostProcessor.set_fullscreenQuad
            PostProcessor.set_tempTargets passes tempTargets renderTarget
            depthTexture fullscreenQuad].
  all: repeat (split; [ first [ reflexivity | apply R | assumption ] |]).
  all: split; [ eexists; repeat split |].
  all: unfold PostProcessor.getRenderTarget, PostProcessor.this; js_unfold;
    rewrite (ready_postProcessor R); cbn [option_map]; js_unfold;
    cbn [PostProcessor.set_passes PostProcessor.set_fullscreenQuad
         PostProcessor.set_tempTargets renderTarget];
    now rewrite (ready_renderTarget R).
Qed.

Lemma postProcessor_destroy_outcome_witness :
  exists h' p',
    PostProcessor.destroy three_effects = (Ret tt, h') /\
    postProcessor h' = Some p' /\
    passes p' = JsMap.empty /\ tempTargets p' = [] /\
    PostProcessor.getRenderTarget h' = (Ret (Some (DeviceTexture 5)), h').
Proof.
  destruct (postProcessor_destroy_outcome three_effects
              (the_postProcessor three_effects) (the_quad three_effects)
              (DeviceTexture 5) (DeviceTexture 7) (DeviceTexture 8))
    as (h' & p' & vb & ib & E & P & _ & _ & _ & Pa & T & _ & _ & _ & G).
  - exact three_effects_ready.
  - exists h', p'.
    split; [ exact E |]. split; [ exact P |]. split; [ exact Pa |].
    split; [ exact T | exact G ].
Defined.

Section KeysFacts.
Context {V : Type}.

Lemma keys_set (m : JsMap.t V) k v :
  JsMap.keys (JsMap.set m k v)
  = match JsMap.get m k with
    | Some _ => JsMap.keys m
    | None => JsMap.keys m ++ [k]
    end.
Proof.
  unfold JsMap.keys.
  induction m as [| [k0 v0] m IH]; cbn [JsMap.set JsMap.get map fst app];
    [ reflexivity |].
  destruct (String.eqb k k0) eqn:E; cbn [map fst]; [ reflexivity |].
  rewrite IH. now destruct (JsMap.get m k).
Qed.

Lemma NoDup_keys_set (m : JsMap.t V) k v :
  NoDup (JsMap.keys m) -> NoDup (JsMap.keys (JsMap.set m k v)).
Proof.
  intros N. rewrite keys_set. destruct (JsMap.get m k) eqn:G; [ exact N |].
  apply get_none_iff in G. apply NoDup_app; [ exact N | repeat constructor; tauto |].
  intros x Hx [<- | []]. contradiction.
Qed.

Lemma incl_keys_set (m : JsMap.t V) k v l :
  incl (JsMap.keys m) l -> In k l -> incl (JsMap.keys (JsMap.set m k v)) l.
Proof.
  intros I K. rewrite keys_set. destruct (JsMap.get m k); [ exact I |].
  apply incl_app; [ exact I |]. intros x [<- | []]. exact K.
Qed.
End KeysFacts.

Lemma addEffect_keeps_builtin id shader options :
  In id ["blur"; "bloom"; "colorCorrection"; "vignette"; "filmGrain"]%string ->
  keeps builtin_only (PostProcessor.addEffect id shader options).
Proof.
  intros K h r h' (p & P & N & I) H.
  destruct (addEffect_outcome id shader options h p P) as (b & h1 & E & O).
  rewrite E in H. inversion H; subst. destruct b.
  - destruct O as (pass & ub & P' & _).
    eexists. split; [ exact P' |]. cbn [PostProcessor.set_passes passes].
    split; [ now apply NoDup_keys_set | now apply incl_keys_set ].
  - destruct O as (P' & _). now exists p.
Qed.

Lemma keeps_and {A} (I J : Heap -> Prop) (c : Js A) :
  keeps I c -> keeps J c -> keeps (fun h => I h /\ J h) c.
Proof. intros HI HJ h r h' [Ih Jh] H. split; [ eapply HI | eapply HJ ]; eauto. Qed.

Lemma keeps_ret {A} (I : Heap -> Prop) (a : A) : keeps I (ret a).
Proof. intros h r h' Ih H. now inversion H; subst. Qed.

(** The built-in effects: however [initializeBuiltInEffects] ends on a
    post-processor without passes, the effects [getDebugInfo] reports are
    stored once each, are among those [getAvailableEffects] lists, and
    none of them is enabled. *)
Theorem builtin_effects_listed h p r h' :
  postProcessor h = Some p ->
  passes p = JsMap.empty ->
  PostProcessor.initializeBuiltInEffects h = (r, h') ->
  exists names ids,
    Podium.getAvailableEffects h' = (Ret names, h') /\
    PostProcessor.getDebugInfo h' = (Ret (List.length ids, ids, []), h') /\
    NoDup ids /\ incl ids names.
Proof.
  intros P E H.
  assert (K : keeps (fun h => builtin_only h /\ all_disabled h)
                    PostProcessor.initializeBuiltInEffects).
  { unfold PostProcessor.initializeBuiltInEffects.
    repeat first
      [ apply keeps_ret
      | apply keeps_and;
        [ apply addEffect_keeps_builtin; cbn; tauto | apply addEffect_keeps_disabled ]
      | apply keeps_bind; [| intros ? ] ]. }
  destruct (K h r h') as ((p1 & P1 & N & I) & (p2 & P2 & D)); [| exact H |].
  { split.
    - exists p. rewrite E. split; [ exact P |].
      split; [ constructor | intros x [] ].
    - exists p. rewrite E. split; [ exact P | constructor ]. }
  rewrite P1 in P2. inversion P2; subst p2.
  exists ["blur"; "bloom"; "colorCorrection"; "vignette"; "filmGrain"]%string,
         (JsMap.keys (passes p1)).
  unfold Podium.getAvailableEffects, PostProcessor.getDebugInfo, PostProcessor.this.
  js_unfold. rewrite P1. js_unfold.
  assert (Off : filter enabled (JsMap.values (passes p1)) = []).
  { unfold JsMap.values. clear - D.
    induction (passes p1) as [| [k v] m IH]; [ reflexivity |].
    inversion D as [| ? ? [_ Q] Fm]; subst. cbn in *. rewrite Q. now apply IH. }
  rewrite Off. unfold JsMap.size, JsMap.keys. rewrite length_map.
  repeat split; assumption.
Qed.

Lemma builtin_effects_listed_witness :
  exists names ids,
    Podium.getAvailableEffects
      (snd (PostProcessor.initializeBuiltInEffects passless_podium))
    = (Ret names, snd (PostProcessor.initializeBuiltInEffects passless_podium)) /\
    NoDup ids /\ incl ids names.
Proof.
  destruct (builtin_effects_listed passless_podium
              (the_postProcessor passless_podium)
              (fst (PostProcessor.initializeBuiltInEffects passless_podium))
              (snd (PostProcessor.initializeBuiltInEffects passless_podium)))
    as (names & ids & A & _ & N & I).
  - vm_compute. reflexivity.
  - vm_compute. reflexivity.
  - apply surjective_pairing.
  - exists names, ids.
    split; [ exact A |]. split; [ exact N | exact I ].
Defined.

(* ================================================================== *)
(** * Switching an effect on *)
(* ================================================================== *)

Lemma Forall_values_set {V} (Q : V -> Prop) (m : JsMap.t V) k v :
  Forall Q (JsMap.values m) -> Q v -> Forall Q (JsMap.values (JsMap.set m k v)).
Proof.
  intros F Qv. induction m as [| [k0 v0] m IH]; cbn.
  - constructor; [ exact Qv | constructor ].
  - cbn in F. inversion F; subst.
    destruct (String.eqb k k0); cbn; constructor; auto.
Qed.

Lemma get_in_values {V} (m : JsMap.t V) k v :
  JsMap.get m k = Some v -> In v (JsMap.values m).
Proof.
  induction m as [| [k0 v0] m IH]; cbn; [ discriminate |].
  destruct (String.eqb k k0); intros H.
  - inversion H. now left.
  - right. now apply IH.
Qed.

Lemma enabled_after_set (m : JsMap.t PostProcessPass) id pass x :
  filter enabled (JsMap.values m) = [] ->
  JsMap.get m id = Some pass ->
  filter enabled (JsMap.values (JsMap.set m id x)) = if enabled x then [x] else [].
Proof.
  unfold JsMap.values.
  induction m as [| [k0 v0] m IH]; cbn [JsMap.get JsMap.set map filter snd];
    [ discriminate |].
  destruct (enabled v0) eqn:E0; [ discriminate |]. intros F.
  destruct (String.eqb id k0); cbn [map filter snd].
  - intros _. rewrite F. reflexivity.
  - rewrite E0. now apply IH.
Qed.

(** On a ready post-processor with every effect switched off,
    [setEffectEnabled(id, true)] followed by [applyPostProcessing] runs
    exactly one pass: the pipeline of that effect samples the scene
    target and draws onto the final target. *)
Theorem enabled_effect_runs_alone h p quad r t0 t1 id pass commandEncoder final time :
  Ready h p quad r t0 t1 ->
  filter enabled (JsMap.values (passes p)) = [] ->
  JsMap.get (passes p) id = Some pass ->
  exists h1 h2,
    PostProcessor.setEffectEnabled id true h = (Ret true, h1) /\
    PostProcessor.applyPostProcessing commandEncoder final time h1 = (Ret tt, h2) /\
    observe (new_events h1 h2)
    = step_commands (indexCount quad)
        {| step_pipeline := pass_pipeline pass; step_input := r;
           step_output := Final final |}.
Proof.
  intros R Off G.
  pose (p1 := PostProcessor.set_passes
                (fun m => JsMap.set m id (PostProcessor.set_enabled true pass)) p).
  pose (h1 := set_postProcessor (fun _ => Some p1) h).
  assert (S1 : PostProcessor.setEffectEnabled id true h
               = (Ret true,
                  set_postProcessor
                    (option_map
                       (PostProcessor.set_passes
                          (fun m => JsMap.set m id (PostProcessor.set_enabled true pass))))
                    h)).
  { unfold PostProcessor.setEffectEnabled, PostProcessor.this, PostProcessor.update.
    js_unfold. rewrite (ready_postProcessor R). js_unfold. rewrite G. reflexivity. }
  assert (R1 : Ready (set_postProcessor
                        (option_map
                           (PostProcessor.set_passes
                              (fun m => JsMap.set m id
                                          (PostProcessor.set_enabled true pass)))) h)
                     p1 quad r t0 t1).
  { constructor; cbn [host ctx textureManager postProcessor set_postProcessor];
      try solve [ apply R ].
    - rewrite (ready_postProcessor R). reflexivity.
    - unfold p1. cbn [PostProcessor.set_passes passes].
      apply Forall_values_set; [ apply R |].
      cbn [PostProcessor.set_enabled pass_uniformBuffer].
      pose proof (ready_uniformBuffers R) as U. rewrite Forall_forall in U.
      apply U. eapply get_in_values; eauto. }
  destruct (applyPostProcessing_run _ _ _ _ _ _ commandEncoder final time R1)
    as (copy & h2 & evs & E & _ & Hh & O & _).
  do 2 eexists. split; [ exact S1 |]. split; [ exact E |].
  rewrite (new_events_app _ _ _ Hh), O.
  unfold plan, enabledPasses, p1. cbn [PostProcessor.set_passes passes].
  rewrite (enabled_after_set _ _ _ _ Off G).
  cbn. rewrite ?app_nil_r. reflexivity.
Qed.

Lemma started_podium_ready :
  Ready started_podium (the_postProcessor started_podium) (the_quad started_podium)
        (DeviceTexture 5) (DeviceTexture 7) (DeviceTexture 8).
Proof.
  constructor; try (intros; vm_compute; reflexivity);
    try (vm_compute; discriminate).
  - split; vm_compute; discriminate.
  - vm_compute. repeat constructor; discriminate.
Qed.

Lemma enabled_effect_runs_alone_witness :
  exists h1 h2,
    PostProcessor.setEffectEnabled "vignette" true started_podium = (Ret true, h1) /\
    PostProcessor.applyPostProcessing 81%nat (ViewOf (CanvasTexture 82))
      (JsNumber.of_Z 5) h1 = (Ret tt, h2) /\
    observe (new_events h1 h2)
    = step_commands (indexCount (the_quad started_podium))
        {| step_pipeline := pass_pipeline (the_pass started_podium "vignette");
           step_input := DeviceTexture 5;
           step_output := Final (ViewOf (CanvasTexture 82)) |}.
Proof.
  apply (enabled_effect_runs_alone started_podium
           (the_postProcessor started_podium) (the_quad started_podium)
           (DeviceTexture 5) (DeviceTexture 7) (DeviceTexture 8) "vignette"
           (the_pass started_podium "vignette") 81%nat (ViewOf (CanvasTexture 82))
           (JsNumber.of_Z 5)).
  - exact started_podium_ready.
  - vm_compute. reflexivity.
  - vm_compute. reflexivity.
Defined.

(* ================================================================== *)
(** * Render objects *)
(* ================================================================== *)

Section DeleteFacts.
Context {V : Type}.

Lemma delete_set_same (m : JsMap.t V) k v :
  JsMap.delete (JsMap.set m k v) k = JsMap.delete m k.
Proof.
  induction m as [| [k0 v0] m IH]; cbn.
  - now rewrite String.eqb_refl.
  - destruct (String.eqb k k0) eqn:E; cbn; rewrite E; [ reflexivity | now rewrite IH ].
Qed.

Lemma get_delete_other (m : JsMap.t V) k k' :
  k' <> k -> JsMap.get (JsMap.delete m k) k' = JsMap.get m k'.
Proof.
  intros N. induction m as [| [k0 v0] m IH]; cbn; [ reflexivity |].
  destruct (String.eqb k k0) eqn:E; cbn.
  - apply String.eqb_eq in E. subst k0.
    destruct (String.eqb k' k) eqn:E'; [| reflexivity ].
    apply String.eqb_eq in E'. congruence.
  - now rewrite IH.
Qed.

Lemma keys_delete (m : JsMap.t V) k :
  NoDup (JsMap.keys m) ->
  JsMap.keys (JsMap.delete m k)
  = filter (fun k' => negb (String.eqb k k')) (JsMap.keys m).
Proof.
  induction m as [| [k0 v0] m IH]; intros N; cbn; [ reflexivity |].
  inversion N as [| ? ? Hk Hm]; subst.
  destruct (String.eqb k k0) eqn:E; cbn.
  - apply String.eqb_eq in E. subst k0.
    symmetry. apply forallb_filter_id. apply forallb_forall. intros x Hx.
    apply negb_true_iff, String.eqb_neq. intros ->. contradiction.
  - f_equal. now apply IH.
Qed.

Lemma get_delete_same (m : JsMap.t V) k :
  NoDup (JsMap.keys m) -> JsMap.get (JsMap.delete m k) k = None.
Proof.
  intros N. apply get_none_iff. rewrite keys_delete by assumption.
  rewrite filter_In. intros [_ H]. now rewrite String.eqb_refl in H.
Qed.

Lemma values_delete (m : JsMap.t V) k :
  NoDup (JsMap.keys m) ->
  JsMap.values (JsMap.delete m k)
  = map snd (filter (fun kv => negb (String.eqb k (fst kv))) m).
Proof.
  induction m as [| [k0 v0] m IH]; intros N; cbn; [ reflexivity |].
  inversion N as [| ? ? Hk Hm]; subst.
  destruct (String.eqb k k0) eqn:E; cbn.
  - apply String.eqb_eq in E. subst k0. unfold JsMap.values. f_equal.
    symmetry. apply forallb_filter_id. apply forallb_forall. intros [x v] Hx.
    apply negb_true_iff, String.eqb_neq. cbn. intros ->.
    apply Hk. unfold JsMap.keys. now apply (in_map fst) in Hx.
  - f_equal. now apply IH.
Qed.
End DeleteFacts.

Lemma delete_update {V} (m : JsMap.t V) id (f : V -> V) :
  JsMap.delete (match JsMap.get m id with
                | Some o => JsMap.set m id (f o)
                | None => m
                end) id
  = JsMap.delete m id.
Proof. destruct (JsMap.get m id); [ apply delete_set_same | reflexivity ]. Qed.

(** [removeRenderObject] answers [false] and does nothing for an id that
    is not there.  For an object that is there it destroys the buffers of
    its plane and its uniform buffer and takes it out of the mapping: the
    object can no longer be looked up, the other objects keep their order,
    and the uniform manager still holds the buffer under its label. *)
Theorem removeRenderObject_outcome id h :
  (JsMap.get (renderObjects (podium h)) id = None ->
   Podium.removeRenderObject id h = (Ret false, h)) /\
  (forall obj,
      JsMap.get (renderObjects (podium h)) id = Some obj ->
      NoDup (JsMap.keys (renderObjects (podium h))) ->
      accepts h ->
      exists h',
        Podium.removeRenderObject id h = (Ret true, h') /\
        Podium.getRenderObject id h' = (Ret None, h') /\
        (forall k, k <> id ->
                   JsMap.get (renderObjects (podium h')) k
                   = JsMap.get (renderObjects (podium h)) k) /\
        JsMap.values (renderObjects (podium h'))
        = map snd (filter (fun kv => negb (String.eqb id (fst kv)))
                          (renderObjects (podium h))) /\
        calls_made h h' (map DestroyBuffer (buffersOf obj)) /\
        uniformManager h' = uniformManager h).
Proof.
  split.
  - intros G. unfold Podium.removeRenderObject. js_unfold. now rewrite G.
  - intros obj G N A.
    destruct (Podium.removeRenderObject id h) as [res h'] eqn:H.
    unfold Podium.removeRenderObject, Podium.release_object, Podium.update_object in H.
    js_unfold_in H. rewrite G in H.
    run_accepting A H;
      (eexists; split; [ reflexivity |]);
      unfold Podium.getRenderObject, gets;
      cbn [podium set_podium record renderObjects Podium.set_renderObjects
           uniformManager];
      rewrite ?delete_update;
      (split; [ now rewrite get_delete_same |]);
      (split; [ intros k K; now apply get_delete_other |]);
      (split; [ now apply values_delete |]);
      (split; [| reflexivity ]);
      (eapply calls_made_intro;
       [ cbn [history set_podium record];
         first [ rewrite <- ?app_assoc; reflexivity | symmetry; apply app_nil_r ]
       | unfold buffersOf; rewrite E, E0, E1; reflexivity
       | repeat constructor; discriminate ]).
Qed.

Lemma removeRenderObject_outcome_witness :
  exists h',
    Podium.removeRenderObject "hidden" sample_scene = (Ret true, h') /\
    Podium.getRenderObject "hidden" h' = (Ret None, h') /\
    JsMap.values (renderObjects (podium h'))
    = [sample_object "front" 0 true; sample_object "back" 20 true] /\
    calls_made sample_scene h' [DestroyBuffer 110%nat; DestroyBuffer 111%nat;
                                DestroyBuffer 114%nat].
Proof.
  destruct (removeRenderObject_outcome "hidden" sample_scene) as (_ & Rm).
  destruct (Rm (sample_object "hidden" 10 false))
    as (h' & E & G & _ & V & C & _).
  - vm_compute. reflexivity.
  - vm_compute. repeat constructor; cbn; intuition discriminate.
  - intros n c. reflexivity.
  - exists h'. split; [ exact E |]. split; [ exact G |].
    split; [ exact V | exact C ].
Defined.

(* ================================================================== *)
(** * The kinds of host calls a computation makes *)
(* ================================================================== *)

Section Emits.
Variable Q : ApiCall -> bool.

Lemma emits_silent {A} (c : Js A) : preserves history c -> emits Q c.
Proof.
  intros P h r h' H. exists []. rewrite app_nil_r. split; [| constructor ].
  eapply P; eauto.
Qed.

Lemma emits_ret {A} (a : A) : emits Q (ret a).
Proof. apply emits_silent. intros h r h' H. now inversion H. Qed.

Lemma emits_gets {A} (f : Heap -> A) : emits Q (gets f).
Proof. apply emits_silent. intros h r h' H. now inversion H. Qed.

Lemma emits_throw {A} e : emits Q (@throw A e).
Proof. apply emits_silent. intros h r h' H. now inversion H. Qed.

Lemma emits_modify f : (forall h, history (f h) = history h) -> emits Q (modify f).
Proof. intros Hf. apply emits_silent. intros h r h' H. inversion H. apply Hf. Qed.

Lemma emits_bind {A B} (c : Js A) (k : A -> Js B) :
  emits Q c -> (forall a, emits Q (k a)) -> emits Q (bind c k).
Proof.
  intros Hc Hk h r h' H. rewrite bind_eq in H.
  destruct (c h) as [[a | e] h1] eqn:E.
  - destruct (Hc _ _ _ E) as (evs1 & H1 & F1).
    destruct (Hk a _ _ _ H) as (evs2 & H2 & F2).
    exists (evs1 ++ evs2). split.
    + now rewrite H2, H1, app_assoc.
    + apply Forall_app. now split.
  - inversion H; subst. eapply Hc; eauto.
Qed.

Lemma emits_try_catch {A} (c : Js A) (handler : Exn -> Js A) :
  emits Q c -> (forall e, emits Q (handler e)) -> emits Q (try_catch c handler).
Proof.
  intros Hc Hk h r h' H. unfold try_catch in H.
  destruct (c h) as [[a | e] h1] eqn:E.
  - inversion H; subst. eapply Hc; eauto.
  - destruct (Hc _ _ _ E) as (evs1 & H1 & F1).
    destruct (Hk e _ _ _ H) as (evs2 & H2 & F2).
    exists (evs1 ++ evs2). split.
    + now rewrite H2, H1, app_assoc.
    + apply Forall_app. now split.
Qed.

Lemma emits_forEach {A} (xs : list A) (body : A -> Js unit) :
  (forall x, emits Q (body x)) -> emits Q (forEach xs body).
Proof.
  intros Hb. induction xs as [| x xs IH]; cbn [forEach].
  - apply emits_ret.
  - apply emits_bind; [ apply Hb | intros _; exact IH ].
Qed.

Lemma emits_host_call c : Q c = true -> emits Q (host_call c).
Proof.
  intros Qc h r h' H. unfold host_call in H.
  destruct (rejects _ _ _); inversion H; subst;
    (eexists; split; [ reflexivity | now repeat constructor ]).
Qed.

Lemma emits_host_call_nullable c : Q c = true -> emits Q (host_call_nullable c).
Proof.
  intros Qc h r h' H. unfold host_call_nullable in H.
  destruct (rejects _ _ _); [| destruct (nulls _ _ _) ]; inversion H; subst;
    (eexists; split; [ reflexivity | now repeat constructor ]).
Qed.

Lemma emits_console_error msg : emits Q (console_error msg).
Proof. apply emits_modify. reflexivity. Qed.

Lemma emits_console_warn msg : emits Q (console_warn msg).
Proof. apply emits_modify. reflexivity. Qed.

Lemma emits_non_null {A} what (x : option A) : emits Q (non_null what x).
Proof. destruct x; [ apply emits_ret | apply emits_throw ]. Qed.

Lemma emits_weaken {A} (Q' : ApiCall -> bool) (c : Js A) :
  (forall x, Q' x = true -> Q x = true) -> emits Q' c -> emits Q c.
Proof.
  intros W Hc h r h' H. destruct (Hc _ _ _ H) as (evs & Hh & F).
  exists evs. split; [ exact Hh |]. eapply Forall_impl; [| exact F ].
  intros e. apply W.
Qed.
End Emits.

Ltac emits_step :=
  lazymatch goal with
  | |- emits _ (bind _ _) => apply emits_bind; [| intros ? ]
  | |- emits _ (ret _) => apply emits_ret
  | |- emits _ (gets _) => apply emits_gets
  | |- emits _ (throw _) => apply emits_throw
  | |- emits _ (non_null _ _) => apply emits_non_null
  | |- emits _ performance_now_ => apply emits_gets
  | |- emits _ (try_catch _ _) => apply emits_try_catch; [| intros ? ]
  | |- emits _ (forEach _ _) => apply emits_forEach; intros ?
  | |- emits _ (host_call _) => apply emits_host_call; reflexivity
  | |- emits _ (host_call_nullable _) => apply emits_host_call_nullable; reflexivity
  | |- emits _ (console_error _) => apply emits_console_error
  | |- emits _ (console_warn _) => apply emits_console_warn
  | |- emits _ (modify _) => apply emits_modify; intros; reflexivity
  | |- emits _ (match ?x with _ => _ end) => destruct x
  | |- emits _ (if ?x then _ else _) => destruct x
  end.

Create HintDb calls.

Ltac emits_tac := repeat first [ solve [ auto with calls ] | emits_step ].

Section PassWork.

Lemma updateUniformBuffer_work label data offset :
  emits pass_work (UniformManager.updateUniformBuffer label data offset).
Proof.
  unfold UniformManager.updateUniformBuffer, UniformManager.serializeUniformData.
  emits_tac.
Qed.

Lemma updateUniforms_work id data : emits pass_work (Podium.updateUniforms id data).
Proof.
  unfold Podium.updateUniforms. pose proof updateUniformBuffer_work. emits_tac.
Qed.

Lemma getCurrentTextureView_work : emits pass_work WebGPUContext.getCurrentTextureView.
Proof. unfold WebGPUContext.getCurrentTextureView. emits_tac. Qed.

Lemma this_work : emits pass_work PostProcessor.this.
Proof. unfold PostProcessor.this. emits_tac. Qed.

Lemma beginRenderToTexture_work e : emits pass_work (PostProcessor.beginRenderToTexture e).
Proof.
  unfold PostProcessor.beginRenderToTexture. pose proof this_work. emits_tac.
Qed.

Lemma drawLoop_work renderPass objs :
  forall n, emits pass_work (Podium.drawLoop renderPass objs n).
Proof.
  induction objs as [| obj objs IH]; intros n; cbn [Podium.drawLoop].
  - apply emits_ret.
  - unfold Plane.bind, Plane.draw. emits_tac; apply IH.
Qed.

Lemma createSampler_work label options :
  emits pass_work (TextureManager.createSampler label options).
Proof. unfold TextureManager.createSampler. emits_tac. Qed.

Lemma createPipeline_work label src options :
  emits pass_work (ShaderManager.createPipeline label src options).
Proof.
  unfold ShaderManager.createPipeline, ShaderManager.createShaderModule,
    ShaderManager.checkCompilation, ShaderManager.createDefaultBindGroupLayout.
  emits_tac.
Qed.

Lemma updateEffectUniforms_work id options :
  emits pass_work (PostProcessor.updateEffectUniforms id options).
Proof.
  unfold PostProcessor.updateEffectUniforms.
  pose proof this_work. pose proof updateUniformBuffer_work. emits_tac.
Qed.

Lemma renderPostProcessPass_work renderPass pass input time :
  emits pass_work (PostProcessor.renderPostProcessPass renderPass pass input time).
Proof.
  unfold PostProcessor.renderPostProcessPass,
    PostProcessor.createPostProcessBindGroupLayout,
    PostProcessor.createPostProcessBindGroup, TextureManager.getSampler,
    Plane.bind, Plane.draw.
  pose proof this_work. pose proof updateEffectUniforms_work. emits_tac.
Qed.

Lemma copyToFinalTarget_work e source target :
  emits pass_work (PostProcessor.copyToFinalTarget e source target).
Proof.
  unfold PostProcessor.copyToFinalTarget, ShaderManager.getPipeline,
    TextureManager.getSampler, Plane.bind, Plane.draw.
  pose proof this_work. pose proof createPipeline_work.
  pose proof createSampler_work. emits_tac.
Qed.

Lemma passLoop_work e final time n rest :
  forall i input, emits pass_work (PostProcessor.passLoop e final time n i rest input).
Proof.
  induction rest as [| pass rest IH]; intros i input; cbn [PostProcessor.passLoop].
  - apply emits_ret.
  - pose proof this_work. pose proof renderPostProcessPass_work.
    emits_tac; apply IH.
Qed.

Lemma applyPostProcessing_work e final time :
  emits pass_work (PostProcessor.applyPostProcessing e final time).
Proof.
  unfold PostProcessor.applyPostProcessing.
  pose proof this_work. pose proof copyToFinalTarget_work.
  pose proof passLoop_work. emits_tac.
Qed.

Lemma work_is_frugal {A} (c : Js A) : emits pass_work c -> emits frugal c.
Proof.
  apply emits_weaken. intros x. unfold pass_work, frugal.
  now intros H%andb_true_iff.
Qed.

End PassWork.

(** Whatever the browser does and however the frame ends, [render]
    creates no texture and no buffer and destroys nothing: it uploads
    uniforms, encodes and submits passes, and creates the views, bind
    groups, layouts and pipelines of the passes. *)
Theorem render_allocates_nothing currentTime :
  emits frugal (Podium.render currentTime).
Proof.
  unfold Podium.render.
  pose proof (fun id data => work_is_frugal _ (updateUniforms_work id data)).
  pose proof (work_is_frugal _ getCurrentTextureView_work).
  pose proof (fun e => work_is_frugal _ (beginRenderToTexture_work e)).
  pose proof (fun r o n => work_is_frugal _ (drawLoop_work r o n)).
  pose proof (fun e f t => work_is_frugal _ (applyPostProcessing_work e f t)).
  emits_tac.
Qed.

Lemma render_allocates_nothing_witness :
  exists evs,
    history (snd (Podium.render (JsNumber.of_Z 5) sample_scene))
    = history sample_scene ++ evs /\
    Forall (fun e => frugal (ev_call e) = true) evs.
Proof.
  apply (render_allocates_nothing (JsNumber.of_Z 5) sample_scene
           (fst (Podium.render (JsNumber.of_Z 5) sample_scene))
           (snd (Podium.render (JsNumber.of_Z 5) sample_scene))).
  apply surjective_pairing.
Defined.

(* ================================================================== *)
(** * The frame counter *)
(* ================================================================== *)

Section Podium_untouched.

Lemma updateUniforms_podium id data : preserves podium (Podium.updateUniforms id data).
Proof.
  unfold Podium.updateUniforms, UniformManager.updateUniformBuffer,
    UniformManager.serializeUniformData.
  preserves_tac.
Qed.

Lemma getCurrentTextureView_podium : preserves podium WebGPUContext.getCurrentTextureView.
Proof. unfold WebGPUContext.getCurrentTextureView. preserves_tac. Qed.

Lemma beginRenderToTexture_podium e :
  preserves podium (PostProcessor.beginRenderToTexture e).
Proof. unfold PostProcessor.beginRenderToTexture, PostProcessor.this. preserves_tac. Qed.

Lemma drawLoop_podium renderPass objs :
  forall n, preserves podium (Podium.drawLoop renderPass objs n).
Proof.
  induction objs as [| obj objs IH]; intros n; cbn [Podium.drawLoop].
  - apply preserves_ret.
  - unfold Plane.bind, Plane.draw. preserves_tac; apply IH.
Qed.

Lemma renderPostProcessPass_podium renderPass pass input time :
  preserves podium (PostProcessor.renderPostProcessPass renderPass pass input time).
Proof.
  unfold PostProcessor.renderPostProcessPass, PostProcessor.updateEffectUniforms,
    UniformManager.updateUniformBuffer, UniformManager.serializeUniformData,
    PostProcessor.createPostProcessBindGroupLayout,
    PostProcessor.createPostProcessBindGroup, TextureManager.getSampler,
    PostProcessor.this, Plane.bind, Plane.draw.
  preserves_tac.
Qed.

Lemma copyToFinalTarget_podium e source target :
  preserves podium (PostProcessor.copyToFinalTarget e source target).
Proof.
  unfold PostProcessor.copyToFinalTarget, ShaderManager.getPipeline,
    ShaderManager.createPipeline, ShaderManager.createShaderModule,
    ShaderManager.checkCompilation, ShaderManager.createDefaultBindGroupLayout,
    TextureManager.getSampler, TextureManager.createSampler,
    PostProcessor.this, Plane.bind, Plane.draw.
  preserves_tac.
Qed.

Lemma passLoop_podium e final time n rest :
  forall i input, preserves podium (PostProcessor.passLoop e final time n i rest input).
Proof.
  induction rest as [| pass rest IH]; intros i input; cbn [PostProcessor.passLoop].
  - apply preserves_ret.
  - pose proof renderPostProcessPass_podium. unfold PostProcessor.this.
    preserves_tac; apply IH.
Qed.

Lemma applyPostProcessing_podium e final time :
  preserves podium (PostProcessor.applyPostProcessing e final time).
Proof.
  unfold PostProcessor.applyPostProcessing, PostProcessor.this.
  pose proof copyToFinalTarget_podium. pose proof passLoop_podium.
  preserves_tac.
Qed.

End Podium_untouched.

Lemma no_submissions evs :
  Forall (fun e => no_submit (ev_call e) = true) evs -> submissions evs = 0%nat.
Proof.
  unfold submissions. induction 1 as [| e evs Q F IH]; [ reflexivity |].
  cbn [filter]. unfold submitted at 1.
  destruct (ev_call e); try discriminate Q; exact IH.
Qed.

Lemma submissions_app evs1 evs2 :
  submissions (evs1 ++ evs2) = (submissions evs1 + submissions evs2)%nat.
Proof. unfold submissions. now rewrite filter_app, length_app. Qed.

Lemma counts_quiet {A} (c : Js A) :
  emits no_submit c -> preserves podium c -> counts_frames c.
Proof.
  intros E P h r h' H. destruct (E _ _ _ H) as (evs & Hh & F).
  exists evs. rewrite (no_submissions _ F). unfold frames.
  rewrite (P _ _ _ H). repeat split; [ exact Hh | lia | lia ].
Qed.

Lemma counts_bind {A B} (c : Js A) (k : A -> Js B) :
  emits no_submit c -> preserves podium c ->
  (forall a, counts_frames (k a)) -> counts_frames (bind c k).
Proof.
  intros E P K h r h' H. rewrite bind_eq in H.
  destruct (c h) as [[a | e] h1] eqn:C.
  - destruct (E _ _ _ C) as (evs1 & H1 & F1).
    destruct (K a _ _ _ H) as (evs2 & H2 & L & N).
    exists (evs1 ++ evs2).
    rewrite submissions_app, (no_submissions _ F1).
    unfold frames in *. rewrite (P _ _ _ C) in N.
    repeat split; [ now rewrite H2, H1, app_assoc | exact L | exact N ].
  - inversion H; subst. eapply counts_quiet; eauto.
Qed.

(** The end of a frame: the submission and the increment that follows
    it. *)
Lemma counts_submission (commands : GPUCommandBuffer) :
  counts_frames
    (host_call (Submit commands) ;;;
     fc <- gets (fun h => frameCount (podium h)) ;;
     modify (set_podium (Podium.set_frameCount (S fc)))).
Proof.
  intros h r h' H. run_in H; eexists; (split; [ reflexivity |]);
    unfold frames, submissions; cbn; split; lia.
Qed.

Lemma work_no_submit {A} (c : Js A) : emits pass_work c -> emits no_submit c.
Proof.
  apply emits_weaken. intros x. unfold pass_work.
  intros H%andb_true_iff. destruct H as [_ H]. now destruct x.
Qed.

Ltac counts_step :=
  lazymatch goal with
  | |- counts_frames (bind (host_call (Submit _)) _) => apply counts_submission
  | |- counts_frames (bind _ _) =>
      apply counts_bind; [ emits_tac | preserves_tac | intros ? ]
  | |- counts_frames (match ?x with _ => _ end) => destruct x
  | |- counts_frames (if ?x then _ else _) => destruct x
  | |- counts_frames _ => apply counts_quiet; [ emits_tac | preserves_tac ]
  end.

(** [render] submits at most one command buffer, and the frame counter
    goes up by one exactly when the queue accepted it: whatever the
    browser does and however [render] ends, the counter counts the
    submitted frames. *)
Theorem render_counts_frames currentTime : counts_frames (Podium.render currentTime).
Proof.
  unfold Podium.render.
  pose proof (fun id data => work_no_submit _ (updateUniforms_work id data)).
  pose proof (work_no_submit _ getCurrentTextureView_work).
  pose proof (fun e => work_no_submit _ (beginRenderToTexture_work e)).
  pose proof (fun r o n => work_no_submit _ (drawLoop_work r o n)).
  pose proof (fun e f t => work_no_submit _ (applyPostProcessing_work e f t)).
  pose proof updateUniforms_podium. pose proof getCurrentTextureView_podium.
  pose proof beginRenderToTexture_podium. pose proof drawLoop_podium.
  pose proof applyPostProcessing_podium.
  repeat counts_step.
Qed.

Lemma render_counts_frames_witness :
  exists evs,
    history (snd (Podium.render (JsNumber.of_Z 5) sample_scene))
    = history sample_scene ++ evs /\
    (submissions evs <= 1)%nat /\
    frames (snd (Podium.render (JsNumber.of_Z 5) sample_scene))
    = (frames sample_scene + submissions evs)%nat.
Proof.
  apply (render_counts_frames (JsNumber.of_Z 5) sample_scene
           (fst (Podium.render (JsNumber.of_Z 5) sample_scene))
           (snd (Podium.render (JsNumber.of_Z 5) sample_scene))).
  apply surjective_pairing.
Defined.
